(** * Feature pipeline of the reading-behaviour simulation

    Shallow embedding of [src/project/utils.py] and
    [src/project/data/data_preparation.py], and the properties of the
    pipeline that are stated about them. *)

From Stdlib Require Import ZArith Floats List Lia Ascii String.
From stdpp Require Import gmap strings list sorting.

Local Open Scope Z_scope.

(** * Part I: the program *)

(** ** [utils.py] *)

Module Utils.

(** [divide_into_three]. Python's [//] and [%] on [int] round towards minus
    infinity, as [Z.div] and [Z.modulo] do for the positive divisor 3. *)
Definition divide_into_three (n : Z) : Z * Z * Z :=
  let part := n / 3 in
  let remainder := n mod 3 in
  if remainder =? 0 then (part, part, part)
  else if remainder =? 1 then (part + 1, part, part)
  else (part + 1, part + 1, part).

(** The three components, in tier order. *)
Definition low_of (d : Z * Z * Z) : Z := fst (fst d).
Definition mid_of (d : Z * Z * Z) : Z := snd (fst d).
Definition high_of (d : Z * Z * Z) : Z := snd d.

End Utils.

(** ** Python strings

    A [str] is modelled as a [string] whose characters are code points below
    256. *)

Module PyStr.

(** [str.isspace] on one character: the code points below 256 that Python
    classifies as whitespace. *)
Definition is_space (c : ascii) : bool :=
  let n := N_of_ascii c in
  ((9 <=? n) && (n <=? 13) || (28 <=? n) && (n <=? 32)
   || (n =? 133) || (n =? 160))%N.

(** [s.split(sep)] for a one-character separator: never empty, one more
    piece than there are separators. *)
Fixpoint split (sep : ascii) (s : string) : list string :=
  match s with
  | EmptyString => [EmptyString]
  | String c s' =>
      if Ascii.eqb c sep then EmptyString :: split sep s'
      else match split sep s' with
           | [] => [String c EmptyString]
           | w :: ws => String c w :: ws
           end
  end.

Fixpoint lstrip (s : string) : string :=
  match s with
  | EmptyString => EmptyString
  | String c s' => if is_space c then lstrip s' else s
  end.

Fixpoint rstrip (s : string) : string :=
  match s with
  | EmptyString => EmptyString
  | String c s' =>
      match rstrip s' with
      | EmptyString => if is_space c then EmptyString else String c EmptyString
      | r => String c r
      end
  end.

(** [s.strip()] *)
Definition strip (s : string) : string := rstrip (lstrip s).

(** [s.replace(old, new)] for one-character [old] and [new]. *)
Fixpoint replace (old new : ascii) (s : string) : string :=
  match s with
  | EmptyString => EmptyString
  | String c s' =>
      String (if Ascii.eqb c old then new else c) (replace old new s')
  end.

End PyStr.

(** ** Python values, exceptions and numbers *)

Module Py.

Inductive exn : Type :=
  | ValueError
  | TypeError
  | IndexError
  | ZeroDivisionError
  | OverflowError.

(** The outcome of a call: a value, or a raised exception. *)
Inductive result (A : Type) : Type :=
  | Ok (a : A)
  | Raise (e : exn).
Arguments Ok {A} a.
Arguments Raise {A} e.

Definition bind {A B : Type} (r : result A) (k : A -> result B) : result B :=
  match r with
  | Ok a => k a
  | Raise e => Raise e
  end.

(** Two calls agree: both raise the same exception, or both return, with
    results related by [same]. *)
Definition agree {A : Type} (same : A -> A -> Prop) (r1 r2 : result A)
  : Prop :=
  match r1, r2 with
  | Ok a1, Ok a2 => same a1 a2
  | Raise e1, Raise e2 => e1 = e2
  | _, _ => False
  end.

(** A loop whose body may raise: the first exception ends it. *)
Fixpoint for_each {A S : Type} (body : S -> A -> result S) (s : S)
    (l : list A) : result S :=
  match l with
  | [] => Ok s
  | a :: l' => bind (body s a) (fun s' => for_each body s' l')
  end.

(** A comprehension whose element expression may raise. *)
Fixpoint map_each {A B : Type} (f : A -> result B) (l : list A)
  : result (list B) :=
  match l with
  | [] => Ok []
  | a :: l' =>
      bind (f a) (fun b => bind (map_each f l') (fun bs => Ok (b :: bs)))
  end.

(** The dynamically typed values that reach the functions below. *)
Inductive value : Type :=
  | None_
  | Bool (b : bool)
  | Int (z : Z)
  | Float (f : float)
  | Str (s : string).

(** Truth value, as tested by [if x] and [not x]. *)
Definition truthy (v : value) : bool :=
  match v with
  | None_ => false
  | Bool b => b
  | Int z => negb (z =? 0)
  | Float f => negb (f =? 0)%float
  | Str s => negb (String.eqb s EmptyString)
  end.

(** [v > 0]. [None] and strings are not ordered against an [int]. *)
Definition gt_zero (v : value) : result bool :=
  match v with
  | None_ => Raise TypeError
  | Bool b => Ok b
  | Int z => Ok (0 <? z)
  | Float f => Ok (0 <? f)%float
  | Str _ => Raise TypeError
  end.

(** [float(z)]: the binary64 number nearest to [z], ties to even. (Python
    raises [OverflowError] for an [int] beyond the range of the floats,
    where this gives an infinity.) *)
Definition float_of_int (z : Z) : float :=
  SF2Prim (binary_normalize prec emax z 0 false).

(** [x / z] for a float [x] and an [int] [z]: [z] is converted, and a zero
    divisor, which is the conversion of no other [int] than 0, is
    refused. *)
Definition float_div_int (x : float) (z : Z) : result float :=
  if z =? 0 then Raise ZeroDivisionError
  else Ok (x / float_of_int z)%float.

(** [a / b] on two [int]s: the quotient as a float. Both operands are
    converted first, which is the correctly rounded quotient as long as
    they are below 2^53 in magnitude. *)
Definition int_truediv (a b : Z) : result float :=
  if b =? 0 then Raise ZeroDivisionError
  else Ok (float_of_int a / float_of_int b)%float.

(** The integer nearest to [m * 2^e] for [m >= 0], ties to even. *)
Definition round_half_even_scaled (m e : Z) : Z :=
  if 0 <=? e then m * 2 ^ e
  else
    let d := 2 ^ (- e) in
    let q := m / d in
    let r := m mod d in
    if 2 * r <? d then q
    else if d <? 2 * r then q + 1
    else if Z.even q then q else q + 1.

(** [round(x)] on a float: an [int], ties to even. *)
Definition round_to_int (x : float) : result Z :=
  match Prim2SF x with
  | S754_zero _ => Ok 0
  | S754_infinity _ => Raise OverflowError
  | S754_nan => Raise ValueError
  | S754_finite s m e =>
      let k := round_half_even_scaled (Z.pos m) e in
      Ok (if s then - k else k)
  end.

(** [round(x, ndigits)] on a float, for [ndigits >= 0]: the decimal with
    [ndigits] places nearest to the exact value of [x], ties to even, read
    back as a float. The quotient below is that float as long as the scaled
    integer is below 2^53. *)
Definition round_ndigits (x : float) (ndigits : Z) : float :=
  match Prim2SF x with
  | S754_finite s m e =>
      let k := round_half_even_scaled (Z.pos m * 10 ^ ndigits) e in
      let r := (float_of_int k / float_of_int (10 ^ ndigits))%float in
      if s then (- r)%float else r
  | _ => x
  end.

(** [l[:h]] and [l[h:]] with Python's reading of a negative bound. *)
Definition slice_to {A : Type} (h : Z) (l : list A) : list A :=
  if 0 <=? h then take (Z.to_nat h) l
  else take (Z.to_nat (Z.of_nat (length l) + h)) l.

Definition slice_from {A : Type} (h : Z) (l : list A) : list A :=
  if 0 <=? h then drop (Z.to_nat h) l
  else drop (Z.to_nat (Z.of_nat (length l) + h)) l.

(** [l.index(x)], when [x] occurs in [l]. *)
Fixpoint index (x : string) (l : list string) : option nat :=
  match l with
  | [] => None
  | y :: l' => if String.eqb y x then Some 0%nat else S <$> index x l'
  end.

End Py.

(** Sequencing of calls that may raise. *)
Notation "'let*' x := e 'in' k" := (Py.bind e (fun x => k))
  (at level 10, x name, e at level 100, k at level 200).

(** ** numpy on one-dimensional float arrays *)

Module Np.

(** [np.maximum] on two floats: a NaN operand is returned. *)
Definition maximum (a b : float) : float :=
  if (b <=? a)%float || is_nan a then a else b.

(** [np.max]: raises on an empty array, and is NaN as soon as one entry
    is. *)
Definition max (v : list float) : Py.result float :=
  match v with
  | [] => Py.Raise Py.ValueError
  | x :: v' => Py.Ok (foldl maximum x v')
  end.

(** The positions, counted from [j], at which the mask [v == x] holds. *)
Fixpoint where_eq_from (j : nat) (v : list float) (x : float) : list nat :=
  match v with
  | [] => []
  | y :: v' =>
      if (y =? x)%float then j :: where_eq_from (S j) v' x
      else where_eq_from (S j) v' x
  end.

(** [np.where(v == x)], for the one row [v]: the column positions. *)
Definition where_eq (v : list float) (x : float) : list nat :=
  where_eq_from 0 v x.

(** [np.all(v == x)] *)
Definition all_eq (v : list float) (x : float) : bool :=
  forallb (fun y => (y =? x)%float) v.

(** Sum of the entries. The order in which numpy and the BLAS add the
    terms of a reduction is not fixed by the source; it is left to right
    here. *)
Definition sum (v : list float) : float :=
  foldl (fun acc x => (acc + x)%float) 0%float v.

(** [np.linalg.norm] of one row. *)
Definition norm (v : list float) : float :=
  sqrt (sum (map (fun x => (x * x)%float) v)).

(** [v / s] for a scalar [s]: element by element, no exception (a zero
    divisor gives an infinity or NaN). *)
Definition scale_down (v : list float) (s : float) : list float :=
  map (fun x => (x / s)%float) v.

(** One entry of [np.dot(A, B.T)]: the inner product of two rows. *)
Definition dot (u v : list float) : float :=
  sum (zip_with (fun x y => (x * y)%float) u v).

(** [x.reshape(16)]: the entries must be sixteen. *)
Definition reshape16 (v : list float) : Py.result (list float) :=
  if (length v =? 16)%nat then Py.Ok v else Py.Raise Py.ValueError.

(** [np.stack] of a list of rows; an empty list is refused. *)
Definition stack (rows : list (list float)) : Py.result (list (list float)) :=
  match rows with
  | [] => Py.Raise Py.ValueError
  | _ => Py.Ok rows
  end.

End Np.

(** ** [data_preparation.py]: the genre vectorizer *)

Module GenreVectorizer.

(** [g.strip().replace(" ", "_").replace("-", "_")] *)
Definition canonical (g : string) : string :=
  PyStr.replace "-" "_" (PyStr.replace " " "_" (PyStr.strip g)).

(** The canonical labels of one raw label, in the order of the inner loop:
    [genre.split(",")], each piece made canonical. *)
Definition labels (genre : string) : list string :=
  map canonical (PyStr.split "," genre).

(** The assignment in the inner loop. The conditional expression binds
    weaker than [+]:
    [genres[g] = (genres.get(g, 0) + value) if value > 0 else 0]. *)
Definition assign (value : Z) (genres : gmap string Z) (g : string)
  : gmap string Z :=
  <[g := if 0 <? value then default 0 (genres !! g) + value else 0]> genres.

(** One turn of the outer loop, for the entry [(genre, value)]. *)
Definition step (genres : gmap string Z) (entry : string * Z)
  : gmap string Z :=
  foldl (assign (snd entry)) genres (labels (fst entry)).

(** The two nested loops over [d.items()], from the state [genres]. *)
Definition accumulate (genres : gmap string Z) (d : list (string * Z))
  : gmap string Z :=
  foldl step genres d.

(** [genres.update({k: 0 for k in get_categories() if k not in genres})]:
    the comprehension is evaluated against [genres] as the loops left it. *)
Definition fill (categories : list string) (genres : gmap string Z)
  : gmap string Z :=
  foldl (fun acc k => <[k := 0]> acc) genres
        (filter (fun k => genres !! k = None) categories).

(** [reformat_dict]. The argument [d] lists the items of the input dict in
    iteration (insertion) order. [get_categories] is imported but defined in
    neither source file; its result is the parameter [categories]. *)
Definition reformat_dict (categories : list string) (d : list (string * Z))
  : gmap string Z :=
  fill categories (accumulate ∅ d).

(** Modelled from the spec: [get_categories] is not among the sources, and
    the specification fixes an ordered list of sixteen genre labels without
    naming them. This instance, the canonical labels of the Goodreads genre
    feed, serves to run the definitions on examples; the theorems are stated
    for any list [categories]. *)
Definition goodreads_categories : list string :=
  ["children"; "comics"; "graphic"; "fantasy"; "paranormal"; "fiction";
   "history"; "historical_fiction"; "biography"; "mystery"; "thriller";
   "crime"; "non_fiction"; "poetry"; "romance"; "young_adult"]%string.

End GenreVectorizer.

(** ** [data_preparation.py]: tables *)

Module Tables.

(** One row of the interactions feed. *)
Record interaction : Type := {
  user_id : Z;
  book_id : Z;
  is_read : Z;
  rating : Z;
  is_reviewed : Z
}.

(** [Series.drop_duplicates()]: each value once, at its first position. *)
Fixpoint drop_duplicates (l : list Z) : list Z :=
  match l with
  | [] => []
  | x :: l' => x :: filter (fun y => y <> x) (drop_duplicates l')
  end.

(** The keys of [df.groupby("user_id")]: each user once, in ascending
    order. *)
Definition group_keys (df : list interaction) : list Z :=
  merge_sort Z.le (drop_duplicates (map user_id df)).

(** [df.groupby("user_id")["book_id"].count().reset_index()] with the count
    renamed [book_count]: the rows of each user are counted (no [book_id]
    is missing in the feed). *)
Definition groupby_count (df : list interaction) : list (Z * Z) :=
  map (fun u =>
         (u, Z.of_nat (length (filter (fun r => user_id r = u) df))))
      (group_keys df).

(** [df.groupby("user_id")] with ["is_read": "sum"]. *)
Definition groupby_sum_is_read (df : list interaction) : list (Z * Z) :=
  map (fun u =>
         (u, foldl Z.add 0
               (map is_read (filter (fun r => user_id r = u) df))))
      (group_keys df).

(** The value joined to key [u] from a table with one row per key. *)
Fixpoint assoc (u : Z) (t : list (Z * Z)) : option Z :=
  match t with
  | [] => None
  | (k, c) :: t' => if decide (k = u) then Some c else assoc u t'
  end.

End Tables.

(** ** [data_preparation.py]: the stratified user sampler *)

Module Sampler.
Import Tables.

(** A row of [filtered_df] after the left merge with the counts. A user
    without a count would get a missing value, which no comparison
    accepts. *)
Record merged_row : Type := {
  row : interaction;
  book_count : option Z
}.

Definition row_user (r : merged_row) : Z := user_id (row r).

Definition count_le (c : option Z) (t : Z) : bool :=
  match c with
  | Some c => c <=? t
  | None => false
  end.

Definition count_gt (c : option Z) (t : Z) : bool :=
  match c with
  | Some c => t <? c
  | None => false
  end.

(** Lines 104 to 110: [filtered_df], the rows of the users that read at
    most [thresholds[2]] books, each with its user's [book_count]. *)
Definition candidates (df : list interaction) (thresholds : Z * Z * Z)
  : list merged_row :=
  let read_only_df := filter (fun r => is_read r = 1) df in
  let tmp_df := groupby_count read_only_df in
  let user_ids :=
    map fst (filter (fun p => p.2 <= Utils.high_of thresholds) tmp_df) in
  let filtered_df := filter (fun r => user_id r ∈ user_ids) df in
  map (fun r => {| row := r; book_count := assoc (user_id r) tmp_df |})
      filtered_df.

(** The users of the three groups, before sampling. *)
Definition low_pool (filtered_df : list merged_row) (thresholds : Z * Z * Z)
  : list Z :=
  drop_duplicates
    (map row_user
       (filter (fun r => count_le (book_count r) (Utils.low_of thresholds))
               filtered_df)).

Definition mid_pool (filtered_df : list merged_row) (thresholds : Z * Z * Z)
  : list Z :=
  drop_duplicates
    (map row_user
       (filter (fun r => count_le (book_count r) (Utils.mid_of thresholds)
                         && count_gt (book_count r) (Utils.low_of thresholds))
               filtered_df)).

Definition high_pool (filtered_df : list merged_row) (thresholds : Z * Z * Z)
  : list Z :=
  drop_duplicates
    (map row_user
       (filter (fun r => count_gt (book_count r) (Utils.mid_of thresholds))
               filtered_df)).

(** [pool.sample(n=n, random_state=seed)]. pandas refuses a negative [n],
    numpy an [n] above the size of the pool, both with a [ValueError];
    otherwise the rows at the positions drawn by
    [RandomState(seed).choice(len(pool), size=n, replace=False)] are taken.
    The generator is not part of the sources: [choice seed len n] stands for
    that draw, and the call without a seed, which draws from the state of
    the global generator, is not modelled. *)
Definition sample (choice : Z -> nat -> nat -> list nat)
    (pool : list Z) (n : Z) (seed : Z) : Py.result (list Z) :=
  if (n <? 0) || (Z.of_nat (length pool) <? n) then Py.Raise Py.ValueError
  else
    Py.map_each (fun p => match pool !! p with
                          | Some u => Py.Ok u
                          | None => Py.Raise Py.IndexError
                          end)
                (choice seed (length pool) (Z.to_nat n)).

Record samples : Type := {
  low_user_ids : list Z;
  mid_user_ids : list Z;
  high_user_ids : list Z
}.

(** Lines 113 to 121: the three draws, in this order. *)
Definition sample_tiers (choice : Z -> nat -> nat -> list nat)
    (df : list interaction) (n_users : Z) (seed : Z) (thresholds : Z * Z * Z)
  : Py.result samples :=
  let filtered_df := candidates df thresholds in
  let divisions := Utils.divide_into_three n_users in
  let* low :=
    sample choice (low_pool filtered_df thresholds)
           (Utils.low_of divisions) seed in
  let* mid :=
    sample choice (mid_pool filtered_df thresholds)
           (Utils.mid_of divisions) seed in
  let* high :=
    sample choice (high_pool filtered_df thresholds)
           (Utils.high_of divisions) seed in
  Py.Ok {| low_user_ids := low; mid_user_ids := mid;
           high_user_ids := high |}.

(** [filtered_df[filtered_df["user_id"].isin(ids)]] *)
Definition rows_of (filtered_df : list merged_row) (ids : list Z)
  : list merged_row :=
  filter (fun r => row_user r ∈ ids) filtered_df.

(** Lines 131 to 135: the flags of one group. [sample(frac=1)] asks for as
    many rows as there are. *)
Definition naiveness_map (choice : Z -> nat -> nat -> list nat) (seed : Z)
    (ignorant_proportion : float) (sub_df : list merged_row)
  : Py.result (gmap Z bool) :=
  let unique_users := drop_duplicates (map row_user sub_df) in
  let* shuffled_users :=
    sample choice unique_users (Z.of_nat (length unique_users)) seed in
  let* half_point :=
    Py.round_to_int (Py.float_of_int (Z.of_nat (length shuffled_users))
                     * ignorant_proportion)%float in
  let first_part : gmap Z bool :=
    foldl (fun m u => <[u := true]> m) ∅
          (Py.slice_to half_point shuffled_users) in
  Py.Ok (foldl (fun m u => <[u := false]> m) first_part
               (Py.slice_from half_point shuffled_users)).

(** A row of the result: the merged row and its [ignorant] flag
    ([Series.map] leaves a missing value for a user outside the map). *)
Record sampled_row : Type := {
  merged : merged_row;
  ignorant : option bool
}.

(** Lines 129 to 139 for one group. *)
Definition add_ignorance (choice : Z -> nat -> nat -> list nat) (seed : Z)
    (ignorant_proportion : float) (sub_df : list merged_row)
  : Py.result (list sampled_row) :=
  if Py.truthy (Py.Float ignorant_proportion) then
    let* m := naiveness_map choice seed ignorant_proportion sub_df in
    Py.Ok (map (fun r => {| merged := r; ignorant := m !! row_user r |})
               sub_df)
  else
    Py.Ok (map (fun r => {| merged := r; ignorant := Some false |}) sub_df).

(** [process_df_users_raw] *)
Definition process_df_users_raw (choice : Z -> nat -> nat -> list nat)
    (df : list interaction) (n_users : Z) (seed : Z) (thresholds : Z * Z * Z)
    (ignorant_proportion : float) : Py.result (list sampled_row) :=
  let filtered_df := candidates df thresholds in
  let* s := sample_tiers choice df n_users seed thresholds in
  let low_df := rows_of filtered_df (low_user_ids s) in
  let mid_df := rows_of filtered_df (mid_user_ids s) in
  let high_df := rows_of filtered_df (high_user_ids s) in
  let* low := add_ignorance choice seed ignorant_proportion low_df in
  let* mid := add_ignorance choice seed ignorant_proportion mid_df in
  let* high := add_ignorance choice seed ignorant_proportion high_df in
  Py.Ok (low ++ mid ++ high).

(** The user and the flag of each row of the result. *)
Definition flag_assignments (rows : list sampled_row)
  : list (Z * option bool) :=
  map (fun r => (row_user (merged r), ignorant r)) rows.

(** A draw that satisfies what [choice] promises (distinct positions inside
    the pool): the first [n] positions of the pool rotated by [seed]. It
    serves to run the sampler on examples. *)
Definition rotate_choice (seed : Z) (len n : nat) : list nat :=
  take n (rotate (Z.to_nat (seed mod Z.of_nat len)) (seq 0 len)).

(** What numpy documents for a draw without replacement of [n] positions
    out of [len]: [n] distinct positions, all inside the pool. *)
Definition valid_choice (choice : Z -> nat -> nat -> list nat) : Prop :=
  forall (seed : Z) (len n : nat),
    (n <= len)%nat ->
    length (choice seed len n) = n
    /\ NoDup (choice seed len n)
    /\ forall p, p ∈ choice seed len n -> (p < len)%nat.

(** Two users with one read book each, and the same two rows in the other
    order. *)
Definition rows_ab : list interaction :=
  [ {| user_id := 1; book_id := 10; is_read := 1; rating := 4;
       is_reviewed := 0 |};
    {| user_id := 2; book_id := 10; is_read := 1; rating := 5;
       is_reviewed := 0 |} ].

Definition rows_ba : list interaction := reverse rows_ab.

(** [count] read books of user [u], one row each. *)
Definition reader (u : Z) (count : nat) : list interaction :=
  map (fun b => {| user_id := u; book_id := Z.of_nat b; is_read := 1;
                   rating := 3; is_reviewed := 0 |})
      (seq 0 count).

(** One user per tier under the thresholds 5, 20 and 50, and a fourth user
    above them. *)
Definition one_per_tier : list interaction :=
  reader 1 3 ++ reader 2 12 ++ reader 3 35 ++ reader 4 51.

End Sampler.

(** ** [data_preparation.py]: item priority *)

Module ItemAggregator.

(** [calculate_priority(row, priority)]. [vector] is the single row of
    [row["vector"]], [draw] the number that [np.random.random()] returns on
    this call. The [if]/[elif] chain has no [else]: a strategy that matches
    no branch leaves the function at its end, which returns [None]. *)
Definition calculate_priority (categories : list string)
    (vector : list float) (priority : Py.value) (draw : float)
  : Py.result Py.value :=
  if negb (Py.truthy priority) then Py.Ok (Py.Int 0)
  else
    match priority with
    | Py.Float p =>
        Py.Ok (Py.Float (if (draw <? p)%float then 1 else 0))
    | Py.Str name =>
        match Py.index name categories with
        | Some cat_index =>
            let* max_value := Np.max vector in
            let max_indices := Np.where_eq vector max_value in
            Py.Ok (Py.Float
                     (if bool_decide (cat_index ∈ max_indices)
                         && negb (Np.all_eq vector 0)
                      then 1 else 0))
        | None => Py.Ok Py.None_
        end
    | _ => Py.Ok Py.None_
    end.

End ItemAggregator.

(** ** [data_preparation.py]: book scores *)

Module BookScorer.

(** The columns of the items table that the scorer reads. *)
Record item_row : Type := {
  vector : list float;
  priority : Py.value
}.

(** [Series.item()]: the only element of a series of length one. *)
Definition item {A : Type} (column : list A) : Py.result A :=
  match column with
  | [x] => Py.Ok x
  | _ => Py.Raise Py.ValueError
  end.

(** [df_items[df_items.index == book_id]] *)
Definition select (df_items : list (Z * item_row)) (book_id : Z)
  : list item_row :=
  map snd (filter (fun r => r.1 = book_id) df_items).

(** The body of the loop over [row["book_id"]]. [cosine_similarity] is
    scikit-learn's function on two single-row matrices, which may refuse
    its input. *)
Definition score_book
    (cosine_similarity : list float -> list float -> Py.result float)
    (user_vector : list float) (df_items : list (Z * item_row))
    (books : gmap Z Py.value) (book_id : Z) : Py.result (gmap Z Py.value) :=
  let item_rows := select df_items book_id in
  let* p := item (map priority item_rows) in
  let* flagged := Py.gt_zero p in
  if flagged then
    let* p' := item (map priority item_rows) in
    Py.Ok (<[book_id := p']> books)
  else
    let* item_vector := item (map vector item_rows) in
    let* similarity := cosine_similarity user_vector item_vector in
    Py.Ok (<[book_id := Py.Float similarity]> books).

(** [calculate_book_score(row, df_items)], for the row with vector
    [user_vector] and book list [book_ids]. *)
Definition calculate_book_score
    (cosine_similarity : list float -> list float -> Py.result float)
    (user_vector : list float) (book_ids : list Z)
    (df_items : list (Z * item_row)) : Py.result (gmap Z Py.value) :=
  Py.for_each (score_book cosine_similarity user_vector df_items) ∅ book_ids.

(** scikit-learn's [cosine_similarity] on two rows, as its documentation
    has it: rows are normalised with a zero norm replaced by 1, and rows of
    different lengths are refused. It serves to run the scorer on
    examples. *)
Definition sklearn_cosine_similarity (u v : list float) : Py.result float :=
  if (length u =? length v)%nat then
    let unit w :=
      let n := Np.norm w in
      Np.scale_down w (if (n =? 0)%float then 1%float else n) in
    Py.Ok (Np.dot (unit u) (unit v))
  else Py.Raise Py.ValueError.

End BookScorer.

(** ** [data_preparation.py]: read probabilities *)

Module UserAggregator.

(** Lines 237 to 242: the three rates. *)
Definition readers_proba (thresholds : Z * Z * Z) (steps : Z)
  : Py.result (float * float * float) :=
  let t0 := Utils.low_of thresholds in
  let t1 := Utils.mid_of thresholds in
  let t2 := Utils.high_of thresholds in
  let* low_readers_average := Py.int_truediv t0 2 in
  let* mid_half := Py.int_truediv (t1 - t0) 2 in
  let mid_readers_average := (mid_half + Py.float_of_int t0)%float in
  let* high_half := Py.int_truediv (t2 - t1) 2 in
  let high_readers_average := (high_half + Py.float_of_int t1)%float in
  let* low_rate := Py.float_div_int low_readers_average steps in
  let* mid_rate := Py.float_div_int mid_readers_average steps in
  let* high_rate := Py.float_div_int high_readers_average steps in
  Py.Ok (Py.round_ndigits low_rate 4, Py.round_ndigits mid_rate 4,
         Py.round_ndigits high_rate 4).

(** Lines 248 to 256: the nested [np.where] over the [is_read] column. *)
Definition where_read_proba (thresholds : Z * Z * Z)
    (probas : float * float * float) (is_read : list Z) : list float :=
  map (fun total =>
         if total <=? Utils.low_of thresholds then probas.1.1
         else if total <=? Utils.mid_of thresholds then probas.1.2
         else probas.2)
      is_read.

(** The part of [get_users_df] that computes the column [read_proba]
    (lines 237 to 256): the column beside the key and the [is_read] total
    of each user of the aggregated table. The other columns do not enter
    it. *)
Definition get_users_df_read_proba (df : list Tables.interaction)
    (steps : Z) (thresholds : Z * Z * Z)
  : Py.result (list (Z * Z * float)) :=
  let* probas := readers_proba thresholds steps in
  let users_df := Tables.groupby_sum_is_read df in
  Py.Ok (zip users_df (where_read_proba thresholds probas
                         (map snd users_df))).

End UserAggregator.

(** ** [data_preparation.py]: the similarity matrix *)

Module SimilarityEngine.

(** [d[k] = x] on a dict kept as the list of its items: a key already
    present keeps its place. *)
Fixpoint dict_set (k : Z) (x : float) (d : list (Z * float))
  : list (Z * float) :=
  match d with
  | [] => [(k, x)]
  | (k', x') :: d' =>
      if decide (k' = k) then (k, x) :: d' else (k', x') :: dict_set k x d'
  end.

(** Insertion behind every item that is not greater: the comparison is
    Python's [<] on the keys [item[1]]. *)
Fixpoint insert_by_score (it : Z * float) (l : list (Z * float))
  : list (Z * float) :=
  match l with
  | [] => [it]
  | it' :: l' =>
      if (it.2 <? it'.2)%float then it :: l
      else it' :: insert_by_score it l'
  end.

(** A stable ascending sort. *)
Definition sort_by_score (l : list (Z * float)) : list (Z * float) :=
  foldl (fun acc it => insert_by_score it acc) [] l.

(** [sorted(items, key=lambda item: item[1], reverse=True)]: Python
    reverses, sorts stably in ascending order and reverses again. *)
Definition sorted_reverse (l : list (Z * float)) : list (Z * float) :=
  reverse (sort_by_score (reverse l)).

(** The entry of the column [similarities] for one reference row, from its
    row of the similarity matrix. *)
Definition top_n (index : list Z) (row : list float) (n : Z)
  : list (Z * float) :=
  let d := foldl (fun d kv => dict_set kv.1 kv.2 d) [] (zip index row) in
  Py.slice_to n (sorted_reverse d).

(** [matrix_cosine_similarity(df_reference, df_compare, n)]: the column
    [similarities] that it adds to [df_reference]. [df_reference] lists the
    vectors of the reference table, [df_compare] the index and the vector of
    each row of the comparison table. *)
Definition matrix_cosine_similarity (df_reference : list (list float))
    (df_compare : list (Z * list float)) (n : Z)
  : Py.result (list (list (Z * float))) :=
  let* tmp_reference := Py.map_each Np.reshape16 df_reference in
  let* tmp_compare := Py.map_each Np.reshape16 (map snd df_compare) in
  let* matrix_reference := Np.stack tmp_reference in
  let* matrix_compare := Np.stack tmp_compare in
  let normalize m := map (fun v => Np.scale_down v (Np.norm v)) m in
  let matrix_reference_normalized := normalize matrix_reference in
  let matrix_compare_normalized := normalize matrix_compare in
  let similarities :=
    map (fun u => map (fun v => Np.dot u v) matrix_compare_normalized)
        matrix_reference_normalized in
  Py.Ok (map (fun row => top_n (map fst df_compare) row n) similarities).

End SimilarityEngine.

(** ** The rules as the specification words them

    Second definitions that follow the specification, against which the
    definitions above are compared. *)

Module Specification.

(** The midpoint of the tier of a user with [total] read books:
    [t0/2], [(t1-t0)/2 + t0] or [(t2-t1)/2 + t1]. *)
Definition tier_midpoint (thresholds : Z * Z * Z) (total : Z) : float :=
  let t0 := Utils.low_of thresholds in
  let t1 := Utils.mid_of thresholds in
  let t2 := Utils.high_of thresholds in
  if total <=? t0 then (Py.float_of_int t0 / 2)%float
  else if total <=? t1 then
    (Py.float_of_int (t1 - t0) / 2 + Py.float_of_int t0)%float
  else (Py.float_of_int (t2 - t1) / 2 + Py.float_of_int t1)%float.

(** [round(m / steps, 4)] for the midpoint [m] of the user's tier. *)
Definition expected_read_proba (thresholds : Z * Z * Z) (steps : Z)
    (total : Z) : float :=
  Py.round_ndigits
    (tier_midpoint thresholds total / Py.float_of_int steps)%float 4.

(** The score of one book: its priority when that is greater than 0,
    otherwise the cosine similarity of the user's and the item's vectors. *)
Definition expected_score
    (cosine_similarity : list float -> list float -> Py.result float)
    (user_vector : list float) (it : BookScorer.item_row)
  : Py.result Py.value :=
  let* flagged := Py.gt_zero (BookScorer.priority it) in
  if flagged then Py.Ok (BookScorer.priority it)
  else
    let* s := cosine_similarity user_vector (BookScorer.vector it) in
    Py.Ok (Py.Float s).

(** Axis [i] of [v] holds the maximum of [v], possibly tied. *)
Definition holds_max (v : list float) (i : nat) : Prop :=
  exists x, v !! i = Some x /\ forall y, y ∈ v -> (y <=? x)%float = true.

(** Every entry of [v] is zero. *)
Definition all_zero (v : list float) : Prop :=
  forall y, y ∈ v -> (y =? 0)%float = true.

(** The number of books that user [u] has read in [df]: the [book_count]
    of the sampler. *)
Definition books_read (df : list Tables.interaction) (u : Z) : Z :=
  Z.of_nat (length (filter (fun r => Tables.user_id r = u)
                           (filter (fun r => Tables.is_read r = 1) df))).

(** The three tiers, for a user with a book count. *)
Definition low_tier (df : list Tables.interaction) (thresholds : Z * Z * Z)
    (u : Z) : Prop :=
  1 <= books_read df u <= Utils.low_of thresholds.

Definition mid_tier (df : list Tables.interaction) (thresholds : Z * Z * Z)
    (u : Z) : Prop :=
  1 <= books_read df u
  /\ Utils.low_of thresholds < books_read df u <= Utils.mid_of thresholds.

Definition high_tier (df : list Tables.interaction) (thresholds : Z * Z * Z)
    (u : Z) : Prop :=
  1 <= books_read df u
  /\ Utils.mid_of thresholds < books_read df u <= Utils.high_of thresholds.

(** Every tier can supply its share of the [n_users] requested: the share
    is not negative and not above the number of users of the tier's pool. *)
Definition feasible (df : list Tables.interaction) (n_users : Z)
    (thresholds : Z * Z * Z) : Prop :=
  let filtered_df := Sampler.candidates df thresholds in
  let divisions := Utils.divide_into_three n_users in
  0 <= Utils.low_of divisions
       <= Z.of_nat (length (Sampler.low_pool filtered_df thresholds))
  /\ 0 <= Utils.mid_of divisions
          <= Z.of_nat (length (Sampler.mid_pool filtered_df thresholds))
  /\ 0 <= Utils.high_of divisions
          <= Z.of_nat (length (Sampler.high_pool filtered_df thresholds)).

End Specification.

(** ** [utils.py]: reading a value off a results table *)

Module Results.








End Results.

(** ** [utils.py]: normalising a vector *)

Module Normalizer.

(** What [normalize_vector] returns: an array, or the [int] 0. *)
Inductive normalized : Type :=
  | Vector (v : list float)
  | Zero.

(** [normalize_vector(vector, as_percentage)] on an array (a [str] is first
    parsed by [string_to_array]). The conditional expression binds weaker
    than the arithmetic:
    [(vector * percentage / total_sum) if total_sum > 0 else 0]. *)
Definition normalize_vector (vector : list float) (as_percentage : bool)
  : normalized :=
  let total_sum := Np.sum vector in
  let percentage := Py.float_of_int (if as_percentage then 100 else 1) in
  if (0 <? total_sum)%float then
    Vector (map (fun x => (x * percentage / total_sum)%float) vector)
  else Zero.

End Normalizer.

(** ** [data_preparation.py]: loading a file *)

Module Loader.

(** The pandas call that [load_data] makes. *)
Inductive call : Type :=
  | read_csv (file_path : string) (nrows : option Z)
  | read_json (file_path : string) (nrows : option Z).

(** [file_path.split(".")[-1]] *)
Definition file_extension (file_path : string) : string :=
  List.last (PyStr.split "." file_path) EmptyString.

(** [load_data(file_path, head)]: the call whose result is returned. With
    an extension other than [csv] and [json] no branch binds [df], and the
    [return] raises an [UnboundLocalError]: [None] here. *)
Definition load_data (file_path : string) (head : option Z) : option call :=
  let file_extension := file_extension file_path in
  if String.eqb file_extension "csv" then Some (read_csv file_path head)
  else if String.eqb file_extension "json" then
    Some (read_json file_path head)
  else None.

End Loader.

(** ** Further reference definitions *)

Module Expected.

(** What the entries of [d] add to bucket [g] when every count is taken:
    an entry counts once for each of its labels that is [g]. *)
Definition contributions (g : string) (d : list (string * Z)) : Z :=
  foldr (fun e acc =>
           e.2 * Z.of_nat (length (filter (fun k => k = g)
                                          (GenreVectorizer.labels e.1)))
           + acc)
        0 d.

(** The rows that [reshape(16)] accepts. *)
Definition sixteen (v : list float) : Prop := length v = 16%nat.

(** The row of the matrix [similarities] for the reference vector [u]: its
    normalised inner product with every vector of the comparison table. *)
Definition similarity_row (df_compare : list (Z * list float))
    (u : list float) : list float :=
  map (fun v => Np.dot (Np.scale_down u (Np.norm u))
                       (Np.scale_down v (Np.norm v)))
      (map snd df_compare).

(** [{k: x for ...}]: the dict built from the pairs, in order. *)
Definition dict_of (kvs : list (Z * float)) : list (Z * float) :=
  foldl (fun d kv => SimilarityEngine.dict_set kv.1 kv.2 d) [] kvs.

(** Descending order of the scores of two items. *)
Definition descending (a b : Z * float) : Prop := (b.2 <=? a.2)%float = true.

End Expected.

(** * Part II: properties *)

(** ** [divide_into_three] *)

Section DivideIntoThree.
Import Utils.

Example divide_into_three_7 : divide_into_three 7 = (3, 2, 2).
Proof. reflexivity. Qed.

Example divide_into_three_8 : divide_into_three 8 = (3, 3, 2).
Proof. reflexivity. Qed.

Lemma divide_into_three_cases (n : Z) :
  (n mod 3 = 0 /\ divide_into_three n = (n / 3, n / 3, n / 3))
  \/ (n mod 3 = 1 /\ divide_into_three n = (n / 3 + 1, n / 3, n / 3))
  \/ (n mod 3 = 2 /\ divide_into_three n = (n / 3 + 1, n / 3 + 1, n / 3)).
Proof.
  unfold divide_into_three.
  pose proof (Z.mod_pos_bound n 3 ltac:(lia)) as Hr.
  destruct (Z.eqb_spec (n mod 3) 0) as [E0 | N0]; [left; auto |].
  destruct (Z.eqb_spec (n mod 3) 1) as [E1 | N1]; [right; left; auto |].
  right; right. split; [lia | reflexivity].
Qed.

Lemma divide_into_three_sum (n : Z) :
  low_of (divide_into_three n) + mid_of (divide_into_three n)
  + high_of (divide_into_three n) = n.
Proof.
  pose proof (Z.div_mod n 3 ltac:(lia)) as Hdm.
  destruct (divide_into_three_cases n) as [[Hr ->] | [[Hr ->] | [Hr ->]]];
    unfold low_of, mid_of, high_of; simpl; lia.
Qed.

End DivideIntoThree.

(** C3, as stated, fails below zero: the split of [-1] is [(0, 0, -1)], whose
    third component is negative. *)
Lemma divide_into_three_negative_component :
  Utils.divide_into_three (-1) = (0, 0, -1)
  /\ ~ (0 <= Utils.high_of (Utils.divide_into_three (-1))).
Proof.
  split; [reflexivity |].
  change (Utils.high_of (Utils.divide_into_three (-1))) with (-1). lia.
Qed.

(** C3, amended: for every integer [n] the three components of
    [divide_into_three n] sum to [n], the remainder of [n] by 3 goes to the
    lower tiers first, and the first component exceeds the third by 0 or 1;
    the components are non-negative whenever [n] is. *)
Theorem divide_into_three_spec (n : Z) :
  let d := Utils.divide_into_three n in
  Utils.low_of d + Utils.mid_of d + Utils.high_of d = n
  /\ (n mod 3 = 0 -> d = (n / 3, n / 3, n / 3))
  /\ (n mod 3 = 1 -> d = (n / 3 + 1, n / 3, n / 3))
  /\ (n mod 3 = 2 -> d = (n / 3 + 1, n / 3 + 1, n / 3))
  /\ 0 <= Utils.low_of d - Utils.high_of d <= 1
  /\ (0 <= n ->
      0 <= Utils.low_of d /\ 0 <= Utils.mid_of d /\ 0 <= Utils.high_of d).
Proof.
  intros d. split; [apply divide_into_three_sum |].
  subst d.
  assert (Hpos : 0 <= n -> 0 <= n / 3) by (intros; apply Z.div_pos; lia).
  destruct (divide_into_three_cases n) as [[Hr ->] | [[Hr ->] | [Hr ->]]];
    unfold Utils.low_of, Utils.mid_of, Utils.high_of;
    cbn [fst snd]; rewrite Hr;
    repeat split; intros; try reflexivity; try discriminate; lia.
Qed.

Lemma divide_into_three_spec_witness :
  0 <= 7
  /\ Utils.divide_into_three 7 = (3, 2, 2)
  /\ 0 <= Utils.low_of (Utils.divide_into_three 7)
  /\ 0 <= Utils.mid_of (Utils.divide_into_three 7)
  /\ 0 <= Utils.high_of (Utils.divide_into_three 7).
Proof.
  destruct (divide_into_three_spec 7) as (_ & _ & H1 & _ & _ & Hpos).
  split; [lia |]. split; [apply H1; reflexivity |].
  apply Hpos. lia.
Defined.

(** ** The genre vectorizer *)

Section GenreVectorizerProps.
Import GenreVectorizer.

Example labels_compound :
  labels "young-adult, historical fiction"
  = ["young_adult"; "historical_fiction"]%string.
Proof. reflexivity. Qed.

Example reformat_dict_sums :
  reformat_dict goodreads_categories
    [("fantasy, paranormal", 3); ("fantasy", 4)]%string
  !! "fantasy"%string = Some 7.
Proof. vm_compute. reflexivity. Qed.

Lemma assign_lookup_eq (v : Z) (m : gmap string Z) (g : string) :
  assign v m g !! g
  = Some (if 0 <? v then default 0 (m !! g) + v else 0).
Proof. unfold assign. apply lookup_insert_eq. Qed.

Lemma assign_lookup_ne (v : Z) (m : gmap string Z) (g g' : string) :
  g <> g' -> assign v m g !! g' = m !! g'.
Proof. intros Hne. unfold assign. by apply lookup_insert_ne. Qed.

(** Whatever a bucket held, what it holds after an assignment is decided by
    what [genres.get(g, 0)] read before. *)
Lemma assign_get_congr (v : Z) (m m' : gmap string Z) (g k : string) :
  default 0 (m !! k) = default 0 (m' !! k) ->
  default 0 (assign v m g !! k) = default 0 (assign v m' g !! k).
Proof.
  intros Heq. destruct (decide (g = k)) as [-> | Hne].
  - rewrite !assign_lookup_eq. by rewrite Heq.
  - by rewrite !assign_lookup_ne.
Qed.

Lemma assign_is_Some (v : Z) (m : gmap string Z) (g k : string) :
  is_Some (m !! k) -> is_Some (assign v m g !! k).
Proof.
  intros Hk. destruct (decide (g = k)) as [-> | Hne].
  - rewrite assign_lookup_eq. eauto.
  - by rewrite assign_lookup_ne.
Qed.

Lemma step_get_congr (e : string * Z) (m m' : gmap string Z) (k : string) :
  default 0 (m !! k) = default 0 (m' !! k) ->
  default 0 (step m e !! k) = default 0 (step m' e !! k).
Proof.
  unfold step. generalize (labels e.1) as ls.
  intros ls. revert m m'.
  induction ls as [| g ls IH]; intros m m' Heq; simpl; [done |].
  apply IH. by apply assign_get_congr.
Qed.

Lemma step_is_Some (e : string * Z) (m : gmap string Z) (k : string) :
  is_Some (m !! k) -> is_Some (step m e !! k).
Proof.
  unfold step. generalize (labels e.1) as ls.
  intros ls. revert m.
  induction ls as [| g ls IH]; intros m Hk; simpl; [done |].
  apply IH. by apply assign_is_Some.
Qed.

Lemma step_untouched (e : string * Z) (m : gmap string Z) (k : string) :
  k ∉ labels e.1 -> step m e !! k = m !! k.
Proof.
  unfold step. generalize (labels e.1) as ls.
  intros ls. revert m.
  induction ls as [| g ls IH]; intros m Hk; simpl; [done |].
  rewrite IH by set_solver. apply assign_lookup_ne. set_solver.
Qed.

(** A count that is not positive leaves 0 in each of its buckets. *)
Lemma step_nonpositive (L : string) (v : Z) (m : gmap string Z) (g : string) :
  v <= 0 -> g ∈ labels L -> step m (L, v) !! g = Some 0.
Proof.
  intros Hv. unfold step. simpl. generalize (labels L) as ls.
  assert (Hkeep : forall ls (m : gmap string Z),
             m !! g = Some 0 -> foldl (assign v) m ls !! g = Some 0).
  { induction ls as [| k ls IH]; intros m0 Hm; simpl; [done |].
    apply IH. destruct (decide (k = g)) as [-> | Hne].
    - rewrite assign_lookup_eq. destruct (Z.ltb_spec 0 v); [lia | done].
    - by rewrite assign_lookup_ne. }
  intros ls. revert m.
  induction ls as [| k ls IH]; intros m Hin; simpl.
  - by apply not_elem_of_nil in Hin.
  - destruct (decide (k = g)) as [-> | Hne].
    + apply Hkeep. rewrite assign_lookup_eq.
      destruct (Z.ltb_spec 0 v); [lia | done].
    + apply IH. by apply elem_of_cons in Hin as [-> | Hin].
Qed.

Lemma accumulate_app (m : gmap string Z) (d1 d2 : list (string * Z)) :
  accumulate m (d1 ++ d2) = accumulate (accumulate m d1) d2.
Proof. unfold accumulate. apply foldl_app. Qed.

Lemma accumulate_get_congr (d : list (string * Z)) (m m' : gmap string Z)
    (k : string) :
  default 0 (m !! k) = default 0 (m' !! k) ->
  default 0 (accumulate m d !! k) = default 0 (accumulate m' d !! k).
Proof.
  revert m m'. induction d as [| e d IH]; intros m m' Heq; simpl; [done |].
  apply IH. by apply step_get_congr.
Qed.

Lemma accumulate_is_Some (d : list (string * Z)) (m : gmap string Z)
    (k : string) :
  is_Some (m !! k) -> is_Some (accumulate m d !! k).
Proof.
  revert m. induction d as [| e d IH]; intros m Hk; simpl; [done |].
  apply IH. by apply step_is_Some.
Qed.

Lemma accumulate_untouched (d : list (string * Z)) (m : gmap string Z)
    (k : string) :
  (forall e, e ∈ d -> k ∉ labels e.1) -> accumulate m d !! k = m !! k.
Proof.
  revert m. induction d as [| e d IH]; intros m Hd; simpl; [done |].
  rewrite IH by (intros; apply Hd; set_solver).
  apply step_untouched, Hd. set_solver.
Qed.

Lemma fill_lookup (cats : list string) (m : gmap string Z) (k : string) :
  fill cats m !! k
  = match m !! k with
    | Some x => Some x
    | None => if decide (k ∈ cats) then Some 0 else None
    end.
Proof.
  unfold fill.
  assert (Hins : forall ks (m0 : gmap string Z),
             foldl (fun acc k0 => <[k0 := 0]> acc) m0 ks !! k
             = if decide (k ∈ ks) then Some 0 else m0 !! k).
  { induction ks as [| k0 ks IH]; intros m0; cbn [foldl].
    - case_decide as Hin; [by apply not_elem_of_nil in Hin | done].
    - rewrite IH. destruct (decide (k0 = k)) as [-> | Hne].
      + rewrite lookup_insert_eq.
        rewrite (decide_True _ _ (list_elem_of_here k ks)).
        by case_decide.
      + rewrite lookup_insert_ne by done.
        destruct (decide (k ∈ ks)) as [Hin | Hnin].
        * by rewrite decide_True by (by right).
        * rewrite decide_False; [done |].
          intros [-> | Hin]%elem_of_cons; done. }
  rewrite Hins. destruct (m !! k) as [x |] eqn:Hk.
  - case_decide as Hin; [| done].
    apply list_elem_of_filter in Hin as [Hnone _]. congruence.
  - repeat case_decide; try done.
    + exfalso. apply list_elem_of_filter in H as [_ Hin]. done.
    + exfalso. apply H. by apply list_elem_of_filter.
Qed.

Lemma assign_nonneg (v : Z) (m : gmap string Z) (g : string) :
  map_Forall (fun _ x => 0 <= x) m ->
  map_Forall (fun _ x => 0 <= x) (assign v m g).
Proof.
  intros Hm. unfold assign. apply map_Forall_insert_2; [| done].
  destruct (Z.ltb_spec 0 v); [| lia].
  destruct (m !! g) as [x |] eqn:Hg; simpl; [| lia].
  specialize (Hm g x Hg). simpl in Hm. lia.
Qed.

Lemma step_nonneg (e : string * Z) (m : gmap string Z) :
  map_Forall (fun _ x => 0 <= x) m ->
  map_Forall (fun _ x => 0 <= x) (step m e).
Proof.
  unfold step. generalize (labels e.1) as ls.
  intros ls. revert m.
  induction ls as [| g ls IH]; intros m Hm; simpl; [done |].
  apply IH. by apply assign_nonneg.
Qed.

Lemma accumulate_nonneg (d : list (string * Z)) (m : gmap string Z) :
  map_Forall (fun _ x => 0 <= x) m ->
  map_Forall (fun _ x => 0 <= x) (accumulate m d).
Proof.
  revert m. induction d as [| e d IH]; intros m Hm; simpl; [done |].
  apply IH. by apply step_nonneg.
Qed.

End GenreVectorizerProps.

(** C1, as stated, fails when a positive count for the same bucket is
    processed after the negative one: the label [fantasy] has count -1, yet
    the bucket [fantasy] ends at 7. *)
Lemma reformat_dict_positive_after_negative :
  GenreVectorizer.labels "fantasy" = ["fantasy"%string]
  /\ GenreVectorizer.reformat_dict GenreVectorizer.goodreads_categories
       [("fantasy", -1); ("fantasy, paranormal", 7)]%string
     !! "fantasy"%string = Some 7.
Proof. split; [reflexivity | vm_compute; reflexivity]. Qed.

(** C1, amended: when the mapping holds a negative count for label [L], each
    canonical bucket derived from [L] holds in the output exactly what the
    entries processed after [L] contribute to it on their own: positive
    counts processed before [L] are discarded, and the bucket is 0 when no
    later entry derives it. *)
Theorem reformat_dict_negative_resets
    (cats : list string) (d1 d2 : list (string * Z)) (L : string) (v : Z)
    (g : string) :
  v < 0 ->
  g ∈ GenreVectorizer.labels L ->
  GenreVectorizer.reformat_dict cats (d1 ++ (L, v) :: d2) !! g
  = Some (default 0 (GenreVectorizer.reformat_dict cats d2 !! g))
  /\ ((forall e, e ∈ d2 -> g ∉ GenreVectorizer.labels e.1) ->
      GenreVectorizer.reformat_dict cats (d1 ++ (L, v) :: d2) !! g = Some 0).
Proof.
  intros Hv Hg. unfold GenreVectorizer.reformat_dict.
  rewrite accumulate_app. cbn [GenreVectorizer.accumulate foldl].
  fold (GenreVectorizer.accumulate
          (GenreVectorizer.step (GenreVectorizer.accumulate ∅ d1) (L, v)) d2).
  set (m1 := GenreVectorizer.step (GenreVectorizer.accumulate ∅ d1) (L, v)).
  assert (H1 : m1 !! g = Some 0) by (apply step_nonpositive; [lia | done]).
  assert (Hget : default 0 (GenreVectorizer.accumulate m1 d2 !! g)
                 = default 0 (GenreVectorizer.accumulate ∅ d2 !! g)).
  { apply accumulate_get_congr. by rewrite H1, lookup_empty. }
  destruct (accumulate_is_Some d2 m1 g) as [x Hx]; [by rewrite H1 |].
  assert (Hfill : forall m : gmap string Z,
             default 0 (GenreVectorizer.fill cats m !! g)
             = default 0 (m !! g)).
  { intros m. rewrite fill_lookup. destruct (m !! g); [done |].
    by destruct (decide (g ∈ cats)). }
  split.
  - rewrite Hfill, <- Hget, fill_lookup, Hx. done.
  - intros Hd2. rewrite fill_lookup, accumulate_untouched by done.
    by rewrite H1.
Qed.

Lemma reformat_dict_negative_resets_witness :
  GenreVectorizer.reformat_dict GenreVectorizer.goodreads_categories
    ([("fantasy, paranormal"%string, 3)]
     ++ ("fantasy"%string, -1) :: [("fiction"%string, 2)])
  !! "fantasy"%string = Some 0.
Proof.
  apply (reformat_dict_negative_resets GenreVectorizer.goodreads_categories
           [("fantasy, paranormal", 3)]%string [("fiction", 2)]%string
           "fantasy"%string (-1) "fantasy"%string).
  - lia.
  - vm_compute. left.
  - intros e He. apply list_elem_of_singleton in He. subst e.
    vm_compute. intros Hin. apply list_elem_of_singleton in Hin.
    discriminate Hin.
Defined.

(** C10: every value of the mapping returned by [reformat_dict] is
    non-negative. *)
Theorem reformat_dict_nonneg (cats : list string) (d : list (string * Z)) :
  map_Forall (fun _ x => 0 <= x) (GenreVectorizer.reformat_dict cats d).
Proof.
  intros k x. unfold GenreVectorizer.reformat_dict. rewrite fill_lookup.
  pose proof (accumulate_nonneg d ∅ (map_Forall_empty _)) as Hacc.
  destruct (GenreVectorizer.accumulate ∅ d !! k) as [y |] eqn:Hk.
  - intros [= <-]. exact (Hacc k y Hk).
  - destruct (decide (k ∈ cats)); [intros [= <-]; lia | discriminate].
Qed.

(** ** Read probabilities *)

Section ReadProba.
Import UserAggregator Specification.

Example readers_proba_default :
  readers_proba (5, 20, 50) 10 = Py.Ok (0.25, 1.25, 3.5)%float.
Proof. vm_compute. reflexivity. Qed.

Example readers_proba_no_steps :
  readers_proba (5, 20, 50) 0 = Py.Raise Py.ZeroDivisionError.
Proof. vm_compute. reflexivity. Qed.

Lemma float_of_int_2 : Py.float_of_int 2 = 2%float.
Proof. vm_compute. reflexivity. Qed.

(** The three rates are the expected rates of three users, one per tier;
    they are defined unless there are no steps. *)
Lemma readers_proba_cases (thresholds : Z * Z * Z) (steps : Z) :
  match readers_proba thresholds steps with
  | Py.Ok probas =>
      steps <> 0
      /\ forall total,
           expected_read_proba thresholds steps total
           = (if total <=? Utils.low_of thresholds then probas.1.1
              else if total <=? Utils.mid_of thresholds then probas.1.2
              else probas.2)
  | Py.Raise e => e = Py.ZeroDivisionError /\ steps = 0
  end.
Proof.
  unfold readers_proba, expected_read_proba, tier_midpoint, Py.int_truediv,
    Py.float_div_int.
  change (2 =? 0) with false. cbn [Py.bind]. rewrite float_of_int_2.
  destruct (Z.eqb_spec steps 0) as [Hs | Hs]; cbn [Py.bind]; [done |].
  split; [done |]. intros total. cbn [fst snd].
  destruct (total <=? Utils.low_of thresholds); [done |].
  by destruct (total <=? Utils.mid_of thresholds).
Qed.

Lemma where_read_proba_zip (thresholds : Z * Z * Z)
    (probas : float * float * float) (users_df : list (Z * Z))
    (uid total : Z) (p : float) :
  (uid, total, p)
    ∈ zip users_df (where_read_proba thresholds probas (map snd users_df)) ->
  p = (if total <=? Utils.low_of thresholds then probas.1.1
       else if total <=? Utils.mid_of thresholds then probas.1.2
       else probas.2).
Proof.
  unfold where_read_proba.
  induction users_df as [| [u t] users_df IH]; simpl; intros Hin.
  - by apply not_elem_of_nil in Hin.
  - apply elem_of_cons in Hin as [[= -> -> ->] | Hin]; [done | by apply IH].
Qed.

End ReadProba.

(** C9: for a step count other than 0, the users table has one row per
    user of the aggregation and each row carries, as [read_proba],
    [round(m / steps, 4)] for the midpoint [m] of the tier that the user's
    [is_read] total falls in under the thresholds ([t0/2] up to [t0],
    [(t1-t0)/2 + t0] up to [t1], [(t2-t1)/2 + t1] above); without steps the
    division raises. *)
Theorem read_proba_is_rounded_tier_rate (df : list Tables.interaction)
    (steps : Z) (thresholds : Z * Z * Z) :
  (steps = 0 ->
   UserAggregator.get_users_df_read_proba df steps thresholds
   = Py.Raise Py.ZeroDivisionError)
  /\ (steps <> 0 ->
      exists table,
        UserAggregator.get_users_df_read_proba df steps thresholds
        = Py.Ok table
        /\ map fst table = Tables.groupby_sum_is_read df
        /\ forall uid total p,
             (uid, total, p) ∈ table ->
             p = Specification.expected_read_proba thresholds steps total).
Proof.
  unfold UserAggregator.get_users_df_read_proba.
  pose proof (readers_proba_cases thresholds steps) as Hcases.
  destruct (UserAggregator.readers_proba thresholds steps) as [probas | e];
    cbn [Py.bind].
  - destruct Hcases as [Hs Hcases]. split; [done |]. intros _.
    eexists. split; [reflexivity |]. split.
    + apply fst_zip. unfold UserAggregator.where_read_proba.
      by rewrite !length_map.
    + intros uid total p Hin. rewrite Hcases.
      exact (where_read_proba_zip _ _ _ _ _ _ Hin).
  - destruct Hcases as [-> Hs]. split; [done | done].
Qed.

Lemma read_proba_is_rounded_tier_rate_witness :
  10 <> 0
  /\ exists table,
       UserAggregator.get_users_df_read_proba
         [ {| Tables.user_id := 1; Tables.book_id := 10;
              Tables.is_read := 1; Tables.rating := 4;
              Tables.is_reviewed := 0 |};
           {| Tables.user_id := 1; Tables.book_id := 11;
              Tables.is_read := 1; Tables.rating := 5;
              Tables.is_reviewed := 1 |};
           {| Tables.user_id := 1; Tables.book_id := 12;
              Tables.is_read := 1; Tables.rating := 3;
              Tables.is_reviewed := 0 |} ] 10 (5, 20, 50) = Py.Ok table
       /\ forall uid total p,
            (uid, total, p) ∈ table ->
            p = Specification.expected_read_proba (5, 20, 50) 10 total.
Proof.
  split; [discriminate |].
  destruct (read_proba_is_rounded_tier_rate
              [ {| Tables.user_id := 1; Tables.book_id := 10;
                   Tables.is_read := 1; Tables.rating := 4;
                   Tables.is_reviewed := 0 |};
                {| Tables.user_id := 1; Tables.book_id := 11;
                   Tables.is_read := 1; Tables.rating := 5;
                   Tables.is_reviewed := 1 |};
                {| Tables.user_id := 1; Tables.book_id := 12;
                   Tables.is_read := 1; Tables.rating := 3;
                   Tables.is_reviewed := 0 |} ] 10 (5, 20, 50))
    as [_ H].
  destruct H as (table & Hrun & _ & Hrows); [discriminate |].
  exists table. split; [exact Hrun | exact Hrows].
Defined.

Example expected_read_proba_low :
  Specification.expected_read_proba (5, 20, 50) 10 3 = 0.25%float.
Proof. vm_compute. reflexivity. Qed.

(** ** Book scores *)

Section BookScore.
Import BookScorer Specification.

Variable cosine_similarity : list float -> list float -> Py.result float.
Variable user_vector : list float.
Variable df_items : list (Z * item_row).

(** One turn of the loop stores the expected score of the book, which must
    have exactly one row in the items table. *)
Lemma score_book_expected (books : gmap Z Py.value) (book_id : Z) :
  score_book cosine_similarity user_vector df_items books book_id
  = (let* s := Py.bind (item (select df_items book_id))
                       (expected_score cosine_similarity user_vector) in
     Py.Ok (<[book_id := s]> books)).
Proof.
  unfold score_book, expected_score.
  destruct (select df_items book_id) as [| it [| it' rows]]; try done.
  cbn [map item Py.bind].
  destruct (Py.gt_zero (priority it)) as [[|] | e]; cbn [Py.bind]; try done.
  by destruct (cosine_similarity user_vector (vector it)).
Qed.

Lemma for_each_score_book (book_ids : list Z) (books : gmap Z Py.value) :
  (forall b, b ∈ book_ids ->
     exists it s, select df_items b = [it]
                  /\ expected_score cosine_similarity user_vector it
                     = Py.Ok s) ->
  exists books',
    Py.for_each (score_book cosine_similarity user_vector df_items)
                books book_ids = Py.Ok books'
    /\ (forall b, b ∉ book_ids -> books' !! b = books !! b)
    /\ (forall b it, b ∈ book_ids -> select df_items b = [it] ->
          exists s, expected_score cosine_similarity user_vector it = Py.Ok s
                    /\ books' !! b = Some s).
Proof.
  revert books. induction book_ids as [| b0 book_ids IH]; intros books Hwf.
  - exists books. split; [done |]. split; [done |].
    intros b it Hin. by apply not_elem_of_nil in Hin.
  - destruct (Hwf b0 (list_elem_of_here _ _)) as (it0 & s0 & Hsel0 & Hs0).
    cbn [Py.for_each]. rewrite score_book_expected, Hsel0.
    cbn [item Py.bind]. rewrite Hs0. cbn [Py.bind].
    destruct (IH (<[b0 := s0]> books)) as (books' & Hrun & Hout & Hin).
    { intros b Hb. apply Hwf. by apply list_elem_of_further. }
    exists books'. split; [done |]. split.
    + intros b Hb. apply not_elem_of_cons in Hb as [Hne Hb].
      rewrite Hout by done. by apply lookup_insert_ne.
    + intros b it Hb Hsel.
      destruct (decide (b ∈ book_ids)) as [Hlater | Hnot].
      * by apply Hin.
      * apply elem_of_cons in Hb as [-> | Hb]; [| done].
        rewrite Hsel0 in Hsel. injection Hsel as <-.
        exists s0. split; [done |].
        rewrite Hout by done. apply lookup_insert_eq.
Qed.

End BookScore.

(** C7: when every book of the user's list has one row in the items table
    (and the similarity is defined where it is needed),
    [calculate_book_score] returns a mapping in which the score of each such
    book is the book's priority whenever that priority is greater than 0,
    whatever the cosine similarity of the two vectors, and is that cosine
    similarity otherwise. *)
Theorem calculate_book_score_priority_overrides
    (cosine_similarity : list float -> list float -> Py.result float)
    (user_vector : list float) (book_ids : list Z)
    (df_items : list (Z * BookScorer.item_row)) :
  (forall b, b ∈ book_ids ->
     exists it s,
       BookScorer.select df_items b = [it]
       /\ Specification.expected_score cosine_similarity user_vector it
          = Py.Ok s) ->
  exists books,
    BookScorer.calculate_book_score cosine_similarity user_vector book_ids
      df_items = Py.Ok books
    /\ forall b it,
         b ∈ book_ids -> BookScorer.select df_items b = [it] ->
         (Py.gt_zero (BookScorer.priority it) = Py.Ok true ->
          books !! b = Some (BookScorer.priority it))
         /\ (Py.gt_zero (BookScorer.priority it) = Py.Ok false ->
             exists s,
               cosine_similarity user_vector (BookScorer.vector it) = Py.Ok s
               /\ books !! b = Some (Py.Float s)).
Proof.
  intros Hwf. unfold BookScorer.calculate_book_score.
  destruct (for_each_score_book cosine_similarity user_vector df_items
              book_ids ∅ Hwf) as (books & Hrun & _ & Hin).
  exists books. split; [done |].
  intros b it Hb Hsel. destruct (Hin b it Hb Hsel) as (s & Hs & Hlook).
  unfold Specification.expected_score in Hs.
  split; intros Hflag; rewrite Hflag in Hs; cbn [Py.bind] in Hs.
  - by injection Hs as <-.
  - destruct (cosine_similarity user_vector (BookScorer.vector it))
      as [sim | e]; cbn [Py.bind] in Hs; [| done].
    injection Hs as <-. by exists sim.
Qed.

Lemma calculate_book_score_priority_overrides_witness :
  exists books,
    BookScorer.calculate_book_score BookScorer.sklearn_cosine_similarity
      (1 :: repeat 0 15)%float [10; 11]
      [(10, {| BookScorer.vector := (0 :: 1 :: repeat 0 14)%float;
               BookScorer.priority := Py.Float 1 |});
       (11, {| BookScorer.vector := (0 :: 1 :: repeat 0 14)%float;
               BookScorer.priority := Py.Int 0 |})] = Py.Ok books
    /\ books !! 10 = Some (Py.Float 1)
    /\ books !! 11 = Some (Py.Float 0).
Proof.
  pose (it10 := {| BookScorer.vector := (0 :: 1 :: repeat 0 14)%float;
                   BookScorer.priority := Py.Float 1 |}).
  pose (it11 := {| BookScorer.vector := (0 :: 1 :: repeat 0 14)%float;
                   BookScorer.priority := Py.Int 0 |}).
  destruct (calculate_book_score_priority_overrides
              BookScorer.sklearn_cosine_similarity (1 :: repeat 0 15)%float
              [10; 11] [(10, it10); (11, it11)]) as (books & Hrun & Hspec).
  { intros b Hb. apply elem_of_cons in Hb as [-> | Hb].
    - exists it10, (Py.Float 1). split; vm_compute; reflexivity.
    - apply list_elem_of_singleton in Hb as ->.
      exists it11, (Py.Float 0). split; vm_compute; reflexivity. }
  exists books. split; [exact Hrun |]. split.
  - apply (Hspec 10 it10); [left | reflexivity | reflexivity].
  - destruct (Hspec 11 it11) as [_ Hsim];
      [right; left | reflexivity |].
    destruct Hsim as (s & Hs & Hlook); [reflexivity |].
    vm_compute in Hs. injection Hs as <-. exact Hlook.
Defined.

(** ** Order of the floats *)

Section FloatOrder.
Local Open Scope float_scope.

(** Comparisons are decided on the specification of the floats, case by
    case. *)
Ltac float_cases :=
  intros;
  rewrite ?FloatAxioms.leb_spec, ?FloatAxioms.eqb_spec,
    ?FloatAxioms.ltb_spec in *;
  unfold SFleb, SFeqb, SFltb, SFcompare in *;
  repeat match goal with
         | |- context [Prim2SF ?x] =>
             let s := fresh "s" in
             destruct (Prim2SF x) as [s | s | | s ? ?]; try destruct s
         | H : context [Prim2SF ?x] |- _ =>
             let s := fresh "s" in
             destruct (Prim2SF x) as [s | s | | s ? ?]; try destruct s
         end;
  try done;
  change PosDef.Pos.compare_cont with Pos.compare_cont in *;
  fold Pos.compare in *;
  repeat match goal with
         | |- context [(?a ?= ?b)%Z] => destruct (Z.compare_spec a b)
         | H : context [(?a ?= ?b)%Z] |- _ => destruct (Z.compare_spec a b)
         | |- context [(?a ?= ?b)%positive] => destruct (Pos.compare_spec a b)
         | H : context [(?a ?= ?b)%positive] |- _ =>
             destruct (Pos.compare_spec a b)
         end;
  simpl in *; try done; try lia.

Lemma float_leb_trans (a b c : float) :
  (a <=? b) = true -> (b <=? c) = true -> (a <=? c) = true.
Proof. float_cases. Qed.

Lemma float_leb_antisym (a b : float) :
  (a <=? b) = true -> (b <=? a) = true -> (a =? b) = true.
Proof. float_cases. Qed.

Lemma float_eqb_leb (a b : float) :
  (a =? b) = true -> (a <=? b) = true /\ (b <=? a) = true.
Proof. float_cases. Qed.

Lemma float_leb_total (a b : float) :
  is_nan a = false -> is_nan b = false ->
  (a <=? b) = false -> (b <=? a) = true.
Proof. unfold is_nan. float_cases. Qed.

Lemma float_leb_not_nan (a b : float) :
  (a <=? b) = true -> is_nan a = false /\ is_nan b = false.
Proof. unfold is_nan. float_cases. Qed.

Lemma float_leb_refl (a : float) : is_nan a = false -> (a <=? a) = true.
Proof. unfold is_nan. float_cases. Qed.

End FloatOrder.

(** ** [np.max] and [np.where] *)

Section NumpyProps.
Local Open Scope float_scope.

Lemma maximum_nan_l (a b : float) : is_nan a = true -> Np.maximum a b = a.
Proof. intros Ha. unfold Np.maximum. rewrite Ha. by rewrite orb_true_r. Qed.

Lemma foldl_maximum_nan (a : float) (l : list float) :
  is_nan a = true -> foldl Np.maximum a l = a.
Proof.
  revert a. induction l as [| b l IH]; intros a Ha; simpl; [done |].
  rewrite maximum_nan_l by done. by apply IH.
Qed.

(** The fold of [np.maximum]: with a NaN among the entries the result is
    NaN; without, it is an entry that bounds them all. *)
Lemma foldl_maximum_spec (a : float) (l : list float) :
  let m := foldl Np.maximum a l in
  if forallb (fun y => negb (is_nan y)) (a :: l)
  then m ∈ a :: l /\ forall y, y ∈ a :: l -> (y <=? m) = true
  else is_nan m = true.
Proof.
  revert a. induction l as [| b l IH]; intros a; cbn [foldl forallb].
  - destruct (is_nan a) eqn:Ha; cbn [negb andb]; [done |].
    split; [left |]. intros y Hy. apply list_elem_of_singleton in Hy as ->.
    by apply float_leb_refl.
  - specialize (IH (Np.maximum a b)). cbn [forallb] in IH.
    destruct (is_nan a) eqn:Ha; cbn [negb andb].
    { rewrite maximum_nan_l by done. by rewrite foldl_maximum_nan. }
    unfold Np.maximum in *. rewrite Ha, orb_false_r in *.
    destruct (is_nan b) eqn:Hb; cbn [negb andb] in *.
    { assert (Hba : (b <=? a) = false).
      { destruct (b <=? a) eqn:E; [| done].
        apply float_leb_not_nan in E as [E _]. congruence. }
      rewrite Hba in *. rewrite Hb in IH. by rewrite foldl_maximum_nan. }
    destruct (b <=? a) eqn:Hba.
    + rewrite Ha in IH. cbn [negb andb] in IH.
      destruct (forallb (fun y => negb (is_nan y)) l); [| done].
      destruct IH as [Hin Hle]. split.
      * apply elem_of_cons in Hin as [-> | Hin]; [left | by do 2 right].
      * intros y Hy. apply elem_of_cons in Hy as [-> | Hy].
        { apply Hle. left. }
        apply elem_of_cons in Hy as [-> | Hy].
        { apply float_leb_trans with a; [done |]. apply Hle. left. }
        apply Hle. by right.
    + rewrite Hb in IH. cbn [negb andb] in IH.
      destruct (forallb (fun y => negb (is_nan y)) l); [| done].
      destruct IH as [Hin Hle]. split.
      * by right.
      * intros y Hy. apply elem_of_cons in Hy as [-> | Hy].
        { apply float_leb_trans with b; [by apply float_leb_total |].
          apply Hle. left. }
        by apply Hle.
Qed.

Lemma where_eq_from_spec (v : list float) (x : float) (j i : nat) :
  i ∈ Np.where_eq_from j v x
  <-> exists k y, i = (j + k)%nat /\ v !! k = Some y /\ (y =? x) = true.
Proof.
  revert j. induction v as [| y0 v IH]; intros j; cbn [Np.where_eq_from].
  - split; [intros H; by apply not_elem_of_nil in H |].
    by intros (k & y & _ & Hk & _).
  - assert (Htail : i ∈ Np.where_eq_from (S j) v x
                    <-> exists k y, i = (j + S k)%nat /\ v !! k = Some y
                                    /\ (y =? x) = true).
    { rewrite IH. split; intros (k & y & Hi & Hk & Hy); exists k, y;
        (split; [lia | done]). }
    destruct (y0 =? x) eqn:Hy0; [rewrite elem_of_cons |]; rewrite Htail.
    + split.
      * intros [-> | (k & y & Hi & Hk & Hy)].
        { exists 0%nat, y0. split; [lia | done]. }
        exists (S k), y. done.
      * intros ([| k] & y & Hi & Hk & Hy).
        { left. lia. }
        right. exists k, y. done.
    + split.
      * intros (k & y & Hi & Hk & Hy). exists (S k), y. done.
      * intros ([| k] & y & Hi & Hk & Hy).
        { simpl in Hk. injection Hk as ->. congruence. }
        exists k, y. done.
Qed.

Lemma where_eq_spec (v : list float) (x : float) (i : nat) :
  i ∈ Np.where_eq v x <-> exists y, v !! i = Some y /\ (y =? x) = true.
Proof.
  unfold Np.where_eq. rewrite where_eq_from_spec. split.
  - intros (k & y & -> & Hk & Hy). by exists y.
  - intros (y & Hk & Hy). by exists i, y.
Qed.

Lemma all_eq_spec (v : list float) (x : float) :
  Np.all_eq v x = true <-> forall y, y ∈ v -> (y =? x) = true.
Proof.
  unfold Np.all_eq. rewrite forallb_forall.
  split; intros H y Hy; apply H; by apply list_elem_of_In.
Qed.

(** The column of the maximum, read with [==], is a column that bounds
    every entry. *)
Lemma where_eq_max (v : list float) (m : float) (i : nat) :
  Np.max v = Py.Ok m ->
  i ∈ Np.where_eq v m <-> Specification.holds_max v i.
Proof.
  destruct v as [| a l]; [done |]. cbn [Np.max]. intros [= <-].
  pose proof (foldl_maximum_spec a l) as Hmax. cbn zeta in Hmax.
  set (m := foldl Np.maximum a l) in *.
  rewrite where_eq_spec. unfold Specification.holds_max.
  split.
  - intros (y & Hi & Hy). exists y. split; [done |].
    apply float_eqb_leb in Hy as [Hym Hmy].
    destruct (forallb (fun y => negb (is_nan y)) (a :: l)).
    + destruct Hmax as [_ Hle]. intros z Hz.
      apply float_leb_trans with m; [by apply Hle | done].
    + apply float_leb_not_nan in Hmy as [Hnan _]. congruence.
  - intros (x & Hi & Hle). exists x. split; [done |].
    assert (Hall : forallb (fun y => negb (is_nan y)) (a :: l) = true).
    { apply forallb_forall. intros y Hy. apply list_elem_of_In in Hy.
      apply Hle, float_leb_not_nan in Hy as [-> _]. done. }
    rewrite Hall in Hmax. destruct Hmax as [Hin Hbound].
    apply float_leb_antisym; [| by apply Hle].
    apply Hbound. by apply list_elem_of_lookup_2 in Hi.
Qed.

End NumpyProps.

(** ** Item priority *)

Section Priority.
Import ItemAggregator Specification.

Lemma index_Some (name : string) (cats : list string) (i : nat) :
  Py.index name cats = Some i -> cats !! i = Some name.
Proof.
  revert i. induction cats as [| c cats IH]; intros i; cbn [Py.index].
  - done.
  - destruct (String.eqb_spec c name) as [-> | Hne].
    + by intros [= <-].
    + destruct (Py.index name cats) as [j |]; [| done].
      intros [= <-]. by apply IH.
Qed.

Lemma index_elem_of (name : string) (cats : list string) :
  name ∈ cats -> is_Some (Py.index name cats).
Proof.
  induction cats as [| c cats IH]; intros Hin; cbn [Py.index].
  - by apply not_elem_of_nil in Hin.
  - destruct (String.eqb_spec c name) as [-> | Hne]; [eauto |].
    apply elem_of_cons in Hin as [-> | Hin]; [done |].
    destruct (IH Hin) as [j ->]. eauto.
Qed.

Lemma index_not_elem_of (name : string) (cats : list string) :
  name ∉ cats -> Py.index name cats = None.
Proof.
  intros Hnot. destruct (Py.index name cats) as [i |] eqn:Hi; [| done].
  apply index_Some, list_elem_of_lookup_2 in Hi. done.
Qed.

Lemma truthy_str (name : string) :
  name <> EmptyString -> Py.truthy (Py.Str name) = true.
Proof.
  intros Hne. cbn [Py.truthy].
  by destruct (String.eqb_spec name EmptyString).
Qed.

Example priority_dominant_genre :
  calculate_priority GenreVectorizer.goodreads_categories
    (5 :: repeat 0 15)%float (Py.Str "children") 0.5%float
  = Py.Ok (Py.Float 1).
Proof. vm_compute. reflexivity. Qed.

Example priority_all_zero :
  calculate_priority GenreVectorizer.goodreads_categories
    (repeat 0 16)%float (Py.Str "children") 0.5%float
  = Py.Ok (Py.Float 0).
Proof. vm_compute. reflexivity. Qed.

Example priority_absent :
  calculate_priority GenreVectorizer.goodreads_categories
    (5 :: repeat 0 15)%float Py.None_ 0.5%float
  = Py.Ok (Py.Int 0).
Proof. reflexivity. Qed.

End Priority.

(** C5: a strategy that is truthy, is not a float and is not a name of the
    category set matches no branch of [calculate_priority]: the call reaches
    the end of the function, returns [None] and raises nothing. *)
Theorem calculate_priority_unmatched_strategy (cats : list string)
    (vector : list float) (priority : Py.value) (draw : float) :
  Py.truthy priority = true ->
  (forall p, priority <> Py.Float p) ->
  (forall name, priority = Py.Str name -> name ∉ cats) ->
  ItemAggregator.calculate_priority cats vector priority draw
  = Py.Ok Py.None_.
Proof.
  intros Htrue Hfloat Hname. unfold ItemAggregator.calculate_priority.
  rewrite Htrue. cbn [negb].
  destruct priority as [| b | z | p | name]; try done.
  - by destruct (Hfloat p).
  - by rewrite (index_not_elem_of name cats (Hname name eq_refl)).
Qed.

Lemma calculate_priority_unmatched_strategy_witness :
  ItemAggregator.calculate_priority GenreVectorizer.goodreads_categories
    (5 :: repeat 0 15)%float (Py.Str "science_fiction") 0.5%float
  = Py.Ok Py.None_.
Proof.
  apply calculate_priority_unmatched_strategy.
  - reflexivity.
  - discriminate.
  - intros name [= <-] Hin.
    repeat (apply elem_of_cons in Hin as [Hin | Hin]; [discriminate Hin |]).
    by apply not_elem_of_nil in Hin.
Defined.

(** C6: for a strategy that is a (non-empty) name of the category set, on a
    vector with one axis per category, [calculate_priority] returns 1 when
    the axis of that category holds the possibly tied maximum of the vector
    and the vector is not all zero, and 0 otherwise; in particular 0 on an
    all-zero vector. *)
Theorem calculate_priority_category (cats : list string)
    (vector : list float) (name : string) (draw : float) (i : nat) :
  name <> EmptyString ->
  Py.index name cats = Some i ->
  length vector = length cats ->
  cats !! i = Some name
  /\ (Specification.holds_max vector i /\ ~ Specification.all_zero vector ->
      ItemAggregator.calculate_priority cats vector (Py.Str name) draw
      = Py.Ok (Py.Float 1))
  /\ (~ (Specification.holds_max vector i /\ ~ Specification.all_zero vector)
      -> ItemAggregator.calculate_priority cats vector (Py.Str name) draw
         = Py.Ok (Py.Float 0))
  /\ (Specification.all_zero vector ->
      ItemAggregator.calculate_priority cats vector (Py.Str name) draw
      = Py.Ok (Py.Float 0)).
Proof.
  intros Hname Hidx Hlen.
  pose proof (index_Some _ _ _ Hidx) as Hcat.
  split; [done |].
  unfold ItemAggregator.calculate_priority.
  rewrite truthy_str by done. cbn [negb]. rewrite Hidx.
  destruct vector as [| a l] eqn:Hv.
  { apply lookup_lt_Some in Hcat. simpl in Hlen. lia. }
  rewrite <- Hv in *. clear Hlen.
  assert (Hmax : Np.max vector = Py.Ok (foldl Np.maximum a l))
    by (by rewrite Hv).
  rewrite Hmax. cbn [Py.bind].
  pose proof (where_eq_max vector _ i Hmax) as Hwhere.
  pose proof (all_eq_spec vector 0%float) as Hzero.
  fold (Specification.all_zero vector) in Hzero.
  destruct (Np.all_eq vector 0) eqn:Hall.
  - rewrite andb_false_r.
    assert (Hz : Specification.all_zero vector) by (by apply Hzero).
    split; [| done]. intros [_ Hnz]. done.
  - rewrite andb_true_r.
    assert (Hnz : ~ Specification.all_zero vector).
    { intros Hz. apply Hzero in Hz. congruence. }
    split; [| split].
    + intros [Hm _]. by rewrite bool_decide_eq_true_2 by (by apply Hwhere).
    + intros Hnot. rewrite bool_decide_eq_false_2; [done |].
      intros Hin. apply Hnot. split; [by apply Hwhere | done].
    + done.
Qed.

Lemma calculate_priority_category_witness :
  ItemAggregator.calculate_priority GenreVectorizer.goodreads_categories
    (0 :: 3 :: 3 :: repeat 0 13)%float (Py.Str "graphic") 0.5%float
  = Py.Ok (Py.Float 1)
  /\ ItemAggregator.calculate_priority GenreVectorizer.goodreads_categories
       (repeat 0 16)%float (Py.Str "graphic") 0.5%float
     = Py.Ok (Py.Float 0).
Proof.
  split.
  - apply (calculate_priority_category GenreVectorizer.goodreads_categories
             (0 :: 3 :: 3 :: repeat 0 13)%float "graphic" 0.5%float 2%nat);
      [discriminate | reflexivity | reflexivity |].
    split.
    + exists 3%float. split; [reflexivity |].
      intros y Hy. repeat (apply elem_of_cons in Hy as [-> | Hy];
                           [vm_compute; reflexivity |]).
      by apply not_elem_of_nil in Hy.
    + intros Hz. specialize (Hz 3%float). discriminate Hz. right. left.
  - apply (calculate_priority_category GenreVectorizer.goodreads_categories
             (repeat 0 16)%float "graphic" 0.5%float 2%nat);
      [discriminate | reflexivity | reflexivity |].
    intros y Hy. apply list_elem_of_In, repeat_spec in Hy as ->.
    reflexivity.
Defined.

(** ** The similarity matrix *)

(** C4: with an all-zero reference vector the norm is 0, the division
    [0 / 0] is NaN, and the NaN reaches the returned mapping. *)
Lemma matrix_cosine_similarity_zero_vector :
  SimilarityEngine.matrix_cosine_similarity
    [repeat 0%float 16] [(42, (1 :: repeat 0 15)%float)] 1
  = Py.Ok [[(42, nan)]]
  /\ is_nan nan = true.
Proof. split; vm_compute; reflexivity. Qed.

(** ** Tables *)

Section TableProps.
Import Tables.

Lemma elem_of_drop_duplicates (l : list Z) (x : Z) :
  x ∈ drop_duplicates l <-> x ∈ l.
Proof.
  induction l as [| y l IH]; cbn [drop_duplicates]; [done |].
  rewrite !elem_of_cons, list_elem_of_filter, IH.
  destruct (decide (x = y)); tauto.
Qed.

Lemma NoDup_drop_duplicates (l : list Z) : NoDup (drop_duplicates l).
Proof.
  induction l as [| y l IH]; cbn [drop_duplicates]; [constructor |].
  constructor.
  - rewrite list_elem_of_filter. intros [Hne _]. by apply Hne.
  - by apply NoDup_filter.
Qed.

Lemma filter_filter_comm (P Q : Z -> Prop) `{!forall x, Decision (P x)}
    `{!forall x, Decision (Q x)} (l : list Z) :
  filter P (filter Q l) = filter Q (filter P l).
Proof.
  induction l as [| x l IH]; [done |].
  rewrite !filter_cons.
  destruct (decide (Q x)), (decide (P x)); rewrite ?filter_cons;
    repeat case_decide; try done; by rewrite IH.
Qed.

Lemma filter_ext_in {A : Type} (P Q : A -> Prop)
    `{!forall x, Decision (P x)} `{!forall x, Decision (Q x)} (l : list A) :
  (forall x, x ∈ l -> P x <-> Q x) -> filter P l = filter Q l.
Proof.
  induction l as [| x l IH]; intros Hext; [done |].
  rewrite !filter_cons.
  assert (Hx : P x <-> Q x) by (apply Hext; left).
  rewrite IH by (intros; apply Hext; by right).
  destruct (decide (P x)), (decide (Q x)); tauto.
Qed.

(** Filtering before or after the duplicates are dropped is the same. *)
Lemma drop_duplicates_filter (P : Z -> Prop) `{!forall x, Decision (P x)}
    (l : list Z) :
  drop_duplicates (filter P l) = filter P (drop_duplicates l).
Proof.
  induction l as [| x l IH]; [done |].
  rewrite filter_cons. cbn [drop_duplicates]. rewrite filter_cons.
  destruct (decide (P x)) as [HP | HP].
  - cbn [drop_duplicates]. rewrite IH. f_equal. apply filter_filter_comm.
  - rewrite IH, list_filter_filter. apply filter_ext_in.
    intros y _. split; [intros Hy | by intros [Hy _]].
    split; [done |]. intros ->. done.
Qed.

Lemma map_filter_comm {A : Type} (f : A -> Z) (P : Z -> Prop)
    (Q : A -> Prop) `{!forall x, Decision (P x)}
    `{!forall a, Decision (Q a)} (l : list A) :
  (forall a, Q a <-> P (f a)) -> map f (filter Q l) = filter P (map f l).
Proof.
  intros HQ. induction l as [| a l IH]; [done |].
  cbn [map]. rewrite !filter_cons. specialize (HQ a).
  destruct (decide (Q a)), (decide (P (f a))); cbn [map]; rewrite ?IH;
    tauto.
Qed.

Lemma elem_of_map {A B : Type} (f : A -> B) (l : list A) (y : B) :
  y ∈ map f l <-> exists x, y = f x /\ x ∈ l.
Proof. exact (list_elem_of_fmap f l y). Qed.

Lemma elem_of_group_keys (df : list interaction) (u : Z) :
  u ∈ group_keys df <-> u ∈ map user_id df.
Proof.
  unfold group_keys. rewrite merge_sort_Permutation.
  apply elem_of_drop_duplicates.
Qed.

Lemma assoc_map_key (f : Z -> Z) (keys : list Z) (u : Z) :
  assoc u (map (fun k => (k, f k)) keys)
  = if decide (u ∈ keys) then Some (f u) else None.
Proof.
  induction keys as [| k keys IH]; cbn [map assoc].
  - by rewrite decide_False by apply not_elem_of_nil.
  - destruct (decide (k = u)) as [-> | Hne].
    + by rewrite decide_True by left.
    + rewrite IH. destruct (decide (u ∈ keys)) as [Hin | Hnin].
      * by rewrite decide_True by (by right).
      * rewrite decide_False; [done |].
        intros [-> | H]%elem_of_cons; done.
Qed.

Lemma elem_of_map_user_id_filter (df : list interaction) (u : Z) :
  u ∈ map user_id df
  <-> (0 < length (filter (fun r => user_id r = u) df))%nat.
Proof.
  induction df as [| r df IH]; cbn [map].
  - split; [intros H; by apply not_elem_of_nil in H | simpl; lia].
  - rewrite filter_cons, elem_of_cons, IH.
    destruct (decide (user_id r = u)) as [E | E]; cbn [length].
    + split; [lia | by left].
    + split; [intros [-> | H]; done | by right].
Qed.

End TableProps.

(** ** The stratified sampler *)

Section SamplerProps.
Import Tables Sampler Specification.

Lemma assoc_groupby_count (D : list interaction) (u : Z) :
  assoc u (groupby_count D)
  = if decide (u ∈ map user_id D)
    then Some (Z.of_nat (length (filter (fun r => user_id r = u) D)))
    else None.
Proof.
  unfold groupby_count.
  rewrite (assoc_map_key
             (fun k => Z.of_nat (length (filter (fun r => user_id r = k) D)))).
  pose proof (elem_of_group_keys D u) as Hkeys.
  repeat case_decide; try done; exfalso; tauto.
Qed.

(** The count joined to a user is the number of books read, and exists for
    the users that read one book at least. *)
Lemma assoc_book_count (df : list interaction) (u : Z) :
  assoc u (groupby_count (filter (fun r => is_read r = 1) df))
  = if decide (1 <= books_read df u) then Some (books_read df u) else None.
Proof.
  rewrite assoc_groupby_count. unfold books_read.
  pose proof (elem_of_map_user_id_filter
                (filter (fun r => is_read r = 1) df) u) as Hin.
  repeat case_decide; try done; exfalso; [apply Hin in H | apply H, Hin]; lia.
Qed.

Lemma books_read_user (df : list interaction) (u : Z) :
  1 <= books_read df u -> u ∈ map user_id df.
Proof.
  unfold books_read. intros Hu.
  assert (Hin : u ∈ map user_id (filter (fun r => is_read r = 1) df))
    by (apply elem_of_map_user_id_filter; lia).
  apply elem_of_map in Hin as (r & -> & Hr).
  apply list_elem_of_filter in Hr as [_ Hr].
  apply elem_of_map. by exists r.
Qed.

(** Line 108: the users kept are those with a count, of at most
    [thresholds[2]]. *)
Lemma elem_of_user_ids (df : list interaction) (thresholds : Z * Z * Z)
    (u : Z) :
  u ∈ map fst (filter (fun p => p.2 <= Utils.high_of thresholds)
                      (groupby_count (filter (fun r => is_read r = 1) df)))
  <-> 1 <= books_read df u <= Utils.high_of thresholds.
Proof.
  set (D := filter (fun r => is_read r = 1) df).
  pose proof (assoc_book_count df u) as Hassoc. fold D in Hassoc.
  rewrite assoc_groupby_count in Hassoc.
  rewrite elem_of_map. split.
  - intros ([k c] & -> & Hin). apply list_elem_of_filter in Hin as [Hc Hin].
    unfold groupby_count in Hin.
    apply elem_of_map in Hin as (k' & [= -> ->] & Hk).
    apply elem_of_group_keys in Hk. cbn [fst snd] in *.
    rewrite decide_True in Hassoc by done.
    case_decide as H1; [| done]. split; [exact H1 | exact Hc].
  - intros [H1 H2]. exists (u, books_read df u). split; [done |].
    apply list_elem_of_filter. split; [done |].
    rewrite (decide_True _ _ H1) in Hassoc.
    case_decide as Hu; [| done].
    unfold groupby_count. apply elem_of_map. exists u. split; [done |].
    by apply elem_of_group_keys.
Qed.

Lemma candidates_users (df : list interaction) (thresholds : Z * Z * Z) :
  map row_user (candidates df thresholds)
  = filter (fun u => 1 <= books_read df u <= Utils.high_of thresholds)
           (map user_id df).
Proof.
  unfold candidates. rewrite map_map. unfold row_user. cbn [row].
  apply map_filter_comm. intros r. apply elem_of_user_ids.
Qed.

Lemma candidates_book_count (df : list interaction) (thresholds : Z * Z * Z)
    (r : merged_row) :
  r ∈ candidates df thresholds ->
  book_count r = Some (books_read df (row_user r)).
Proof.
  unfold candidates. intros Hin.
  apply elem_of_map in Hin as (x & -> & Hx).
  apply list_elem_of_filter in Hx as [Hu _].
  apply elem_of_user_ids in Hu. unfold row_user. cbn [row book_count].
  rewrite assoc_book_count. by rewrite decide_True by lia.
Qed.

(** A group of [filtered_df] selected by a test on the count lists the users
    of the input, in their order of first appearance, that have a count
    passing the test and the top threshold. *)
Lemma pool_by_count (q : option Z -> bool) (df : list interaction)
    (thresholds : Z * Z * Z) :
  drop_duplicates
    (map row_user
       (filter (fun r => q (book_count r)) (candidates df thresholds)))
  = filter (fun u => q (Some (books_read df u))
                     /\ 1 <= books_read df u <= Utils.high_of thresholds)
           (drop_duplicates (map user_id df)).
Proof.
  rewrite <- drop_duplicates_filter, <- list_filter_filter.
  rewrite <- candidates_users. f_equal.
  rewrite (filter_ext_in (fun r => q (book_count r))
             (fun r => q (Some (books_read df (row_user r))))).
  2: { intros r Hr. by rewrite (candidates_book_count _ _ _ Hr). }
  by apply map_filter_comm.
Qed.

Lemma low_pool_spec (df : list interaction) (thresholds : Z * Z * Z) (u : Z) :
  Utils.low_of thresholds <= Utils.high_of thresholds ->
  u ∈ low_pool (candidates df thresholds) thresholds
  <-> low_tier df thresholds u.
Proof.
  intros Hth. unfold low_pool, low_tier.
  rewrite (pool_by_count (fun c => count_le c (Utils.low_of thresholds))).
  rewrite list_elem_of_filter, elem_of_drop_duplicates. cbn [count_le].
  rewrite Is_true_true, Z.leb_le. split; [lia |]. intros H.
  split; [lia |]. apply books_read_user. lia.
Qed.

Lemma mid_pool_spec (df : list interaction) (thresholds : Z * Z * Z) (u : Z) :
  Utils.mid_of thresholds <= Utils.high_of thresholds ->
  u ∈ mid_pool (candidates df thresholds) thresholds
  <-> mid_tier df thresholds u.
Proof.
  intros Hth. unfold mid_pool, mid_tier.
  rewrite (pool_by_count
             (fun c => count_le c (Utils.mid_of thresholds)
                       && count_gt c (Utils.low_of thresholds))).
  rewrite list_elem_of_filter, elem_of_drop_duplicates.
  cbn [count_le count_gt].
  rewrite andb_True, !Is_true_true, Z.leb_le, Z.ltb_lt.
  split; [lia |]. intros H.
  split; [lia |]. apply books_read_user. lia.
Qed.

Lemma high_pool_spec (df : list interaction) (thresholds : Z * Z * Z) (u : Z) :
  u ∈ high_pool (candidates df thresholds) thresholds
  <-> high_tier df thresholds u.
Proof.
  unfold high_pool, high_tier.
  rewrite (pool_by_count (fun c => count_gt c (Utils.mid_of thresholds))).
  rewrite list_elem_of_filter, elem_of_drop_duplicates. cbn [count_gt].
  rewrite Is_true_true, Z.ltb_lt. split; [lia |]. intros H.
  split; [lia |]. apply books_read_user. lia.
Qed.

Lemma map_each_lookup (pool : list Z) (ps : list nat) :
  (forall p, p ∈ ps -> (p < length pool)%nat) ->
  exists s,
    Py.map_each (fun p => match pool !! p with
                          | Some u => Py.Ok u
                          | None => Py.Raise Py.IndexError
                          end) ps = Py.Ok s
    /\ Forall2 (fun p u => pool !! p = Some u) ps s.
Proof.
  induction ps as [| p ps IH]; intros Hlt; cbn [Py.map_each].
  - exists []. split; [done | constructor].
  - destruct (lookup_lt_is_Some_2 pool p) as [u Hu]; [apply Hlt; left |].
    destruct IH as (s & Hs & Hall); [intros; apply Hlt; by right |].
    rewrite Hu, Hs. cbn [Py.bind]. exists (u :: s).
    split; [done | by constructor].
Qed.

Lemma Forall2_lookup_NoDup (pool : list Z) (ps : list nat) (s : list Z) :
  NoDup pool -> NoDup ps ->
  Forall2 (fun p u => pool !! p = Some u) ps s -> NoDup s.
Proof.
  intros Hpool Hps Hall. apply NoDup_alt. intros i j u Hi Hj.
  destruct (Forall2_lookup_r _ _ _ _ _ Hall Hi) as (p & Hp & Hpu).
  destruct (Forall2_lookup_r _ _ _ _ _ Hall Hj) as (p' & Hp' & Hpu').
  assert (p = p') as <- by exact (NoDup_lookup pool p p' u Hpool Hpu Hpu').
  exact (NoDup_lookup ps i j p Hps Hp Hp').
Qed.

(** [sample] either refuses a size that the pool cannot supply, or returns
    that many distinct members of the pool. *)
Lemma sample_cases (choice : Z -> nat -> nat -> list nat) (pool : list Z)
    (n seed : Z) :
  valid_choice choice -> NoDup pool ->
  match sample choice pool n seed with
  | Py.Ok s =>
      0 <= n <= Z.of_nat (length pool)
      /\ Z.of_nat (length s) = n /\ NoDup s /\ forall u, u ∈ s -> u ∈ pool
  | Py.Raise e =>
      e = Py.ValueError /\ ~ (0 <= n <= Z.of_nat (length pool))
  end.
Proof.
  intros Hvalid Hpool. unfold sample.
  destruct (Z.ltb_spec n 0) as [Hneg | Hpos]; cbn [orb].
  { split; [done | lia]. }
  destruct (Z.ltb_spec (Z.of_nat (length pool)) n) as [Hbig | Hfit].
  { split; [done | lia]. }
  destruct (Hvalid seed (length pool) (Z.to_nat n)) as (Hlen & Hnd & Hlt);
    [lia |].
  destruct (map_each_lookup pool _ Hlt) as (s & -> & Hall).
  split; [lia |]. split; [| split].
  - rewrite <- (Forall2_length _ _ _ Hall), Hlen. lia.
  - by eapply Forall2_lookup_NoDup.
  - intros u Hu. apply list_elem_of_lookup in Hu as [i Hi].
    destruct (Forall2_lookup_r _ _ _ _ _ Hall Hi) as (p & _ & Hpu).
    by eapply list_elem_of_lookup_2.
Qed.

Lemma NoDup_pool (l : list Z) : NoDup (drop_duplicates l).
Proof. apply NoDup_drop_duplicates. Qed.

(** The three groups share no user when the thresholds ascend. *)
Lemma tiers_disjoint (df : list interaction) (thresholds : Z * Z * Z)
    (u : Z) :
  Utils.low_of thresholds <= Utils.mid_of thresholds ->
  (low_tier df thresholds u -> ~ mid_tier df thresholds u)
  /\ (low_tier df thresholds u -> ~ high_tier df thresholds u)
  /\ (mid_tier df thresholds u -> ~ high_tier df thresholds u).
Proof. unfold low_tier, mid_tier, high_tier. lia. Qed.

Lemma rotate_choice_valid : valid_choice rotate_choice.
Proof.
  intros seed len n Hn. unfold rotate_choice.
  set (k := Z.to_nat (seed mod Z.of_nat len)).
  assert (Hnd : NoDup (rotate k (seq 0 len))).
  { unfold rotate. rewrite Permutation_app_comm, take_drop.
    apply NoDup_seq. }
  split; [| split].
  - apply length_take_le. by rewrite length_rotate, length_seq.
  - eapply sublist_NoDup; [exact Hnd | apply sublist_take].
  - intros p Hp. apply elem_of_take in Hp as (i & Hi & _).
    apply list_elem_of_lookup_2, elem_of_rotate, elem_of_seq in Hi. lia.
Qed.

(** The pools, and with them the draws, are decided by the book counts and
    by the order in which the users first appear. *)
Lemma pools_congr (df1 df2 : list interaction) (thresholds : Z * Z * Z) :
  (forall u, books_read df1 u = books_read df2 u) ->
  drop_duplicates (map user_id df1) = drop_duplicates (map user_id df2) ->
  low_pool (candidates df1 thresholds) thresholds
  = low_pool (candidates df2 thresholds) thresholds
  /\ mid_pool (candidates df1 thresholds) thresholds
     = mid_pool (candidates df2 thresholds) thresholds
  /\ high_pool (candidates df1 thresholds) thresholds
     = high_pool (candidates df2 thresholds) thresholds.
Proof.
  intros Hcount Hfirst. unfold low_pool, mid_pool, high_pool.
  rewrite (pool_by_count (fun c => count_le c (Utils.low_of thresholds)) df1),
    (pool_by_count (fun c => count_le c (Utils.low_of thresholds)) df2),
    (pool_by_count (fun c => count_le c (Utils.mid_of thresholds)
                             && count_gt c (Utils.low_of thresholds)) df1),
    (pool_by_count (fun c => count_le c (Utils.mid_of thresholds)
                             && count_gt c (Utils.low_of thresholds)) df2),
    (pool_by_count (fun c => count_gt c (Utils.mid_of thresholds)) df1),
    (pool_by_count (fun c => count_gt c (Utils.mid_of thresholds)) df2).
  rewrite Hfirst.
  repeat split; apply filter_ext_in; intros u _; by rewrite Hcount.
Qed.

(** The users of a group of rows selected by user, without duplicates. *)
Lemma unique_users_rows_of (df : list interaction) (thresholds : Z * Z * Z)
    (ids : list Z) :
  drop_duplicates (map row_user (rows_of (candidates df thresholds) ids))
  = filter (fun u => u ∈ ids
                     /\ 1 <= books_read df u <= Utils.high_of thresholds)
           (drop_duplicates (map user_id df)).
Proof.
  unfold rows_of.
  rewrite <- drop_duplicates_filter, <- list_filter_filter.
  rewrite <- candidates_users. f_equal. by apply map_filter_comm.
Qed.

Lemma elem_of_users_rows_of (filtered_df : list merged_row) (ids : list Z)
    (u : Z) :
  u ∈ map row_user (rows_of filtered_df ids)
  <-> u ∈ ids /\ u ∈ map row_user filtered_df.
Proof.
  unfold rows_of. rewrite !elem_of_map. split.
  - intros (r & -> & Hr). apply list_elem_of_filter in Hr as [Hid Hr].
    split; [done |]. by exists r.
  - intros (Hid & r & -> & Hr). exists r. split; [done |].
    by apply list_elem_of_filter.
Qed.

Lemma add_ignorance_merged (choice : Z -> nat -> nat -> list nat)
    (seed : Z) (p : float) (sub_df : list merged_row)
    (rows : list sampled_row) :
  add_ignorance choice seed p sub_df = Py.Ok rows ->
  map merged rows = sub_df.
Proof.
  unfold add_ignorance.
  destruct (Py.truthy (Py.Float p));
    [destruct (naiveness_map choice seed p sub_df) as [m | e];
     cbn [Py.bind]; [| done] |];
    intros [= <-]; rewrite map_map; cbn [merged]; apply map_id.
Qed.

(** The rows returned are the rows of the sampled users, tier after
    tier. *)
Lemma process_df_users_raw_rows (choice : Z -> nat -> nat -> list nat)
    (df : list interaction) (n_users seed : Z) (thresholds : Z * Z * Z)
    (p : float) (rows : list sampled_row) :
  process_df_users_raw choice df n_users seed thresholds p = Py.Ok rows ->
  exists s,
    sample_tiers choice df n_users seed thresholds = Py.Ok s
    /\ map merged rows
       = rows_of (candidates df thresholds) (low_user_ids s)
         ++ rows_of (candidates df thresholds) (mid_user_ids s)
         ++ rows_of (candidates df thresholds) (high_user_ids s).
Proof.
  unfold process_df_users_raw.
  destruct (sample_tiers choice df n_users seed thresholds) as [s | e];
    cbn [Py.bind]; [| done].
  destruct (add_ignorance choice seed p
              (rows_of (candidates df thresholds) (low_user_ids s)))
    as [low |] eqn:Hlow; cbn [Py.bind]; [| done].
  destruct (add_ignorance choice seed p
              (rows_of (candidates df thresholds) (mid_user_ids s)))
    as [mid |] eqn:Hmid; cbn [Py.bind]; [| done].
  destruct (add_ignorance choice seed p
              (rows_of (candidates df thresholds) (high_user_ids s)))
    as [high |] eqn:Hhigh; cbn [Py.bind]; [| done].
  intros [= <-]. exists s. split; [done |].
  rewrite !map_app.
  by rewrite (add_ignorance_merged _ _ _ _ _ Hlow),
    (add_ignorance_merged _ _ _ _ _ Hmid),
    (add_ignorance_merged _ _ _ _ _ Hhigh).
Qed.

Lemma pool_users (df : list interaction) (thresholds : Z * Z * Z) (u : Z) :
  low_tier df thresholds u \/ mid_tier df thresholds u
  \/ high_tier df thresholds u ->
  Utils.low_of thresholds <= Utils.mid_of thresholds ->
  Utils.mid_of thresholds <= Utils.high_of thresholds ->
  u ∈ map row_user (candidates df thresholds).
Proof.
  unfold low_tier, mid_tier, high_tier. intros Htier H01 H12.
  rewrite candidates_users, list_elem_of_filter.
  split; [lia |]. apply books_read_user. lia.
Qed.

Lemma naiveness_map_congr (choice : Z -> nat -> nat -> list nat) (seed : Z)
    (p : float) (sub1 sub2 : list merged_row) :
  drop_duplicates (map row_user sub1) = drop_duplicates (map row_user sub2) ->
  naiveness_map choice seed p sub1 = naiveness_map choice seed p sub2.
Proof. intros Heq. unfold naiveness_map. by rewrite Heq. Qed.

Lemma elem_of_flag_assignments (f : Z -> option bool)
    (sub_df : list merged_row) (u : Z) (flag : option bool) :
  (u, flag)
    ∈ flag_assignments
        (map (fun r => {| merged := r; ignorant := f (row_user r) |}) sub_df)
  <-> u ∈ drop_duplicates (map row_user sub_df) /\ flag = f u.
Proof.
  unfold flag_assignments. rewrite map_map. cbn [merged ignorant].
  rewrite elem_of_drop_duplicates, !elem_of_map. split.
  - intros (r & [= -> ->] & Hr). split; [by exists r | done].
  - intros ((r & -> & Hr) & ->). by exists r.
Qed.

(** The flags of a group are decided by its users, in their order of first
    appearance. *)
Lemma add_ignorance_congr (choice : Z -> nat -> nat -> list nat) (seed : Z)
    (p : float) (sub1 sub2 : list merged_row) :
  drop_duplicates (map row_user sub1) = drop_duplicates (map row_user sub2) ->
  Py.agree (fun rows1 rows2 =>
              forall uf, uf ∈ flag_assignments rows1
                         <-> uf ∈ flag_assignments rows2)
           (add_ignorance choice seed p sub1)
           (add_ignorance choice seed p sub2).
Proof.
  intros Heq. unfold add_ignorance.
  rewrite (naiveness_map_congr choice seed p sub1 sub2 Heq).
  destruct (Py.truthy (Py.Float p)).
  - destruct (naiveness_map choice seed p sub2) as [m | e]; cbn [Py.bind];
      [| done].
    intros [u flag].
    rewrite (elem_of_flag_assignments (fun u => m !! u) sub1),
      (elem_of_flag_assignments (fun u => m !! u) sub2).
    by rewrite Heq.
  - intros [u flag].
    rewrite (elem_of_flag_assignments (fun _ => Some false) sub1),
      (elem_of_flag_assignments (fun _ => Some false) sub2).
    by rewrite Heq.
Qed.

Lemma flag_assignments_app (rows1 rows2 : list sampled_row) :
  flag_assignments (rows1 ++ rows2)
  = flag_assignments rows1 ++ flag_assignments rows2.
Proof. apply map_app. Qed.

(** Two tables with the same book counts and the same order of first
    appearance: the runs agree on the users returned and on their flags. *)
Lemma process_df_users_raw_congr (choice : Z -> nat -> nat -> list nat)
    (df1 df2 : list interaction) (n_users seed : Z)
    (thresholds : Z * Z * Z) (p : float) :
  (forall u, books_read df1 u = books_read df2 u) ->
  drop_duplicates (map user_id df1) = drop_duplicates (map user_id df2) ->
  Py.agree (fun rows1 rows2 =>
              forall uf, uf ∈ flag_assignments rows1
                         <-> uf ∈ flag_assignments rows2)
           (process_df_users_raw choice df1 n_users seed thresholds p)
           (process_df_users_raw choice df2 n_users seed thresholds p).
Proof.
  intros Hcount Hfirst. unfold process_df_users_raw, sample_tiers.
  destruct (pools_congr df1 df2 thresholds Hcount Hfirst) as (-> & -> & ->).
  fold (sample_tiers choice df2 n_users seed thresholds).
  destruct (sample_tiers choice df2 n_users seed thresholds) as [s | e];
    cbn [Py.bind]; [| done].
  assert (Hsub : forall ids,
             drop_duplicates
               (map row_user (rows_of (candidates df1 thresholds) ids))
             = drop_duplicates
                 (map row_user (rows_of (candidates df2 thresholds) ids))).
  { intros ids. rewrite !unique_users_rows_of, Hfirst.
    apply filter_ext_in. intros u _. by rewrite Hcount. }
  pose proof (add_ignorance_congr choice seed p _ _ (Hsub (low_user_ids s)))
    as Hlow.
  pose proof (add_ignorance_congr choice seed p _ _ (Hsub (mid_user_ids s)))
    as Hmid.
  pose proof (add_ignorance_congr choice seed p _ _ (Hsub (high_user_ids s)))
    as Hhigh.
  unfold Py.agree in *.
  repeat match goal with
         | |- context [add_ignorance ?c ?sd ?q ?sub] =>
             destruct (add_ignorance c sd q sub); cbn [Py.bind]; try done
         end.
  intros uf. rewrite !flag_assignments_app, !elem_of_app.
  by rewrite Hlow, Hmid, Hhigh.
Qed.

Example sample_one_per_tier :
  sample_tiers rotate_choice one_per_tier 3 0 (5, 20, 50)
  = Py.Ok {| low_user_ids := [1]; mid_user_ids := [2];
             high_user_ids := [3] |}.
Proof. vm_compute. reflexivity. Qed.

Example sample_too_many :
  sample_tiers rotate_choice one_per_tier 4 0 (5, 20, 50)
  = Py.Raise Py.ValueError.
Proof. vm_compute. reflexivity. Qed.

(** On the two rows of [rows_ab] every draw of one user takes the same
    position in both orders, hence a different user. *)
Lemma sample_tiers_two_rows (choice : Z -> nat -> nat -> list nat)
    (seed : Z) :
  valid_choice choice ->
  exists first : bool,
    sample_tiers choice rows_ab 1 seed (5, 20, 50)
    = Py.Ok {| low_user_ids := [if first then 1 else 2];
               mid_user_ids := []; high_user_ids := [] |}
    /\ sample_tiers choice rows_ba 1 seed (5, 20, 50)
       = Py.Ok {| low_user_ids := [if first then 2 else 1];
                  mid_user_ids := []; high_user_ids := [] |}.
Proof.
  intros Hvalid. unfold sample_tiers.
  assert (Hnone : sample choice [] 0 seed = Py.Ok []).
  { unfold sample. cbn [length].
    change ((0 <? 0) || (Z.of_nat 0 <? 0)) with false.
    change (Z.to_nat 0) with 0%nat. cbv iota.
    destruct (Hvalid seed 0%nat 0%nat ltac:(lia)) as (Hlen & _).
    by destruct (choice seed 0%nat 0%nat). }
  assert (Hone : exists first : bool,
             forall a b, sample choice [a; b] 1 seed
                         = Py.Ok [if first then a else b]).
  { unfold sample. cbn [length].
    change ((1 <? 0) || (Z.of_nat 2 <? 1)) with false.
    change (Z.to_nat 1) with 1%nat. cbv iota.
    destruct (Hvalid seed 2%nat 1%nat ltac:(lia)) as (Hlen & _ & Hlt).
    destruct (choice seed 2%nat 1%nat) as [| p [| p' ps]]; try done.
    specialize (Hlt p (list_elem_of_here _ _)).
    destruct p as [| [| p]]; [by exists true | by exists false | lia]. }
  destruct Hone as (first & Hone). exists first.
  replace (low_pool (candidates rows_ab (5, 20, 50)) (5, 20, 50))
    with [1; 2] by (vm_compute; reflexivity).
  replace (low_pool (candidates rows_ba (5, 20, 50)) (5, 20, 50))
    with [2; 1] by (vm_compute; reflexivity).
  replace (mid_pool (candidates rows_ab (5, 20, 50)) (5, 20, 50))
    with (@nil Z) by (vm_compute; reflexivity).
  replace (mid_pool (candidates rows_ba (5, 20, 50)) (5, 20, 50))
    with (@nil Z) by (vm_compute; reflexivity).
  replace (high_pool (candidates rows_ab (5, 20, 50)) (5, 20, 50))
    with (@nil Z) by (vm_compute; reflexivity).
  replace (high_pool (candidates rows_ba (5, 20, 50)) (5, 20, 50))
    with (@nil Z) by (vm_compute; reflexivity).
  change (Utils.low_of (Utils.divide_into_three 1)) with 1.
  change (Utils.mid_of (Utils.divide_into_three 1)) with 0.
  change (Utils.high_of (Utils.divide_into_three 1)) with 0.
  by rewrite !Hone, Hnone.
Qed.

End SamplerProps.

(** C8: with ascending thresholds, each pool lists once the users of its
    tier (low: count at most [t0]; mid: above [t0], at most [t1]; high:
    above [t1], at most [t2]; a user above [t2] is in no pool). When the
    draws succeed no user is in two of the three samples, each sampled user
    belongs to the tier of its sample, and the samples hold [n_users] users
    together; the draws fail, with a [ValueError], exactly when a tier
    cannot supply its share. The rows that [process_df_users_raw] returns
    are rows of the sampled users and of no other, [n_users] distinct users
    in all. *)
Theorem sample_tiers_disjoint_total
    (choice : Z -> nat -> nat -> list nat) (df : list Tables.interaction)
    (n_users seed : Z) (thresholds : Z * Z * Z) :
  Sampler.valid_choice choice ->
  Utils.low_of thresholds <= Utils.mid_of thresholds ->
  Utils.mid_of thresholds <= Utils.high_of thresholds ->
  let filtered_df := Sampler.candidates df thresholds in
  (NoDup (Sampler.low_pool filtered_df thresholds)
   /\ forall u, u ∈ Sampler.low_pool filtered_df thresholds
                <-> Specification.low_tier df thresholds u)
  /\ (NoDup (Sampler.mid_pool filtered_df thresholds)
      /\ forall u, u ∈ Sampler.mid_pool filtered_df thresholds
                   <-> Specification.mid_tier df thresholds u)
  /\ (NoDup (Sampler.high_pool filtered_df thresholds)
      /\ forall u, u ∈ Sampler.high_pool filtered_df thresholds
                   <-> Specification.high_tier df thresholds u)
  /\ match Sampler.sample_tiers choice df n_users seed thresholds with
     | Py.Ok s =>
         let all := Sampler.low_user_ids s ++ Sampler.mid_user_ids s
                    ++ Sampler.high_user_ids s in
         NoDup all
         /\ Z.of_nat (length all) = n_users
         /\ (forall u, u ∈ Sampler.low_user_ids s ->
                       Specification.low_tier df thresholds u)
         /\ (forall u, u ∈ Sampler.mid_user_ids s ->
                       Specification.mid_tier df thresholds u)
         /\ (forall u, u ∈ Sampler.high_user_ids s ->
                       Specification.high_tier df thresholds u)
         /\ Specification.feasible df n_users thresholds
     | Py.Raise e =>
         e = Py.ValueError
         /\ ~ Specification.feasible df n_users thresholds
     end
  /\ forall p rows,
       Sampler.process_df_users_raw choice df n_users seed thresholds p
       = Py.Ok rows ->
       exists s,
         Sampler.sample_tiers choice df n_users seed thresholds = Py.Ok s
         /\ (forall u,
               u ∈ map fst (Sampler.flag_assignments rows)
               <-> u ∈ Sampler.low_user_ids s ++ Sampler.mid_user_ids s
                       ++ Sampler.high_user_ids s)
         /\ Z.of_nat
              (length (Tables.drop_duplicates
                         (map fst (Sampler.flag_assignments rows))))
            = n_users.
Proof.
  intros Hvalid H01 H12 filtered_df.
  assert (Hlow : forall u, u ∈ Sampler.low_pool filtered_df thresholds
                           <-> Specification.low_tier df thresholds u)
    by (intros; apply low_pool_spec; lia).
  assert (Hmid : forall u, u ∈ Sampler.mid_pool filtered_df thresholds
                           <-> Specification.mid_tier df thresholds u)
    by (intros; by apply mid_pool_spec).
  assert (Hhigh : forall u, u ∈ Sampler.high_pool filtered_df thresholds
                            <-> Specification.high_tier df thresholds u)
    by (intros; apply high_pool_spec).
  split; [split; [apply NoDup_pool | done] |].
  split; [split; [apply NoDup_pool | done] |].
  split; [split; [apply NoDup_pool | done] |].
  match goal with |- ?cases /\ _ => assert (Hcases : cases) end.
  2: { split; [exact Hcases |]. intros p rows Hrun.
       destruct (process_df_users_raw_rows _ _ _ _ _ _ _ Hrun)
         as (s & Hs & Hrows).
       rewrite Hs in Hcases. cbn zeta in Hcases.
       destruct Hcases as (Hnd & Hlen & Hl & Hm & Hh & _).
       exists s. split; [done |].
       assert (Husers : forall u,
                  u ∈ map fst (Sampler.flag_assignments rows)
                  <-> u ∈ Sampler.low_user_ids s ++ Sampler.mid_user_ids s
                          ++ Sampler.high_user_ids s).
       { intros u. unfold Sampler.flag_assignments.
         rewrite map_map. cbn [fst].
         rewrite <- (map_map Sampler.merged Sampler.row_user), Hrows.
         rewrite !map_app, !elem_of_app, !elem_of_users_rows_of.
         split; [tauto |].
         intros [Hu | [Hu | Hu]];
           [left | right; left | right; right]; (split; [done |]);
           apply pool_users; auto. }
       split; [done |]. rewrite <- Hlen. f_equal.
       apply Permutation_length, NoDup_Permutation;
         [apply NoDup_drop_duplicates | done |].
       intros u. rewrite elem_of_drop_duplicates. apply Husers. }
  unfold Sampler.sample_tiers, Specification.feasible.
  fold filtered_df.
  pose proof (divide_into_three_sum n_users) as Hsum.
  set (d := Utils.divide_into_three n_users) in *.
  pose proof (sample_cases choice (Sampler.low_pool filtered_df thresholds)
                (Utils.low_of d) seed Hvalid (NoDup_pool _)) as Hs1.
  pose proof (sample_cases choice (Sampler.mid_pool filtered_df thresholds)
                (Utils.mid_of d) seed Hvalid (NoDup_pool _)) as Hs2.
  pose proof (sample_cases choice (Sampler.high_pool filtered_df thresholds)
                (Utils.high_of d) seed Hvalid (NoDup_pool _)) as Hs3.
  destruct (Sampler.sample choice (Sampler.low_pool filtered_df thresholds)
              (Utils.low_of d) seed) as [low | e1]; cbn [Py.bind].
  2: { destruct Hs1 as [-> Hs1]. split; [done | tauto]. }
  destruct (Sampler.sample choice (Sampler.mid_pool filtered_df thresholds)
              (Utils.mid_of d) seed) as [mid | e2]; cbn [Py.bind].
  2: { destruct Hs2 as [-> Hs2]. split; [done | tauto]. }
  destruct (Sampler.sample choice (Sampler.high_pool filtered_df thresholds)
              (Utils.high_of d) seed) as [high | e3]; cbn [Py.bind].
  2: { destruct Hs3 as [-> Hs3]. split; [done | tauto]. }
  cbn [Sampler.low_user_ids Sampler.mid_user_ids Sampler.high_user_ids].
  destruct Hs1 as (Hf1 & Hn1 & Hd1 & Hin1).
  destruct Hs2 as (Hf2 & Hn2 & Hd2 & Hin2).
  destruct Hs3 as (Hf3 & Hn3 & Hd3 & Hin3).
  assert (Hl : forall u, u ∈ low -> Specification.low_tier df thresholds u)
    by (intros u Hu; by apply Hlow, Hin1).
  assert (Hm : forall u, u ∈ mid -> Specification.mid_tier df thresholds u)
    by (intros u Hu; by apply Hmid, Hin2).
  assert (Hh : forall u, u ∈ high -> Specification.high_tier df thresholds u)
    by (intros u Hu; by apply Hhigh, Hin3).
  split; [| split; [| done]].
  - apply NoDup_app. split; [done |]. split.
    + intros u Hu Hu'.
      destruct (tiers_disjoint df thresholds u H01) as (Hlm & Hlh & _).
      apply elem_of_app in Hu' as [Hu' | Hu'].
      * by apply (Hlm (Hl u Hu)), Hm.
      * by apply (Hlh (Hl u Hu)), Hh.
    + apply NoDup_app. split; [done |]. split; [| done].
      intros u Hu Hu'.
      destruct (tiers_disjoint df thresholds u H01) as (_ & _ & Hmh).
      by apply (Hmh (Hm u Hu)), Hh.
  - rewrite !length_app. lia.
Qed.

Lemma sample_tiers_disjoint_total_witness :
  Sampler.sample_tiers Sampler.rotate_choice Sampler.rows_ab 1 0 (5, 20, 50)
  = Py.Ok {| Sampler.low_user_ids := [1]; Sampler.mid_user_ids := [];
             Sampler.high_user_ids := [] |}
  /\ Specification.feasible Sampler.rows_ab 1 (5, 20, 50).
Proof.
  pose proof (sample_tiers_disjoint_total Sampler.rotate_choice
                Sampler.rows_ab 1 0 (5, 20, 50) rotate_choice_valid
                ltac:(vm_compute; discriminate)
                ltac:(vm_compute; discriminate)) as H.
  cbn zeta in H. destruct H as (_ & _ & _ & H & _).
  assert (E : Sampler.sample_tiers Sampler.rotate_choice Sampler.rows_ab 1 0
                (5, 20, 50)
              = Py.Ok {| Sampler.low_user_ids := [1];
                         Sampler.mid_user_ids := [];
                         Sampler.high_user_ids := [] |})
    by (vm_compute; reflexivity).
  rewrite E in H. split; [exact E | apply H].
Defined.

(** C2, as stated, fails on the row order: the two tables hold the same two
    rows, the eligible users are the same, and for the same seed, whatever
    the generator draws, the low samples differ and so do the users that
    [process_df_users_raw] returns. *)
Lemma sample_tiers_depends_on_row_order :
  Sampler.rows_ba ≡ₚ Sampler.rows_ab
  /\ forall choice, Sampler.valid_choice choice ->
     forall seed,
       Sampler.sample_tiers choice Sampler.rows_ab 1 seed (5, 20, 50)
       <> Sampler.sample_tiers choice Sampler.rows_ba 1 seed (5, 20, 50)
       /\ ~ Py.agree
             (fun rows1 rows2 =>
                forall uf, uf ∈ Sampler.flag_assignments rows1
                           <-> uf ∈ Sampler.flag_assignments rows2)
             (Sampler.process_df_users_raw choice Sampler.rows_ab 1 seed
                (5, 20, 50) 0%float)
             (Sampler.process_df_users_raw choice Sampler.rows_ba 1 seed
                (5, 20, 50) 0%float).
Proof.
  split; [apply reverse_Permutation |].
  intros choice Hvalid seed.
  destruct (sample_tiers_two_rows choice seed Hvalid) as (first & Eab & Eba).
  split.
  - rewrite Eab, Eba. by destruct first.
  - unfold Sampler.process_df_users_raw. rewrite Eab, Eba.
    intros Hagree. destruct first; vm_compute in Hagree.
    + destruct (Hagree (1, Some false)) as [H _].
      specialize (H (list_elem_of_here _ _)).
      apply list_elem_of_singleton in H. discriminate H.
    + destruct (Hagree (2, Some false)) as [H _].
      specialize (H (list_elem_of_here _ _)).
      apply list_elem_of_singleton in H. discriminate H.
Qed.

(** C2, amended: with the same seed, two input tables that give every user
    the same book count and in which the users first appear in the same
    order yield identical samples in each tier and identical ignorant
    flags for the rows of any set of sampled users, and the two calls of
    [process_df_users_raw] fail alike or return the same users with the
    same flags; the order of first appearance is the part of the row order
    that the result depends on. *)
Theorem sampling_decided_by_first_appearance
    (choice : Z -> nat -> nat -> list nat)
    (df1 df2 : list Tables.interaction) (n_users seed : Z)
    (thresholds : Z * Z * Z) (ignorant_proportion : float) :
  (forall u, Specification.books_read df1 u = Specification.books_read df2 u)
  ->
  Tables.drop_duplicates (map Tables.user_id df1)
  = Tables.drop_duplicates (map Tables.user_id df2) ->
  Sampler.sample_tiers choice df1 n_users seed thresholds
  = Sampler.sample_tiers choice df2 n_users seed thresholds
  /\ (forall ids,
       Sampler.naiveness_map choice seed ignorant_proportion
         (Sampler.rows_of (Sampler.candidates df1 thresholds) ids)
       = Sampler.naiveness_map choice seed ignorant_proportion
           (Sampler.rows_of (Sampler.candidates df2 thresholds) ids))
  /\ Py.agree
       (fun rows1 rows2 =>
          forall uf, uf ∈ Sampler.flag_assignments rows1
                     <-> uf ∈ Sampler.flag_assignments rows2)
       (Sampler.process_df_users_raw choice df1 n_users seed thresholds
          ignorant_proportion)
       (Sampler.process_df_users_raw choice df2 n_users seed thresholds
          ignorant_proportion).
Proof.
  intros Hcount Hfirst. split; [| split].
  3: by apply process_df_users_raw_congr.
  - unfold Sampler.sample_tiers.
    destruct (pools_congr df1 df2 thresholds Hcount Hfirst)
      as (-> & -> & ->).
    reflexivity.
  - intros ids. unfold Sampler.naiveness_map.
    rewrite !unique_users_rows_of, Hfirst.
    rewrite (filter_ext_in
               (fun u => u ∈ ids
                         /\ 1 <= Specification.books_read df1 u
                            <= Utils.high_of thresholds)
               (fun u => u ∈ ids
                         /\ 1 <= Specification.books_read df2 u
                            <= Utils.high_of thresholds)).
    + reflexivity.
    + intros u _. by rewrite Hcount.
Qed.

Lemma sampling_decided_by_first_appearance_witness :
  Sampler.sample_tiers Sampler.rotate_choice
    (Sampler.rows_ab ++ Sampler.rows_ba) 1 7 (5, 20, 50)
  = Sampler.sample_tiers Sampler.rotate_choice
      (Sampler.rows_ab ++ Sampler.rows_ab) 1 7 (5, 20, 50).
Proof.
  refine (proj1 (sampling_decided_by_first_appearance Sampler.rotate_choice
                   (Sampler.rows_ab ++ Sampler.rows_ba)
                   (Sampler.rows_ab ++ Sampler.rows_ab) 1 7 (5, 20, 50)
                   0.5%float _ _)).
  - intros u. unfold Specification.books_read. f_equal.
    apply Permutation_length. do 2 apply filter_Permutation.
    apply Permutation_app_head, reverse_Permutation.
  - vm_compute. reflexivity.
Defined.

(** * Part III: further properties of the code *)

(** ** The genre vectorizer *)

Section GenreVectorizerMore.
Import GenreVectorizer.

Lemma foldl_assign_is_Some (v : Z) (ls : list string) (m : gmap string Z)
    (k : string) :
  is_Some (foldl (assign v) m ls !! k) <-> is_Some (m !! k) \/ k ∈ ls.
Proof.
  revert m. induction ls as [| g ls IH]; intros m; cbn [foldl].
  - split; [by left | intros [H | H]; [done | by apply not_elem_of_nil in H]].
  - rewrite IH, elem_of_cons. destruct (decide (g = k)) as [-> | Hne].
    + rewrite assign_lookup_eq. split; [tauto | eauto].
    + rewrite assign_lookup_ne by done. split; [tauto |].
      intros [H | [H | H]]; [by left | congruence | by right].
Qed.

Lemma accumulate_is_Some_iff (d : list (string * Z)) (m : gmap string Z)
    (k : string) :
  is_Some (accumulate m d !! k)
  <-> is_Some (m !! k) \/ exists e, e ∈ d /\ k ∈ labels e.1.
Proof.
  revert m. induction d as [| e d IH]; intros m; cbn [accumulate foldl].
  - split; [by left | intros [H | (e & He & _)]; [done |]].
    by apply not_elem_of_nil in He.
  - fold (accumulate (step m e) d). rewrite IH. unfold step.
    rewrite foldl_assign_is_Some. split.
    + intros [[H | H] | (e' & He' & Hk)].
      * by left.
      * right. exists e. split; [left | done].
      * right. exists e'. split; [by right | done].
    + intros [H | (e' & He' & Hk)]; [by left; left |].
      apply elem_of_cons in He' as [-> | He']; [by left; right |].
      right. by exists e'.
Qed.

Lemma foldl_assign_positive (v : Z) (ls : list string) (m : gmap string Z)
    (g : string) :
  0 < v ->
  default 0 (foldl (assign v) m ls !! g)
  = default 0 (m !! g)
    + v * Z.of_nat (length (filter (fun k => k = g) ls)).
Proof.
  intros Hv. revert m. induction ls as [| k ls IH]; intros m; cbn [foldl].
  - rewrite filter_nil. cbn [length]. lia.
  - rewrite IH, filter_cons. destruct (decide (k = g)) as [-> | Hne].
    + rewrite assign_lookup_eq. destruct (Z.ltb_spec 0 v); [| lia].
      cbn [default]. unfold id. rewrite length_cons, Nat2Z.inj_succ. lia.
    + by rewrite assign_lookup_ne.
Qed.

Lemma contributions_cons (g : string) (e : string * Z)
    (d : list (string * Z)) :
  Expected.contributions g (e :: d)
  = e.2 * Z.of_nat (length (filter (fun k => k = g) (labels e.1)))
    + Expected.contributions g d.
Proof. reflexivity. Qed.

Lemma contributions_Permutation (g : string) (d d' : list (string * Z)) :
  d ≡ₚ d' -> Expected.contributions g d = Expected.contributions g d'.
Proof.
  intros Hperm. induction Hperm; rewrite ?contributions_cons; lia.
Qed.

Lemma accumulate_positive (d : list (string * Z)) (m : gmap string Z)
    (g : string) :
  (forall e, e ∈ d -> 0 < e.2) ->
  default 0 (accumulate m d !! g)
  = default 0 (m !! g) + Expected.contributions g d.
Proof.
  revert m. induction d as [| e d IH]; intros m Hpos.
  - cbn. lia.
  - rewrite contributions_cons. cbn [accumulate foldl].
    fold (accumulate (step m e) d).
    rewrite IH by (intros; apply Hpos; by right).
    unfold step. rewrite foldl_assign_positive by (apply Hpos; left). lia.
Qed.

Lemma fill_default (cats : list string) (m : gmap string Z) (g : string) :
  default 0 (fill cats m !! g) = default 0 (m !! g).
Proof.
  rewrite fill_lookup. destruct (m !! g); [done |].
  by destruct (decide (g ∈ cats)).
Qed.

Lemma fill_is_Some (cats : list string) (m : gmap string Z) (g : string) :
  is_Some (fill cats m !! g) <-> is_Some (m !! g) \/ g ∈ cats.
Proof.
  rewrite fill_lookup. destruct (m !! g) as [x |] eqn:Hg.
  - split; [by left | eauto].
  - destruct (decide (g ∈ cats)) as [Hin | Hnin].
    + split; [by right | eauto].
    + split; [by intros [? ?] | intros [[? ?] | ?]; done].
Qed.

Lemma accumulate_Permutation (d d' : list (string * Z)) (g : string) :
  d ≡ₚ d' ->
  (forall e, e ∈ d -> 0 < e.2) ->
  accumulate ∅ d !! g = accumulate ∅ d' !! g.
Proof.
  intros Hperm Hpos.
  assert (Hpos' : forall e, e ∈ d' -> 0 < e.2)
    by (intros e He; apply Hpos; by rewrite Hperm).
  pose proof (accumulate_is_Some_iff d ∅ g) as Hd.
  pose proof (accumulate_is_Some_iff d' ∅ g) as Hd'.
  pose proof (accumulate_positive d ∅ g Hpos) as Hs.
  pose proof (accumulate_positive d' ∅ g Hpos') as Hs'.
  rewrite (contributions_Permutation g d d' Hperm) in Hs.
  assert (Hsame : is_Some (accumulate ∅ d !! g)
                  <-> is_Some (accumulate ∅ d' !! g)).
  { rewrite Hd, Hd'. split; intros [H | (e & He & Hk)];
      try (by left); right; exists e; (split; [| done]).
    - by rewrite <- Hperm.
    - by rewrite Hperm. }
  destruct (accumulate ∅ d !! g) as [x |], (accumulate ∅ d' !! g) as [y |];
    cbn [default] in *; unfold id in *.
  - f_equal. lia.
  - destruct Hsame as [Hk _]. by destruct Hk.
  - destruct Hsame as [_ Hk]. by destruct Hk.
  - done.
Qed.

End GenreVectorizerMore.

(** X1: the keys of the mapping returned by [reformat_dict] are the
    categories and the canonical labels of the input, and no other: every
    category is present, and a label outside the category set is kept as an
    extra key. *)
Theorem reformat_dict_keys (cats : list string) (d : list (string * Z))
    (k : string) :
  is_Some (GenreVectorizer.reformat_dict cats d !! k)
  <-> k ∈ cats \/ exists e, e ∈ d /\ k ∈ GenreVectorizer.labels e.1.
Proof.
  unfold GenreVectorizer.reformat_dict.
  rewrite fill_is_Some, accumulate_is_Some_iff, lookup_empty.
  split.
  - intros [[[? H] | H] | H]; [done | by right | by left].
  - intros [H | H]; [by right | by left; right].
Qed.

(** X2: on an empty mapping [reformat_dict] returns 0 for every category and
    has no other key. *)
Theorem reformat_dict_empty (cats : list string) (k : string) :
  GenreVectorizer.reformat_dict cats [] !! k
  = if decide (k ∈ cats) then Some 0 else None.
Proof.
  unfold GenreVectorizer.reformat_dict. rewrite fill_lookup.
  cbn [GenreVectorizer.accumulate foldl]. by rewrite lookup_empty.
Qed.

(** X3: when every count of the input is positive, a bucket holds the sum of
    the counts of the entries that derive it, an entry counting once for
    each of its labels equal to the bucket. *)
Theorem reformat_dict_positive_sum (cats : list string)
    (d : list (string * Z)) (g : string) :
  (forall e, e ∈ d -> 0 < e.2) ->
  default 0 (GenreVectorizer.reformat_dict cats d !! g)
  = Expected.contributions g d.
Proof.
  intros Hpos. unfold GenreVectorizer.reformat_dict.
  rewrite fill_default, accumulate_positive by done.
  by rewrite lookup_empty.
Qed.

Lemma reformat_dict_positive_sum_witness :
  default 0 (GenreVectorizer.reformat_dict GenreVectorizer.goodreads_categories
               [("fantasy, paranormal"%string, 3); ("fantasy"%string, 4)]
             !! "fantasy"%string)
  = 7.
Proof.
  rewrite (reformat_dict_positive_sum GenreVectorizer.goodreads_categories
             [("fantasy, paranormal"%string, 3); ("fantasy"%string, 4)]
             "fantasy"%string).
  - vm_compute. reflexivity.
  - intros e He. apply elem_of_cons in He as [-> | He]; [done |].
    apply list_elem_of_singleton in He as ->. done.
Defined.

(** X4: when every count is positive the result of [reformat_dict] does not
    depend on the order of the entries of the input. *)
Theorem reformat_dict_positive_order (cats : list string)
    (d d' : list (string * Z)) :
  d ≡ₚ d' ->
  (forall e, e ∈ d -> 0 < e.2) ->
  GenreVectorizer.reformat_dict cats d = GenreVectorizer.reformat_dict cats d'.
Proof.
  intros Hperm Hpos.
  apply map_eq. intros g. unfold GenreVectorizer.reformat_dict.
  rewrite !fill_lookup. by rewrite (accumulate_Permutation d d' g Hperm Hpos).
Qed.

Lemma reformat_dict_positive_order_witness :
  GenreVectorizer.reformat_dict GenreVectorizer.goodreads_categories
    [("fantasy, paranormal"%string, 3); ("fantasy"%string, 4)]
  = GenreVectorizer.reformat_dict GenreVectorizer.goodreads_categories
      [("fantasy"%string, 4); ("fantasy, paranormal"%string, 3)].
Proof.
  apply reformat_dict_positive_order.
  - apply perm_swap.
  - intros e He. apply elem_of_cons in He as [-> | He]; [done |].
    apply list_elem_of_singleton in He as ->. done.
Defined.

(** ** Canonical labels *)

Section CanonicalLabels.
Import PyStr.

Lemma replace_not_old (old new : ascii) (s : string) (c : ascii) :
  old <> new -> In c (list_ascii_of_string (replace old new s)) -> c <> old.
Proof.
  intros Hne. induction s as [| a s IH]; cbn [replace list_ascii_of_string].
  - intros [].
  - intros [<- | Hin]; [| by apply IH].
    destruct (Ascii.eqb_spec a old) as [-> | Ha]; congruence.
Qed.

Lemma replace_keeps_absent (old new : ascii) (s : string) (c : ascii) :
  c <> new ->
  (forall a, In a (list_ascii_of_string s) -> a <> c) ->
  forall a, In a (list_ascii_of_string (replace old new s)) -> a <> c.
Proof.
  intros Hnew. induction s as [| b s IH]; cbn [replace list_ascii_of_string].
  - intros _ a [].
  - intros Hs a [<- | Hin].
    + destruct (Ascii.eqb_spec b old); [congruence |]. apply Hs. by left.
    + apply IH; [| done]. intros a' Ha'. apply Hs. by right.
Qed.

Lemma replace_comm (s : string) :
  replace " " "_" (replace "-" "_" s) = replace "-" "_" (replace " " "_" s).
Proof.
  induction s as [| a s IH]; cbn [replace]; [done |]. rewrite IH. f_equal.
  destruct (Ascii.eqb_spec a "-") as [-> | H1]; [done |].
  destruct (Ascii.eqb_spec a " ") as [-> | H2]; [done |].
  destruct (Ascii.eqb_spec a "-"); [done |].
  by destruct (Ascii.eqb_spec a " ").
Qed.

Lemma replace_idemp (old new : ascii) (s : string) :
  old <> new -> replace old new (replace old new s) = replace old new s.
Proof.
  intros Hne. induction s as [| a s IH]; cbn [replace]; [done |].
  rewrite IH. f_equal. destruct (Ascii.eqb_spec a old) as [-> | Ha].
  - destruct (Ascii.eqb_spec new old); congruence.
  - by destruct (Ascii.eqb_spec a old).
Qed.

Lemma replace_nonempty (old new : ascii) (s : string) :
  s <> EmptyString -> replace old new s <> EmptyString.
Proof. by destruct s. Qed.

Lemma lstrip_length (s : string) :
  (String.length (lstrip s) <= String.length s)%nat.
Proof.
  induction s as [| a s IH]; cbn [lstrip String.length]; [lia |].
  destruct (is_space a); cbn [String.length]; lia.
Qed.

(** A string is left as it is by [lstrip] only when it does not start with
    whitespace. *)
Lemma lstrip_fixed (a : ascii) (s : string) :
  lstrip (String a s) = String a s -> is_space a = false.
Proof.
  cbn [lstrip]. destruct (is_space a); [| done]. intros Heq.
  pose proof (lstrip_length s) as Hlen. rewrite Heq in Hlen.
  cbn [String.length] in Hlen. lia.
Qed.

Lemma lstrip_idemp (s : string) : lstrip (lstrip s) = lstrip s.
Proof.
  induction s as [| a s IH]; cbn [lstrip]; [done |].
  destruct (is_space a) eqn:Ha; [done |]. cbn [lstrip]. by rewrite Ha.
Qed.

Lemma rstrip_idemp (s : string) : rstrip (rstrip s) = rstrip s.
Proof.
  induction s as [| a s IH]; cbn [rstrip]; [done |].
  destruct (rstrip s) as [| b r] eqn:Hr.
  - destruct (is_space a) eqn:Ha; cbn [rstrip]; [done |]. by rewrite Ha.
  - cbn [rstrip]. cbn [rstrip] in IH. by rewrite IH.
Qed.

Lemma lstrip_rstrip (s : string) :
  lstrip s = s -> lstrip (rstrip s) = rstrip s.
Proof.
  destruct s as [| a s]; [done |]. intros Ha%lstrip_fixed.
  cbn [rstrip]. destruct (rstrip s); [rewrite Ha |]; cbn [lstrip];
    by rewrite Ha.
Qed.

(** A replacement that turns no other character into whitespace keeps a
    stripped string stripped. *)
Lemma lstrip_replace (old new : ascii) (s : string) :
  is_space new = false -> lstrip s = s ->
  lstrip (replace old new s) = replace old new s.
Proof.
  intros Hnew. destruct s as [| a s]; [done |]. intros Ha%lstrip_fixed.
  cbn [replace lstrip]. by destruct (Ascii.eqb a old); rewrite ?Hnew, ?Ha.
Qed.

Lemma rstrip_replace (old new : ascii) (s : string) :
  is_space new = false -> rstrip s = s ->
  rstrip (replace old new s) = replace old new s.
Proof.
  intros Hnew. induction s as [| a s IH]; [done |].
  cbn [rstrip replace]. destruct (rstrip s) as [| b r] eqn:Hr.
  - destruct (is_space a) eqn:Ha; [done |]. intros [= <-].
    cbn [replace rstrip]. by destruct (Ascii.eqb a old); rewrite ?Hnew, ?Ha.
  - intros [= Hs]. rewrite IH by done.
    pose proof (replace_nonempty old new s) as Hne.
    destruct (replace old new s); [| done].
    exfalso. apply Hne; [| done]. by rewrite <- Hs.
Qed.

Lemma strip_fixed (s : string) :
  lstrip s = s -> rstrip s = s -> strip s = s.
Proof. intros Hl Hr. unfold strip. by rewrite Hl, Hr. Qed.

Lemma strip_stripped (s : string) :
  lstrip (strip s) = strip s /\ rstrip (strip s) = strip s.
Proof.
  unfold strip. split; [| apply rstrip_idemp].
  apply lstrip_rstrip, lstrip_idemp.
Qed.

End CanonicalLabels.

(** X5: a canonical label holds no space and no hyphen and has no whitespace
    at either end, and making it canonical again changes nothing. *)
Theorem canonical_is_canonical (g : string) :
  (forall c, In c (list_ascii_of_string (GenreVectorizer.canonical g)) ->
             c <> " "%char /\ c <> "-"%char)
  /\ PyStr.strip (GenreVectorizer.canonical g) = GenreVectorizer.canonical g
  /\ GenreVectorizer.canonical (GenreVectorizer.canonical g)
     = GenreVectorizer.canonical g.
Proof.
  assert (Hstrip : PyStr.strip (GenreVectorizer.canonical g)
                   = GenreVectorizer.canonical g).
  { unfold GenreVectorizer.canonical.
    destruct (strip_stripped g) as [Hl Hr].
    apply strip_fixed.
    - apply lstrip_replace; [done |]. by apply lstrip_replace.
    - apply rstrip_replace; [done |]. by apply rstrip_replace. }
  split; [| split; [done |]].
  - intros c Hc. unfold GenreVectorizer.canonical in Hc. split.
    + revert c Hc. apply replace_keeps_absent; [done |].
      intros a Ha. by apply replace_not_old in Ha.
    + by apply replace_not_old in Hc.
  - unfold GenreVectorizer.canonical at 1. rewrite Hstrip.
    unfold GenreVectorizer.canonical.
    by rewrite replace_comm, !replace_idemp.
Qed.

(** ** The sampler: sizes, rows and flags *)

Section SamplerMore.
Import Tables Sampler Specification.

Lemma high_share_negative (n : Z) :
  n < 0 -> Utils.high_of (Utils.divide_into_three n) < 0.
Proof.
  intros Hn.
  assert (Hdiv : n / 3 < 0) by (apply Z.div_lt_upper_bound; lia).
  destruct (divide_into_three_cases n) as [[_ ->] | [[_ ->] | [_ ->]]];
    exact Hdiv.
Qed.


(** The draw of a whole pool is a rearrangement of the pool. *)
Lemma sample_all (choice : Z -> nat -> nat -> list nat) (pool : list Z)
    (seed : Z) :
  valid_choice choice -> NoDup pool ->
  exists shuffled,
    sample choice pool (Z.of_nat (length pool)) seed = Py.Ok shuffled
    /\ shuffled ≡ₚ pool.
Proof.
  intros Hvalid Hnd.
  pose proof (sample_cases choice pool (Z.of_nat (length pool)) seed Hvalid
                Hnd) as Hs.
  destruct (sample choice pool (Z.of_nat (length pool)) seed)
    as [shuffled | e].
  - destruct Hs as (_ & Hlen & Hnd' & Hsub). exists shuffled.
    split; [done |]. apply submseteq_length_Permutation.
    + by apply NoDup_submseteq.
    + lia.
  - destruct Hs as [_ Hs]. lia.
Qed.

Lemma slice_to_from {A : Type} (h : Z) (l : list A) :
  Py.slice_to h l ++ Py.slice_from h l = l.
Proof.
  unfold Py.slice_to, Py.slice_from. destruct (0 <=? h); apply take_drop.
Qed.

Lemma length_slice_to {A : Type} (h : Z) (l : list A) :
  0 <= h <= Z.of_nat (length l) ->
  length (Py.slice_to h l) = Z.to_nat h.
Proof.
  intros Hh. unfold Py.slice_to. destruct (Z.leb_spec 0 h); [| lia].
  rewrite length_take. lia.
Qed.

Lemma foldl_insert_flag (v : bool) (l : list Z) (m : gmap Z bool) (u : Z) :
  foldl (fun m u => <[u := v]> m) m l !! u
  = if decide (u ∈ l) then Some v else m !! u.
Proof.
  revert m. induction l as [| k l IH]; intros m; cbn [foldl].
  - by rewrite decide_False by apply not_elem_of_nil.
  - rewrite IH. destruct (decide (u ∈ l)) as [Hin | Hnin].
    + by rewrite decide_True by (by right).
    + destruct (decide (k = u)) as [-> | Hne].
      * rewrite decide_True by left. apply lookup_insert_eq.
      * rewrite decide_False by (intros [-> | H]%elem_of_cons; done).
        by apply lookup_insert_ne.
Qed.

(** The flags of a group, from the shuffled users and the cut. *)
Lemma flags_of_shuffle (shuffled : list Z) (h : Z) (u : Z) :
  NoDup shuffled ->
  foldl (fun m u => <[u := false]> m)
        (foldl (fun m u => <[u := true]> m) (∅ : gmap Z bool)
               (Py.slice_to h shuffled))
        (Py.slice_from h shuffled) !! u
  = if decide (u ∈ Py.slice_to h shuffled) then Some true
    else if decide (u ∈ Py.slice_from h shuffled) then Some false
         else None.
Proof.
  intros Hnd. rewrite !foldl_insert_flag, lookup_empty.
  rewrite <- (slice_to_from h shuffled) in Hnd.
  apply NoDup_app in Hnd as (_ & Hdisj & _).
  destruct (decide (u ∈ Py.slice_from h shuffled)) as [Hin | Hnin];
    destruct (decide (u ∈ Py.slice_to h shuffled)) as [Hin' | Hnin'];
    try done.
  by destruct (Hdisj u Hin').
Qed.

Lemma naiveness_map_cases (choice : Z -> nat -> nat -> list nat) (seed : Z)
    (p : float) (sub_df : list merged_row) :
  valid_choice choice ->
  let unique_users := drop_duplicates (map row_user sub_df) in
  exists shuffled,
    shuffled ≡ₚ unique_users
    /\ naiveness_map choice seed p sub_df
       = Py.bind (Py.round_to_int
                    (Py.float_of_int (Z.of_nat (length unique_users)) * p))
           (fun h =>
              Py.Ok (foldl (fun m u => <[u := false]> m)
                       (foldl (fun m u => <[u := true]> m) ∅
                              (Py.slice_to h shuffled))
                       (Py.slice_from h shuffled))).
Proof.
  intros Hvalid unique_users. unfold naiveness_map. fold unique_users.
  destruct (sample_all choice unique_users seed Hvalid
              (NoDup_drop_duplicates _)) as (shuffled & -> & Hperm).
  exists shuffled. split; [done |]. cbn [Py.bind].
  by rewrite (Permutation_length Hperm).
Qed.

Lemma sample_tiers_members (choice : Z -> nat -> nat -> list nat)
    (df : list interaction) (n_users seed : Z) (thresholds : Z * Z * Z)
    (s : samples) :
  valid_choice choice ->
  Utils.low_of thresholds <= Utils.mid_of thresholds ->
  Utils.mid_of thresholds <= Utils.high_of thresholds ->
  sample_tiers choice df n_users seed thresholds = Py.Ok s ->
  (forall u, u ∈ low_user_ids s -> low_tier df thresholds u)
  /\ (forall u, u ∈ mid_user_ids s -> mid_tier df thresholds u)
  /\ (forall u, u ∈ high_user_ids s -> high_tier df thresholds u).
Proof.
  intros Hvalid H01 H12. unfold sample_tiers.
  set (filtered_df := candidates df thresholds).
  set (d := Utils.divide_into_three n_users).
  pose proof (sample_cases choice (low_pool filtered_df thresholds)
                (Utils.low_of d) seed Hvalid (NoDup_pool _)) as Hs1.
  pose proof (sample_cases choice (mid_pool filtered_df thresholds)
                (Utils.mid_of d) seed Hvalid (NoDup_pool _)) as Hs2.
  pose proof (sample_cases choice (high_pool filtered_df thresholds)
                (Utils.high_of d) seed Hvalid (NoDup_pool _)) as Hs3.
  destruct (sample choice (low_pool filtered_df thresholds) _ seed)
    as [low |]; cbn [Py.bind]; [| done].
  destruct (sample choice (mid_pool filtered_df thresholds) _ seed)
    as [mid |]; cbn [Py.bind]; [| done].
  destruct (sample choice (high_pool filtered_df thresholds) _ seed)
    as [high |]; cbn [Py.bind]; [| done].
  intros [= <-]. cbn [low_user_ids mid_user_ids high_user_ids].
  destruct Hs1 as (_ & _ & _ & Hin1), Hs2 as (_ & _ & _ & Hin2),
    Hs3 as (_ & _ & _ & Hin3).
  split; [| split]; intros u Hu.
  - apply low_pool_spec; [lia | by apply Hin1].
  - apply mid_pool_spec; [done | by apply Hin2].
  - apply high_pool_spec. by apply Hin3.
Qed.



Lemma length_filter_all {A : Type} (P : A -> Prop)
    `{!forall x, Decision (P x)} (l : list A) :
  (forall x, x ∈ l -> P x) -> length (filter P l) = length l.
Proof.
  induction l as [| a l IH]; intros Hall; [done |].
  rewrite filter_cons_True by (apply Hall; left). cbn [length].
  rewrite IH; [done |]. intros x Hx. apply Hall. by right.
Qed.

Lemma length_filter_none {A : Type} (P : A -> Prop)
    `{!forall x, Decision (P x)} (l : list A) :
  (forall x, x ∈ l -> ~ P x) -> length (filter P l) = 0%nat.
Proof.
  induction l as [| a l IH]; intros Hall; [done |].
  rewrite filter_cons_False by (apply Hall; left).
  apply IH. intros x Hx. apply Hall. by right.
Qed.

Lemma map_row_candidates (df : list interaction) (thresholds : Z * Z * Z) :
  map row (candidates df thresholds)
  = filter (fun r => 1 <= books_read df (user_id r)
                     <= Utils.high_of thresholds) df.
Proof.
  unfold candidates. rewrite map_map. cbn [row]. rewrite map_id.
  apply filter_ext_in. intros r _. apply elem_of_user_ids.
Qed.

Lemma map_filter_swap {A B : Type} (f : A -> B) (P : B -> Prop)
    (Q : A -> Prop) `{!forall x, Decision (P x)}
    `{!forall a, Decision (Q a)} (l : list A) :
  (forall a, Q a <-> P (f a)) -> map f (filter Q l) = filter P (map f l).
Proof.
  intros HQ. induction l as [| a l IH]; [done |].
  cbn [map]. rewrite !filter_cons. specialize (HQ a).
  destruct (decide (Q a)), (decide (P (f a))); cbn [map]; rewrite ?IH;
    tauto.
Qed.

Lemma map_row_rows_of (filtered_df : list merged_row) (ids : list Z) :
  map row (rows_of filtered_df ids)
  = filter (fun r => user_id r ∈ ids) (map row filtered_df).
Proof. unfold rows_of. by apply map_filter_swap. Qed.

(** The rows of user [u] among the rows selected for [ids]. *)
Lemma rows_of_user (df : list interaction) (thresholds : Z * Z * Z)
    (ids : list Z) (u : Z) :
  filter (fun r => user_id r = u)
         (map row (rows_of (candidates df thresholds) ids))
  = if decide (u ∈ ids /\ 1 <= books_read df u <= Utils.high_of thresholds)
    then filter (fun r => user_id r = u) df
    else [].
Proof.
  rewrite map_row_rows_of, map_row_candidates, !list_filter_filter.
  case_decide as Hu.
  - apply filter_ext_in. intros r _. split; [tauto |].
    intros <-. tauto.
  - apply length_zero_iff_nil, length_filter_none.
    intros r _ [[<- Hin] Hel]. tauto.
Qed.

Lemma naiveness_map_keys (choice : Z -> nat -> nat -> list nat) (seed : Z)
    (p : float) (sub_df : list merged_row) (m : gmap Z bool) :
  valid_choice choice ->
  naiveness_map choice seed p sub_df = Py.Ok m ->
  forall u, is_Some (m !! u) <-> u ∈ map row_user sub_df.
Proof.
  intros Hvalid Hrun u.
  destruct (naiveness_map_cases choice seed p sub_df Hvalid)
    as (shuffled & Hperm & Heq).
  rewrite Heq in Hrun. clear Heq.
  destruct (Py.round_to_int _) as [h |]; cbn [Py.bind] in Hrun; [| done].
  injection Hrun as <-.
  assert (Hnd : NoDup shuffled)
    by (rewrite Hperm; apply NoDup_drop_duplicates).
  rewrite (flags_of_shuffle shuffled h u Hnd).
  rewrite <- (elem_of_drop_duplicates (map row_user sub_df)), <- Hperm.
  rewrite <- (slice_to_from h shuffled) at 3. rewrite elem_of_app.
  repeat case_decide; split; eauto; try tauto; by intros [? ?].
Qed.

Lemma is_nan_spec (a : float) : is_nan a = true <-> Prim2SF a = S754_nan.
Proof.
  unfold is_nan. rewrite FloatAxioms.eqb_spec.
  destruct (Prim2SF a) as [[] | [] | | [] m e]; cbn; try done;
    change PosDef.Pos.compare_cont with Pos.compare_cont;
    rewrite ?Z.compare_refl, ?Pos.compare_cont_refl; done.
Qed.

Lemma round_times_nan (x p : float) :
  is_nan p = true -> Py.round_to_int (x * p)%float = Py.Raise Py.ValueError.
Proof.
  intros Hp%is_nan_spec. unfold Py.round_to_int.
  rewrite FloatAxioms.mul_spec, Hp. by destruct (Prim2SF x).
Qed.

Lemma truthy_nan (p : float) :
  is_nan p = true -> Py.truthy (Py.Float p) = true.
Proof.
  intros Hp%is_nan_spec. cbn [Py.truthy].
  by rewrite FloatAxioms.eqb_spec, Hp.
Qed.

Lemma add_ignorance_nan (choice : Z -> nat -> nat -> list nat) (seed : Z)
    (p : float) (sub_df : list merged_row) :
  valid_choice choice -> is_nan p = true ->
  add_ignorance choice seed p sub_df = Py.Raise Py.ValueError.
Proof.
  intros Hvalid Hp. unfold add_ignorance. rewrite truthy_nan by done.
  destruct (naiveness_map_cases choice seed p sub_df Hvalid)
    as (shuffled & _ & ->).
  by rewrite round_times_nan.
Qed.

(** The three parts of the result. *)
Lemma process_df_users_raw_parts (choice : Z -> nat -> nat -> list nat)
    (df : list interaction) (n_users seed : Z) (thresholds : Z * Z * Z)
    (p : float) (rows : list sampled_row) :
  process_df_users_raw choice df n_users seed thresholds p = Py.Ok rows ->
  exists s low mid high,
    sample_tiers choice df n_users seed thresholds = Py.Ok s
    /\ add_ignorance choice seed p
         (rows_of (candidates df thresholds) (low_user_ids s)) = Py.Ok low
    /\ add_ignorance choice seed p
         (rows_of (candidates df thresholds) (mid_user_ids s)) = Py.Ok mid
    /\ add_ignorance choice seed p
         (rows_of (candidates df thresholds) (high_user_ids s)) = Py.Ok high
    /\ rows = low ++ mid ++ high.
Proof.
  unfold process_df_users_raw.
  destruct (sample_tiers choice df n_users seed thresholds) as [s | e];
    cbn [Py.bind]; [| done].
  destruct (add_ignorance choice seed p
              (rows_of (candidates df thresholds) (low_user_ids s)))
    as [low |] eqn:Hlow; cbn [Py.bind]; [| done].
  destruct (add_ignorance choice seed p
              (rows_of (candidates df thresholds) (mid_user_ids s)))
    as [mid |] eqn:Hmid; cbn [Py.bind]; [| done].
  destruct (add_ignorance choice seed p
              (rows_of (candidates df thresholds) (high_user_ids s)))
    as [high |] eqn:Hhigh; cbn [Py.bind]; [| done].
  intros [= <-]. by exists s, low, mid, high.
Qed.

(** The flags that one group receives: a flag on every row, the same on the
    rows of one user, [False] everywhere for a proportion that tests
    false. *)
Lemma add_ignorance_flags (choice : Z -> nat -> nat -> list nat) (seed : Z)
    (p : float) (sub_df : list merged_row) (out : list sampled_row) :
  valid_choice choice ->
  add_ignorance choice seed p sub_df = Py.Ok out ->
  exists f : Z -> bool,
    forall r, r ∈ out ->
      merged r ∈ sub_df
      /\ ignorant r = Some (f (row_user (merged r)))
      /\ (Py.truthy (Py.Float p) = false -> ignorant r = Some false).
Proof.
  intros Hvalid. unfold add_ignorance.
  destruct (Py.truthy (Py.Float p)).
  - destruct (naiveness_map choice seed p sub_df) as [m |] eqn:Hm;
      cbn [Py.bind]; [| done].
    intros [= <-]. exists (fun u => default false (m !! u)).
    intros r (x & -> & Hx)%elem_of_map. cbn [merged ignorant].
    split; [done |]. split; [| done].
    assert (Hsome : is_Some (m !! row_user x)).
    { apply (naiveness_map_keys choice seed p sub_df m Hvalid Hm).
      apply elem_of_map. by exists x. }
    by destruct Hsome as [b ->].
  - intros [= <-]. exists (fun _ => false).
    by intros r (x & -> & Hx)%elem_of_map.
Qed.

Lemma elem_of_rows_of (filtered_df : list merged_row) (ids : list Z)
    (r : merged_row) :
  r ∈ rows_of filtered_df ids <-> row_user r ∈ ids /\ r ∈ filtered_df.
Proof.
  unfold rows_of.
  apply (list_elem_of_filter (fun r => row_user r ∈ ids)).
Qed.

End SamplerMore.

(** X6: a negative sample size makes [process_df_users_raw] raise a
    [ValueError], whatever the table. *)
Theorem process_df_users_raw_negative
    (choice : Z -> nat -> nat -> list nat) (df : list Tables.interaction)
    (n_users seed : Z) (thresholds : Z * Z * Z) (p : float) :
  Sampler.valid_choice choice ->
  n_users < 0 ->
  Sampler.process_df_users_raw choice df n_users seed thresholds p
  = Py.Raise Py.ValueError.
Proof.
  intros Hvalid Hn. unfold Sampler.process_df_users_raw, Sampler.sample_tiers.
  set (filtered_df := Sampler.candidates df thresholds).
  pose proof (high_share_negative n_users Hn) as Hhigh.
  set (d := Utils.divide_into_three n_users) in *.
  pose proof (sample_cases choice (Sampler.low_pool filtered_df thresholds)
                (Utils.low_of d) seed Hvalid (NoDup_pool _)) as Hs1.
  pose proof (sample_cases choice (Sampler.mid_pool filtered_df thresholds)
                (Utils.mid_of d) seed Hvalid (NoDup_pool _)) as Hs2.
  pose proof (sample_cases choice (Sampler.high_pool filtered_df thresholds)
                (Utils.high_of d) seed Hvalid (NoDup_pool _)) as Hs3.
  destruct (Sampler.sample choice (Sampler.low_pool filtered_df thresholds)
              _ seed) as [low | e1]; cbn [Py.bind];
    [| by destruct Hs1 as [-> _]].
  destruct (Sampler.sample choice (Sampler.mid_pool filtered_df thresholds)
              _ seed) as [mid | e2]; cbn [Py.bind];
    [| by destruct Hs2 as [-> _]].
  destruct (Sampler.sample choice (Sampler.high_pool filtered_df thresholds)
              _ seed) as [high | e3]; cbn [Py.bind];
    [| by destruct Hs3 as [-> _]].
  destruct Hs3 as [Hfit _]. lia.
Qed.

Lemma process_df_users_raw_negative_witness :
  Sampler.process_df_users_raw Sampler.rotate_choice Sampler.one_per_tier
    (-2) 0 (5, 20, 50) 0.5%float
  = Py.Raise Py.ValueError.
Proof.
  apply process_df_users_raw_negative; [apply rotate_choice_valid | lia].
Defined.



(** X8: in each group the users flagged ignorant are the first
    [round(size * proportion)] of the shuffled users: every user of the
    group gets a flag, and when that number lies between 0 and the size of
    the group, exactly that many users are flagged [True]. *)
Theorem naiveness_map_count (choice : Z -> nat -> nat -> list nat)
    (seed : Z) (p : float) (sub_df : list Sampler.merged_row)
    (m : gmap Z bool) :
  Sampler.valid_choice choice ->
  Sampler.naiveness_map choice seed p sub_df = Py.Ok m ->
  let unique_users :=
    Tables.drop_duplicates (map Sampler.row_user sub_df) in
  (forall u, is_Some (m !! u) <-> u ∈ map Sampler.row_user sub_df)
  /\ exists h,
       Py.round_to_int
         (Py.float_of_int (Z.of_nat (length unique_users)) * p)%float
       = Py.Ok h
       /\ (0 <= h <= Z.of_nat (length unique_users) ->
           length (filter (fun u => m !! u = Some true) unique_users)
           = Z.to_nat h).
Proof.
  intros Hvalid Hrun unique_users.
  split; [by apply (naiveness_map_keys choice seed p) |].
  destruct (naiveness_map_cases choice seed p sub_df Hvalid)
    as (shuffled & Hperm & Heq).
  fold unique_users in Hperm, Heq. rewrite Heq in Hrun. clear Heq.
  destruct (Py.round_to_int _) as [h |]; cbn [Py.bind] in Hrun; [| done].
  injection Hrun as <-.
  assert (Hnd : NoDup shuffled)
    by (rewrite Hperm; apply NoDup_drop_duplicates).
  assert (Hlook := fun u => flags_of_shuffle shuffled h u Hnd).
  exists h. split; [done |]. intros Hh.
  rewrite <- (Permutation_length (filter_Permutation _ _ _ Hperm)).
  rewrite <- (slice_to_from h shuffled) at 1.
  rewrite filter_app, length_app.
  rewrite length_filter_all, length_filter_none.
  - rewrite length_slice_to; [lia |].
    by rewrite (Permutation_length Hperm).
  - intros u Hu. rewrite Hlook.
    rewrite <- (slice_to_from h shuffled) in Hnd.
    apply NoDup_app in Hnd as (_ & Hdisj & _).
    rewrite decide_False by (intros Hu'; by apply (Hdisj u Hu')).
    by rewrite decide_True.
  - intros u Hu. rewrite Hlook. by rewrite decide_True.
Qed.

Lemma naiveness_map_count_witness :
  exists m,
    Sampler.naiveness_map Sampler.rotate_choice 0 0.5%float
      (Sampler.candidates Sampler.rows_ab (5, 20, 50)) = Py.Ok m
    /\ (forall u, is_Some (m !! u)
                  <-> u ∈ map Sampler.row_user
                            (Sampler.candidates Sampler.rows_ab (5, 20, 50)))
    /\ length (filter (fun u => m !! u = Some true)
                 (Tables.drop_duplicates
                    (map Sampler.row_user
                       (Sampler.candidates Sampler.rows_ab (5, 20, 50)))))
       = 1%nat.
Proof.
  eexists. split; [vm_compute; reflexivity |].
  pose proof (naiveness_map_count Sampler.rotate_choice 0 0.5%float
                (Sampler.candidates Sampler.rows_ab (5, 20, 50)) _
                rotate_choice_valid ltac:(vm_compute; reflexivity)) as H.
  cbn zeta in H. destruct H as [Hkeys (h & Hround & Hcount)].
  split; [exact Hkeys |].
  assert (Hh : h = 1) by (vm_compute in Hround; congruence).
  subst h. apply Hcount. vm_compute. split; discriminate.
Defined.

(** X9: the rows returned for a user. When the thresholds ascend, a sampled
    user comes with every row the input holds for that user (read or not),
    in the order of the input and once each; a user outside the samples
    has no row in the result; every row carries its user's number of read
    books. *)
Theorem process_df_users_raw_user_rows
    (choice : Z -> nat -> nat -> list nat) (df : list Tables.interaction)
    (n_users seed : Z) (thresholds : Z * Z * Z) (p : float)
    (rows : list Sampler.sampled_row) :
  Sampler.valid_choice choice ->
  Utils.low_of thresholds <= Utils.mid_of thresholds ->
  Utils.mid_of thresholds <= Utils.high_of thresholds ->
  Sampler.process_df_users_raw choice df n_users seed thresholds p
  = Py.Ok rows ->
  exists s,
    Sampler.sample_tiers choice df n_users seed thresholds = Py.Ok s
    /\ (forall u,
          filter (fun r => Tables.user_id r = u)
                 (map (fun r => Sampler.row (Sampler.merged r)) rows)
          = if decide (u ∈ Sampler.low_user_ids s ++ Sampler.mid_user_ids s
                            ++ Sampler.high_user_ids s)
            then filter (fun r => Tables.user_id r = u) df
            else [])
    /\ (forall r, r ∈ rows ->
          Sampler.book_count (Sampler.merged r)
          = Some (Specification.books_read df
                    (Sampler.row_user (Sampler.merged r)))).
Proof.
  intros Hvalid H01 H12 Hrun.
  destruct (process_df_users_raw_rows _ _ _ _ _ _ _ Hrun) as (s & Hs & Hrows).
  exists s. split; [done |].
  destruct (sample_tiers_members _ _ _ _ _ _ Hvalid H01 H12 Hs)
    as (Hlow & Hmid & Hhigh).
  split.
  - intros u. rewrite <- (map_map Sampler.merged Sampler.row), Hrows.
    rewrite !map_app, !filter_app, !rows_of_user.
    destruct (tiers_disjoint df thresholds u H01) as (Hlm & Hlh & Hmh).
    specialize (Hlow u). specialize (Hmid u). specialize (Hhigh u).
    unfold Specification.low_tier, Specification.mid_tier,
      Specification.high_tier in *.
    repeat case_decide;
      repeat match goal with
             | H : context [_ ∈ _ ++ _] |- _ => rewrite elem_of_app in H
             end;
      rewrite ?app_nil_r, ?app_nil_l; try done; exfalso; intuition lia.
  - intros r Hr. apply (candidates_book_count df thresholds).
    assert (Hin : Sampler.merged r ∈ map Sampler.merged rows)
      by (apply elem_of_map; by exists r).
    rewrite Hrows, !elem_of_app, !elem_of_rows_of in Hin. tauto.
Qed.

Lemma process_df_users_raw_user_rows_witness :
  exists s,
    Sampler.sample_tiers Sampler.rotate_choice Sampler.rows_ab 1 0
      (5, 20, 50) = Py.Ok s
    /\ Sampler.low_user_ids s = [1].
Proof.
  destruct (process_df_users_raw_user_rows Sampler.rotate_choice
              Sampler.rows_ab 1 0 (5, 20, 50) 0.5%float _
              rotate_choice_valid
              ltac:(vm_compute; discriminate)
              ltac:(vm_compute; discriminate)
              ltac:(vm_compute; reflexivity)) as (s & Hs & _).
  exists s. split; [exact Hs |].
  vm_compute in Hs. by injection Hs as <-.
Defined.

(** X10: the [ignorant] column. Every row returned carries a flag, never a
    missing value; with ascending thresholds the rows of one user carry the
    same flag; a proportion that tests false (0.0) flags every row
    [False]. *)
Theorem process_df_users_raw_flags
    (choice : Z -> nat -> nat -> list nat) (df : list Tables.interaction)
    (n_users seed : Z) (thresholds : Z * Z * Z) (p : float)
    (rows : list Sampler.sampled_row) :
  Sampler.valid_choice choice ->
  Utils.low_of thresholds <= Utils.mid_of thresholds ->
  Utils.mid_of thresholds <= Utils.high_of thresholds ->
  Sampler.process_df_users_raw choice df n_users seed thresholds p
  = Py.Ok rows ->
  (forall r, r ∈ rows -> is_Some (Sampler.ignorant r))
  /\ (forall r1 r2, r1 ∈ rows -> r2 ∈ rows ->
        Sampler.row_user (Sampler.merged r1)
        = Sampler.row_user (Sampler.merged r2) ->
        Sampler.ignorant r1 = Sampler.ignorant r2)
  /\ (Py.truthy (Py.Float p) = false ->
      forall r, r ∈ rows -> Sampler.ignorant r = Some false).
Proof.
  intros Hvalid H01 H12 Hrun.
  destruct (process_df_users_raw_parts _ _ _ _ _ _ _ Hrun)
    as (s & low & mid & high & Hs & Hl & Hm & Hh & ->).
  destruct (sample_tiers_members _ _ _ _ _ _ Hvalid H01 H12 Hs)
    as (Hlow & Hmid & Hhigh).
  destruct (add_ignorance_flags _ _ _ _ _ Hvalid Hl) as [fl Hfl].
  destruct (add_ignorance_flags _ _ _ _ _ Hvalid Hm) as [fm Hfm].
  destruct (add_ignorance_flags _ _ _ _ _ Hvalid Hh) as [fh Hfh].
  assert (Hcase : forall r, r ∈ low ++ mid ++ high ->
            (Specification.low_tier df thresholds
               (Sampler.row_user (Sampler.merged r))
             /\ Sampler.ignorant r
                = Some (fl (Sampler.row_user (Sampler.merged r))))
            \/ (Specification.mid_tier df thresholds
                  (Sampler.row_user (Sampler.merged r))
                /\ Sampler.ignorant r
                   = Some (fm (Sampler.row_user (Sampler.merged r))))
            \/ (Specification.high_tier df thresholds
                  (Sampler.row_user (Sampler.merged r))
                /\ Sampler.ignorant r
                   = Some (fh (Sampler.row_user (Sampler.merged r))))).
  { intros r. rewrite !elem_of_app. intros [Hr | [Hr | Hr]].
    - destruct (Hfl r Hr) as ([Hu _]%elem_of_rows_of & Hf & _).
      left. split; [by apply Hlow | done].
    - destruct (Hfm r Hr) as ([Hu _]%elem_of_rows_of & Hf & _).
      right. left. split; [by apply Hmid | done].
    - destruct (Hfh r Hr) as ([Hu _]%elem_of_rows_of & Hf & _).
      right. right. split; [by apply Hhigh | done]. }
  split; [| split].
  - intros r Hr.
    destruct (Hcase r Hr) as [[_ ->] | [[_ ->] | [_ ->]]]; eauto.
  - intros r1 r2 Hr1 Hr2 Hu.
    destruct (tiers_disjoint df thresholds
                (Sampler.row_user (Sampler.merged r2)) H01)
      as (Hlm & Hlh & Hmh).
    destruct (Hcase r1 Hr1) as [[Ht1 ->] | [[Ht1 ->] | [Ht1 ->]]];
      destruct (Hcase r2 Hr2) as [[Ht2 ->] | [[Ht2 ->] | [Ht2 ->]]];
      rewrite Hu in *; try done; exfalso; tauto.
  - intros Hp r. rewrite !elem_of_app. intros [Hr | [Hr | Hr]].
    + by apply (Hfl r Hr).
    + by apply (Hfm r Hr).
    + by apply (Hfh r Hr).
Qed.

Lemma process_df_users_raw_flags_witness :
  exists rows,
    Sampler.process_df_users_raw Sampler.rotate_choice Sampler.rows_ab 1 0
      (5, 20, 50) 0%float = Py.Ok rows
    /\ forall r, r ∈ rows -> Sampler.ignorant r = Some false.
Proof.
  eexists. split; [vm_compute; reflexivity |].
  refine (proj2 (proj2 (process_df_users_raw_flags Sampler.rotate_choice
                          Sampler.rows_ab 1 0 (5, 20, 50) 0%float _
                          rotate_choice_valid _ _ _)) _);
    try (vm_compute; discriminate); vm_compute; reflexivity.
Defined.

(** X11: a NaN proportion is not accepted silently: it tests true, and
    [round] of the cut raises a [ValueError] on the first group, whenever
    the three samples could be drawn. *)
Theorem process_df_users_raw_nan
    (choice : Z -> nat -> nat -> list nat) (df : list Tables.interaction)
    (n_users seed : Z) (thresholds : Z * Z * Z) (p : float)
    (s : Sampler.samples) :
  Sampler.valid_choice choice ->
  is_nan p = true ->
  Sampler.sample_tiers choice df n_users seed thresholds = Py.Ok s ->
  Sampler.process_df_users_raw choice df n_users seed thresholds p
  = Py.Raise Py.ValueError.
Proof.
  intros Hvalid Hp Hs. unfold Sampler.process_df_users_raw.
  rewrite Hs. cbn [Py.bind]. by rewrite add_ignorance_nan.
Qed.

Lemma process_df_users_raw_nan_witness :
  Sampler.process_df_users_raw Sampler.rotate_choice Sampler.rows_ab 1 0
    (5, 20, 50) nan
  = Py.Raise Py.ValueError.
Proof.
  apply (process_df_users_raw_nan Sampler.rotate_choice Sampler.rows_ab 1 0
           (5, 20, 50) nan
           {| Sampler.low_user_ids := [1]; Sampler.mid_user_ids := [];
              Sampler.high_user_ids := [] |});
    [apply rotate_choice_valid | vm_compute; reflexivity
    | vm_compute; reflexivity].
Defined.

(** ** Order and special values of the floats, further *)

Section FloatOrderMore.
Local Open Scope float_scope.

Ltac float_order :=
  intros;
  rewrite ?FloatAxioms.leb_spec, ?FloatAxioms.eqb_spec,
    ?FloatAxioms.ltb_spec in *;
  unfold SFleb, SFeqb, SFltb, SFcompare in *;
  repeat match goal with
         | |- context [Prim2SF ?x] =>
             let s := fresh "s" in
             destruct (Prim2SF x) as [s | s | | s ? ?]; try destruct s
         | H : context [Prim2SF ?x] |- _ =>
             let s := fresh "s" in
             destruct (Prim2SF x) as [s | s | | s ? ?]; try destruct s
         end;
  try done;
  change PosDef.Pos.compare_cont with Pos.compare_cont in *;
  fold Pos.compare in *;
  repeat match goal with
         | |- context [(?a ?= ?b)%Z] => destruct (Z.compare_spec a b)
         | H : context [(?a ?= ?b)%Z] |- _ => destruct (Z.compare_spec a b)
         | |- context [(?a ?= ?b)%positive] => destruct (Pos.compare_spec a b)
         | H : context [(?a ?= ?b)%positive] |- _ =>
             destruct (Pos.compare_spec a b)
         end;
  simpl in *; try done; try lia.

Lemma float_ltb_leb_trans (a b c : float) :
  (a <? b) = true -> (b <=? c) = true -> (a <? c) = true.
Proof. float_order. Qed.

Lemma float_ltb_leb_false (a b c : float) :
  (a <? b) = true -> (b <=? c) = true -> (c <? a) = false.
Proof. float_order. Qed.

Lemma float_leb_ne_zero (p : float) : (1 <=? p) = true -> (p =? 0) = false.
Proof.
  intros Hp. destruct (p =? 0) eqn:E; [| done].
  apply float_eqb_leb in E as [E _].
  pose proof (float_leb_trans _ _ _ Hp E) as H. vm_compute in H. done.
Qed.

Lemma float_ltb_not_eqb (a b : float) : (a <? b) = true -> (a =? b) = false.
Proof. float_order. Qed.

Lemma float_ltb_ne_zero (p : float) : (p <? 0) = true -> (p =? 0) = false.
Proof. apply float_ltb_not_eqb. Qed.

Lemma float_eqb_nan_r (y m : float) : is_nan m = true -> (y =? m) = false.
Proof.
  intros Hm. destruct (y =? m) eqn:E; [| done].
  apply float_eqb_leb in E as [E _].
  apply float_leb_not_nan in E as [_ E]. congruence.
Qed.

Lemma float_ltb_leb (a b : float) : (a <? b) = true -> (a <=? b) = true.
Proof. float_order. Qed.

Lemma float_not_ltb (a b : float) :
  is_nan a = false -> is_nan b = false ->
  (a <? b) = false -> (b <=? a) = true.
Proof. unfold is_nan. float_order. Qed.

Lemma eqb_zero_spec (a : float) :
  (a =? 0) = true -> exists s, Prim2SF a = S754_zero s.
Proof.
  rewrite FloatAxioms.eqb_spec. change (Prim2SF 0) with (S754_zero false).
  destruct (Prim2SF a) as [s | s | | s m e]; cbn; try done; eauto;
    by destruct s.
Qed.

Lemma mul_nan_l (x y : float) : is_nan x = true -> is_nan (x * y) = true.
Proof.
  rewrite !is_nan_spec, FloatAxioms.mul_spec. by intros ->.
Qed.

Lemma add_nan_r (x y : float) : is_nan y = true -> is_nan (x + y) = true.
Proof.
  rewrite !is_nan_spec, FloatAxioms.add_spec. intros ->.
  by destruct (Prim2SF x).
Qed.

Lemma add_nan_l (x y : float) : is_nan x = true -> is_nan (x + y) = true.
Proof.
  rewrite !is_nan_spec, FloatAxioms.add_spec. by intros ->.
Qed.

End FloatOrderMore.

(** ** Item priority, further *)

Section PriorityMore.
Import ItemAggregator.
Local Open Scope float_scope.

Lemma max_nan (vector : list float) (y : float) :
  y ∈ vector -> is_nan y = true ->
  exists m, Np.max vector = Py.Ok m /\ is_nan m = true.
Proof.
  intros Hy Hnan. destruct vector as [| a l].
  { by apply not_elem_of_nil in Hy. }
  exists (foldl Np.maximum a l). split; [done |].
  pose proof (foldl_maximum_spec a l) as Hmax. cbn zeta in Hmax.
  destruct (forallb (fun y => negb (is_nan y)) (a :: l)) eqn:Hall; [| done].
  rewrite forallb_forall in Hall.
  apply list_elem_of_In, Hall in Hy. by rewrite Hnan in Hy.
Qed.

Lemma where_eq_nan (vector : list float) (m : float) :
  is_nan m = true -> Np.where_eq vector m = [].
Proof.
  intros Hm. unfold Np.where_eq. generalize 0%nat.
  induction vector as [| y v IH]; intros j; cbn [Np.where_eq_from];
    [done |].
  by rewrite float_eqb_nan_r.
Qed.

End PriorityMore.

(** X12: the outcomes of [calculate_priority]. It returns nothing but
    [0], [0.0], [1.0] or [None]; it raises only for a category strategy on
    an empty vector, and then a [ValueError] from [np.max]. *)
Theorem calculate_priority_outcomes (cats : list string)
    (vector : list float) (priority : Py.value) (draw : float) :
  match ItemAggregator.calculate_priority cats vector priority draw with
  | Py.Ok v =>
      v = Py.Int 0 \/ v = Py.Float 0 \/ v = Py.Float 1 \/ v = Py.None_
  | Py.Raise e =>
      e = Py.ValueError /\ vector = []
      /\ exists name, priority = Py.Str name /\ name ∈ cats
  end.
Proof.
  unfold ItemAggregator.calculate_priority.
  destruct (Py.truthy priority); cbn [negb]; [| by left].
  destruct priority as [| b | z | p | name]; try (by repeat right).
  - destruct (draw <? p)%float; [right; right; by left | right; by left].
  - destruct (Py.index name cats) as [i |] eqn:Hi; [| by repeat right].
    destruct vector as [| a l]; cbn [Np.max Py.bind].
    + split; [done |]. split; [done |]. exists name. split; [done |].
      apply index_Some in Hi. by apply list_elem_of_lookup_2 in Hi.
    + destruct (_ && _); [right; right; by left | right; by left].
Qed.

(** X13: the random strategy, for a draw of [np.random.random()], which
    lies in [0, 1): a probability of 1 or more flags the item, a negative
    probability never does. *)
Theorem calculate_priority_probability_bounds (cats : list string)
    (vector : list float) (p draw : float) :
  (0 <=? draw)%float = true -> (draw <? 1)%float = true ->
  ((1 <=? p)%float = true ->
   ItemAggregator.calculate_priority cats vector (Py.Float p) draw
   = Py.Ok (Py.Float 1))
  /\ ((p <? 0)%float = true ->
      ItemAggregator.calculate_priority cats vector (Py.Float p) draw
      = Py.Ok (Py.Float 0)).
Proof.
  intros H0 H1. unfold ItemAggregator.calculate_priority. cbn [Py.truthy].
  split; intros Hp.
  - rewrite float_leb_ne_zero by done. cbn [negb].
    by rewrite (float_ltb_leb_trans draw 1 p).
  - rewrite float_ltb_ne_zero by done. cbn [negb].
    by rewrite (float_ltb_leb_false p 0 draw).
Qed.

Lemma calculate_priority_probability_bounds_witness :
  ItemAggregator.calculate_priority GenreVectorizer.goodreads_categories
    (5 :: repeat 0 15)%float (Py.Float 1.5) 0.75%float
  = Py.Ok (Py.Float 1)
  /\ ItemAggregator.calculate_priority GenreVectorizer.goodreads_categories
       (5 :: repeat 0 15)%float (Py.Float (-0.5)) 0.75%float
     = Py.Ok (Py.Float 0).
Proof.
  split.
  - refine (proj1 (calculate_priority_probability_bounds
                     GenreVectorizer.goodreads_categories
                     (5 :: repeat 0 15)%float 1.5%float 0.75%float _ _) _);
      vm_compute; reflexivity.
  - refine (proj2 (calculate_priority_probability_bounds
                     GenreVectorizer.goodreads_categories
                     (5 :: repeat 0 15)%float (-0.5)%float 0.75%float _ _) _);
      vm_compute; reflexivity.
Defined.

(** X14: a NaN among the entries of the vector gives the priority [0.0]
    for every category strategy: the maximum is NaN and no entry compares
    equal to it. *)
Theorem calculate_priority_nan_vector (cats : list string)
    (vector : list float) (name : string) (draw : float) (y : float) :
  name <> EmptyString -> name ∈ cats ->
  y ∈ vector -> is_nan y = true ->
  ItemAggregator.calculate_priority cats vector (Py.Str name) draw
  = Py.Ok (Py.Float 0).
Proof.
  intros Hname Hcat Hy Hnan. unfold ItemAggregator.calculate_priority.
  rewrite truthy_str by done. cbn [negb].
  destruct (index_elem_of name cats Hcat) as [i ->].
  destruct (max_nan vector y Hy Hnan) as (m & -> & Hm). cbn [Py.bind].
  rewrite where_eq_nan by done.
  by rewrite bool_decide_eq_false_2 by apply not_elem_of_nil.
Qed.

Lemma calculate_priority_nan_vector_witness :
  ItemAggregator.calculate_priority GenreVectorizer.goodreads_categories
    (5 :: nan :: repeat 0 14)%float (Py.Str "children") 0.5%float
  = Py.Ok (Py.Float 0).
Proof.
  apply (calculate_priority_nan_vector GenreVectorizer.goodreads_categories
           (5 :: nan :: repeat 0 14)%float "children" 0.5%float nan).
  - discriminate.
  - left.
  - right. left.
  - reflexivity.
Defined.

(** ** Book scores, further *)

Section BookScoreMore.
Import BookScorer Specification.

Variable cosine_similarity : list float -> list float -> Py.result float.
Variable user_vector : list float.
Variable df_items : list (Z * item_row).

Lemma for_each_app {A S : Type} (body : S -> A -> Py.result S) (s : S)
    (l1 l2 : list A) :
  Py.for_each body s (l1 ++ l2)
  = Py.bind (Py.for_each body s l1) (fun s' => Py.for_each body s' l2).
Proof.
  revert s. induction l1 as [| a l1 IH]; intros s; cbn [app Py.for_each].
  - done.
  - destruct (body s a); cbn [Py.bind]; [apply IH | done].
Qed.

(** What a completed loop tells about its input and its result. *)
Lemma for_each_score_book_inv (book_ids : list Z)
    (books books' : gmap Z Py.value) :
  Py.for_each (score_book cosine_similarity user_vector df_items)
              books book_ids = Py.Ok books' ->
  (forall b, b ∉ book_ids -> books' !! b = books !! b)
  /\ (forall b, b ∈ book_ids ->
        exists it s,
          select df_items b = [it]
          /\ expected_score cosine_similarity user_vector it = Py.Ok s
          /\ books' !! b = Some s).
Proof.
  revert books. induction book_ids as [| b0 l IH]; intros books;
    cbn [Py.for_each].
  - intros [= <-]. split; [done |].
    intros b Hb. by apply not_elem_of_nil in Hb.
  - rewrite score_book_expected.
    destruct (select df_items b0) as [| it0 [| it1 rest]] eqn:Hsel;
      cbn [item Py.bind]; try done.
    destruct (expected_score cosine_similarity user_vector it0)
      as [s0 |] eqn:Hs0; cbn [Py.bind]; [| done].
    intros Hrun. destruct (IH _ Hrun) as [Hout Hin]. split.
    + intros b [Hne Hb]%not_elem_of_cons.
      rewrite Hout by done. by apply lookup_insert_ne.
    + intros b Hb. destruct (decide (b ∈ l)) as [Hl | Hl].
      * by apply Hin.
      * apply elem_of_cons in Hb as [-> | Hb]; [| done].
        exists it0, s0. split; [done |]. split; [done |].
        rewrite Hout by done. apply lookup_insert_eq.
Qed.

(** The loop stops at the first book that cannot be scored. *)
Lemma for_each_score_book_failure (pre post : list Z) (b : Z)
    (books : gmap Z Py.value) (e : Py.exn) :
  (forall b', b' ∈ pre ->
     exists it s, select df_items b' = [it]
                  /\ expected_score cosine_similarity user_vector it
                     = Py.Ok s) ->
  Py.bind (item (select df_items b))
          (expected_score cosine_similarity user_vector) = Py.Raise e ->
  Py.for_each (score_book cosine_similarity user_vector df_items)
              books (pre ++ b :: post) = Py.Raise e.
Proof.
  intros Hpre Hb. rewrite for_each_app.
  destruct (for_each_score_book cosine_similarity user_vector df_items
              pre books Hpre) as (books' & -> & _).
  cbn [Py.bind Py.for_each]. rewrite score_book_expected, Hb. done.
Qed.

End BookScoreMore.

(** X15: a call of [calculate_book_score] that returns has scored exactly
    the books of the user's list: the keys of the mapping are these books,
    each of them has exactly one row in the items table, and its entry is
    the score of that row. *)
Theorem calculate_book_score_returns
    (cosine_similarity : list float -> list float -> Py.result float)
    (user_vector : list float) (book_ids : list Z)
    (df_items : list (Z * BookScorer.item_row)) (books : gmap Z Py.value) :
  BookScorer.calculate_book_score cosine_similarity user_vector book_ids
    df_items = Py.Ok books ->
  (forall b, is_Some (books !! b) <-> b ∈ book_ids)
  /\ (forall b, b ∈ book_ids ->
        exists it s,
          BookScorer.select df_items b = [it]
          /\ Specification.expected_score cosine_similarity user_vector it
             = Py.Ok s
          /\ books !! b = Some s).
Proof.
  unfold BookScorer.calculate_book_score. intros Hrun.
  destruct (for_each_score_book_inv _ _ _ _ _ _ Hrun) as [Hout Hin].
  split; [| done]. intros b. split.
  - intros Hsome. destruct (decide (b ∈ book_ids)) as [Hb | Hb]; [done |].
    rewrite Hout, lookup_empty in Hsome by done. by destruct Hsome.
  - intros Hb. destruct (Hin b Hb) as (it & s & _ & _ & ->). eauto.
Qed.

Lemma calculate_book_score_returns_witness :
  exists books,
    BookScorer.calculate_book_score BookScorer.sklearn_cosine_similarity
      (1 :: repeat 0 15)%float [10]
      [(10, {| BookScorer.vector := (0 :: 1 :: repeat 0 14)%float;
               BookScorer.priority := Py.Float 1 |})] = Py.Ok books
    /\ (forall b, is_Some (books !! b) <-> b ∈ [10]).
Proof.
  eexists. split; [vm_compute; reflexivity |].
  refine (proj1 (calculate_book_score_returns
                   BookScorer.sklearn_cosine_similarity
                   (1 :: repeat 0 15)%float [10]
                   [(10, {| BookScorer.vector := (0 :: 1 :: repeat 0 14)%float;
                            BookScorer.priority := Py.Float 1 |})] _ _)).
  vm_compute; reflexivity.
Defined.

(** X16: the first book of the list that cannot be scored ends the call.
    When the books before it are scored, a book with no row or with several
    rows in the items table raises a [ValueError] (from [.item()]), and a
    book whose priority is [None] or a string raises a [TypeError] (from
    [> 0]). *)
Theorem calculate_book_score_first_failure
    (cosine_similarity : list float -> list float -> Py.result float)
    (user_vector : list float) (pre post : list Z) (b : Z)
    (df_items : list (Z * BookScorer.item_row)) :
  (forall b', b' ∈ pre ->
     exists it s,
       BookScorer.select df_items b' = [it]
       /\ Specification.expected_score cosine_similarity user_vector it
          = Py.Ok s) ->
  ((forall it, BookScorer.select df_items b <> [it]) ->
   BookScorer.calculate_book_score cosine_similarity user_vector
     (pre ++ b :: post) df_items = Py.Raise Py.ValueError)
  /\ (forall it,
        BookScorer.select df_items b = [it] ->
        BookScorer.priority it = Py.None_
        \/ (exists name, BookScorer.priority it = Py.Str name) ->
        BookScorer.calculate_book_score cosine_similarity user_vector
          (pre ++ b :: post) df_items = Py.Raise Py.TypeError).
Proof.
  intros Hpre. unfold BookScorer.calculate_book_score. split.
  - intros Hsel. apply for_each_score_book_failure; [done |].
    destruct (BookScorer.select df_items b) as [| it [| it' rest]];
      try done.
    by destruct (Hsel it).
  - intros it Hsel Hprio. apply for_each_score_book_failure; [done |].
    rewrite Hsel. cbn [BookScorer.item Py.bind].
    unfold Specification.expected_score.
    by destruct Hprio as [-> | [name ->]].
Qed.

Lemma calculate_book_score_first_failure_witness :
  BookScorer.calculate_book_score BookScorer.sklearn_cosine_similarity
    (1 :: repeat 0 15)%float ([10] ++ 99 :: [11])
    [(10, {| BookScorer.vector := (0 :: 1 :: repeat 0 14)%float;
             BookScorer.priority := Py.Float 1 |});
     (11, {| BookScorer.vector := (0 :: 1 :: repeat 0 14)%float;
             BookScorer.priority := Py.None_ |})]
  = Py.Raise Py.ValueError
  /\ BookScorer.calculate_book_score BookScorer.sklearn_cosine_similarity
       (1 :: repeat 0 15)%float ([10] ++ 11 :: [99])
       [(10, {| BookScorer.vector := (0 :: 1 :: repeat 0 14)%float;
                BookScorer.priority := Py.Float 1 |});
        (11, {| BookScorer.vector := (0 :: 1 :: repeat 0 14)%float;
                BookScorer.priority := Py.None_ |})]
     = Py.Raise Py.TypeError.
Proof.
  pose (it10 := {| BookScorer.vector := (0 :: 1 :: repeat 0 14)%float;
                   BookScorer.priority := Py.Float 1 |}).
  pose (it11 := {| BookScorer.vector := (0 :: 1 :: repeat 0 14)%float;
                   BookScorer.priority := Py.None_ |}).
  assert (Hpre : forall b', b' ∈ [10] ->
            exists it s,
              BookScorer.select [(10, it10); (11, it11)] b' = [it]
              /\ Specification.expected_score
                   BookScorer.sklearn_cosine_similarity
                   (1 :: repeat 0 15)%float it = Py.Ok s).
  { intros b' ->%list_elem_of_singleton.
    exists it10, (Py.Float 1). split; vm_compute; reflexivity. }
  split.
  - refine (proj1 (calculate_book_score_first_failure
                     BookScorer.sklearn_cosine_similarity
                     (1 :: repeat 0 15)%float [10] [11] 99
                     [(10, it10); (11, it11)] Hpre) _).
    intros it. vm_compute. discriminate.
  - refine (proj2 (calculate_book_score_first_failure
                     BookScorer.sklearn_cosine_similarity
                     (1 :: repeat 0 15)%float [10] [99] 11
                     [(10, it10); (11, it11)] Hpre) it11 _ _).
    + vm_compute. reflexivity.
    + by left.
Defined.

(** ** The similarity matrix, further *)

Section SimilarityMore.
Import SimilarityEngine Expected.
Local Open Scope float_scope.

Lemma map_each_reshape16 (l : list (list float)) :
  Py.map_each Np.reshape16 l
  = if decide (Forall sixteen l) then Py.Ok l else Py.Raise Py.ValueError.
Proof.
  induction l as [| v l IH]; cbn [Py.map_each].
  - by rewrite decide_True by constructor.
  - unfold Np.reshape16 at 1.
    destruct (Nat.eqb_spec (length v) 16) as [Hv | Hv]; cbn [Py.bind].
    + rewrite IH. destruct (decide (Forall sixteen l)) as [Hl | Hl];
        cbn [Py.bind].
      * by rewrite decide_True by (by constructor).
      * rewrite decide_False; [done |]. by intros [_ ?]%Forall_cons.
    + rewrite decide_False; [done |]. by intros [? _]%Forall_cons.
Qed.

Lemma matrix_cosine_similarity_cases (df_reference : list (list float))
    (df_compare : list (Z * list float)) (n : Z) :
  matrix_cosine_similarity df_reference df_compare n
  = if decide (Forall sixteen df_reference
               /\ Forall sixteen (map snd df_compare)
               /\ df_reference <> [] /\ df_compare <> [])
    then Py.Ok (map (fun u => top_n (map fst df_compare)
                                (similarity_row df_compare u) n)
                    df_reference)
    else Py.Raise Py.ValueError.
Proof.
  unfold matrix_cosine_similarity. rewrite !map_each_reshape16.
  destruct (decide (Forall sixteen df_reference)) as [Hr | Hr];
    cbn [Py.bind]; [| rewrite decide_False; [done | tauto]].
  destruct (decide (Forall sixteen (map snd df_compare))) as [Hc | Hc];
    cbn [Py.bind]; [| rewrite decide_False; [done | tauto]].
  destruct df_reference as [| u refs]; cbn [Np.stack Py.bind];
    [rewrite decide_False; [done | tauto] |].
  destruct df_compare as [| c cmp]; cbn [Np.stack Py.bind map];
    [rewrite decide_False; [done | tauto] |].
  rewrite decide_True by done. f_equal. cbn [map].
  unfold similarity_row. cbn [map]. f_equal.
  - by rewrite !map_map.
  - rewrite !map_map. apply map_ext. intros u'. by rewrite !map_map.
Qed.

(** *** The dict of one row *)

Lemma dict_set_fresh (k : Z) (x : float) (d : list (Z * float)) :
  k ∉ map fst d -> dict_set k x d = d ++ [(k, x)].
Proof.
  induction d as [| [k' x'] d IH]; cbn [dict_set map fst app]; [done |].
  intros [Hne Hk]%not_elem_of_cons.
  rewrite decide_False by done. by rewrite IH.
Qed.

Lemma dict_set_keys (k : Z) (x : float) (d : list (Z * float)) :
  map fst (dict_set k x d)
  = if decide (k ∈ map fst d) then map fst d else map fst d ++ [k].
Proof.
  induction d as [| [k' x'] d IH]; cbn [dict_set map fst app].
  - by rewrite decide_False by apply not_elem_of_nil.
  - destruct (decide (k' = k)) as [-> | Hne]; cbn [map fst].
    + by rewrite decide_True by left.
    + rewrite IH. destruct (decide (k ∈ map fst d)) as [Hin | Hnin].
      * by rewrite decide_True by (by right).
      * rewrite decide_False; [done |].
        intros [-> | ?]%elem_of_cons; done.
Qed.

Lemma dict_set_values (k : Z) (x : float) (d : list (Z * float))
    (kv : Z * float) :
  kv ∈ dict_set k x d -> kv = (k, x) \/ kv ∈ d.
Proof.
  induction d as [| [k' x'] d IH]; cbn [dict_set].
  - intros ->%list_elem_of_singleton. by left.
  - destruct (decide (k' = k)) as [-> | Hne].
    + intros [-> | Hin]%elem_of_cons; [by left |]. right. by right.
    + intros [-> | Hin]%elem_of_cons; [right; left |].
      destruct (IH Hin) as [-> | Hd]; [by left |]. right. by right.
Qed.

Lemma foldl_dict_set_keys (kvs d : list (Z * float)) :
  NoDup (map fst d) ->
  let d' := foldl (fun d kv => dict_set kv.1 kv.2 d) d kvs in
  NoDup (map fst d')
  /\ (forall k, k ∈ map fst d' <-> k ∈ map fst d \/ k ∈ map fst kvs)
  /\ (forall kv, kv ∈ d' -> kv ∈ d \/ kv ∈ kvs).
Proof.
  revert d. induction kvs as [| [k x] kvs IH]; intros d Hnd;
    cbn [foldl map fst].
  - split; [done |]. split; [| by left].
    intros k. rewrite elem_of_nil. tauto.
  - cbn zeta. cbn [fst snd].
    assert (Hnd' : NoDup (map fst (dict_set k x d))).
    { rewrite dict_set_keys. case_decide as Hk; [done |].
      apply NoDup_app. split; [done |]. split; [| apply NoDup_singleton].
      intros k' Hk' ->%list_elem_of_singleton. done. }
    destruct (IH _ Hnd') as (Hnd'' & Hkeys & Hvals). cbn zeta in *.
    split; [done |]. split.
    + intros k'. rewrite Hkeys, dict_set_keys, elem_of_cons.
      case_decide as Hk; rewrite ?elem_of_app, ?list_elem_of_singleton.
      * split; [tauto |]. intros [? | [-> | ?]]; tauto.
      * tauto.
    + intros kv Hkv. destruct (Hvals kv Hkv) as [Hd | Hl].
      * destruct (dict_set_values _ _ _ _ Hd) as [-> | Hd'];
          [right; left | by left].
      * right. by right.
Qed.

Lemma foldl_dict_set_fresh (kvs d : list (Z * float)) :
  NoDup (map fst (d ++ kvs)) ->
  foldl (fun d kv => dict_set kv.1 kv.2 d) d kvs = d ++ kvs.
Proof.
  revert d. induction kvs as [| [k x] kvs IH]; intros d Hnd; cbn [foldl].
  - by rewrite app_nil_r.
  - cbn [fst snd]. rewrite dict_set_fresh.
    + rewrite IH; rewrite <- app_assoc; [done |]. exact Hnd.
    + rewrite map_app in Hnd. apply NoDup_app in Hnd as (_ & Hdisj & _).
      intros Hk. apply (Hdisj k Hk). left.
Qed.

Lemma dict_of_keys (kvs : list (Z * float)) :
  NoDup (map fst (dict_of kvs))
  /\ map fst (dict_of kvs) ≡ₚ Tables.drop_duplicates (map fst kvs)
  /\ (forall kv, kv ∈ dict_of kvs -> kv ∈ kvs).
Proof.
  destruct (foldl_dict_set_keys kvs [] (NoDup_nil_2 (A:=Z)))
    as (Hnd & Hkeys & Hvals). fold (dict_of kvs) in *.
  split; [done |]. split.
  - apply NoDup_Permutation; [done | apply NoDup_drop_duplicates |].
    intros k. rewrite Hkeys, elem_of_drop_duplicates. cbn [map].
    rewrite elem_of_nil. tauto.
  - intros kv Hkv. destruct (Hvals kv Hkv) as [Hd | Hl]; [| done].
    by apply not_elem_of_nil in Hd.
Qed.

Lemma dict_of_NoDup (kvs : list (Z * float)) :
  NoDup (map fst kvs) -> dict_of kvs = kvs.
Proof. intros Hnd. unfold dict_of. by rewrite foldl_dict_set_fresh. Qed.

(** *** The sort *)

Lemma insert_by_score_Permutation (it : Z * float) (l : list (Z * float)) :
  insert_by_score it l ≡ₚ it :: l.
Proof.
  induction l as [| it' l IH]; cbn [insert_by_score]; [done |].
  destruct (it.2 <? it'.2); [done |]. rewrite IH. apply Permutation_swap.
Qed.

Lemma foldl_insert_Permutation (l acc : list (Z * float)) :
  foldl (fun acc it => insert_by_score it acc) acc l ≡ₚ acc ++ l.
Proof.
  revert acc. induction l as [| it l IH]; intros acc; cbn [foldl].
  - by rewrite app_nil_r.
  - rewrite IH, insert_by_score_Permutation. cbn [app].
    apply Permutation_middle.
Qed.

Lemma sorted_reverse_Permutation (l : list (Z * float)) :
  sorted_reverse l ≡ₚ l.
Proof.
  unfold sorted_reverse, sort_by_score.
  rewrite reverse_Permutation, foldl_insert_Permutation.
  apply reverse_Permutation.
Qed.

(** *** Order of the sorted items *)

Lemma StronglySorted_reverse {A : Type} (R : relation A) (l : list A) :
  StronglySorted R l -> StronglySorted (flip R) (reverse l).
Proof.
  induction 1 as [| a l Hs IH Hall]; [constructor |].
  rewrite reverse_cons. apply StronglySorted_app_2; [| done |].
  - intros x1 x2 Hx1 ->%list_elem_of_singleton.
    rewrite Forall_forall in Hall. apply Hall.
    by rewrite reverse_Permutation in Hx1.
  - repeat constructor.
Qed.

Lemma insert_by_score_sorted (it : Z * float) (l : list (Z * float)) :
  is_nan it.2 = false ->
  Forall (fun a => is_nan a.2 = false) l ->
  StronglySorted (flip descending) l ->
  StronglySorted (flip descending) (insert_by_score it l).
Proof.
  intros Hit. induction l as [| it' l IH]; intros Hnn Hs;
    cbn [insert_by_score]; [repeat constructor |].
  apply Forall_cons in Hnn as [Hit' Hnn].
  apply StronglySorted_cons in Hs as [Hall Hs].
  destruct (it.2 <? it'.2) eqn:Hlt.
  - apply float_ltb_leb in Hlt.
    constructor; [by constructor |]. constructor; [done |].
    rewrite Forall_forall in Hall |- *. intros x Hx.
    unfold flip, descending in *.
    by apply float_leb_trans with it'.2; [| apply Hall].
  - constructor; [by apply IH |].
    rewrite Forall_forall in Hall |- *. intros x Hx.
    rewrite insert_by_score_Permutation in Hx.
    apply elem_of_cons in Hx as [-> | Hx]; [| by apply Hall].
    unfold flip, descending. by apply float_not_ltb.
Qed.

Lemma foldl_insert_sorted (l acc : list (Z * float)) :
  Forall (fun a => is_nan a.2 = false) l ->
  Forall (fun a => is_nan a.2 = false) acc ->
  StronglySorted (flip descending) acc ->
  StronglySorted (flip descending)
    (foldl (fun acc it => insert_by_score it acc) acc l).
Proof.
  revert acc. induction l as [| it l IH]; intros acc Hl Hacc Hs;
    cbn [foldl]; [done |].
  apply Forall_cons in Hl as [Hit Hl]. apply IH; [done | |].
  - rewrite insert_by_score_Permutation. by constructor.
  - by apply insert_by_score_sorted.
Qed.

Lemma sorted_reverse_sorted (l : list (Z * float)) :
  Forall (fun a => is_nan a.2 = false) l ->
  StronglySorted descending (sorted_reverse l).
Proof.
  intros Hl. unfold sorted_reverse, sort_by_score.
  apply (StronglySorted_reverse (flip descending)).
  apply foldl_insert_sorted; [| constructor | constructor].
  by rewrite reverse_Permutation.
Qed.

Lemma top_n_dict (index : list Z) (row : list float) (n : Z) :
  top_n index row n = Py.slice_to n (sorted_reverse (dict_of (zip index row))).
Proof. done. Qed.

Lemma elem_of_slice_to {A : Type} (h : Z) (l : list A) (x : A) :
  x ∈ Py.slice_to h l -> x ∈ l.
Proof.
  intros Hx. rewrite <- (slice_to_from h l). apply elem_of_app. by left.
Qed.

Lemma elem_of_top_n (index : list Z) (row : list float) (n : Z)
    (kv : Z * float) :
  kv ∈ top_n index row n -> kv ∈ zip index row.
Proof.
  rewrite top_n_dict. intros Hkv%elem_of_slice_to.
  rewrite sorted_reverse_Permutation in Hkv.
  by apply dict_of_keys in Hkv.
Qed.

Lemma length_slice_to_min {A : Type} (h : Z) (l : list A) :
  0 <= h -> length (Py.slice_to h l) = Nat.min (Z.to_nat h) (length l).
Proof.
  intros Hh. unfold Py.slice_to. destruct (Z.leb_spec 0 h); [| lia].
  apply length_take.
Qed.

(** *** Zero vectors *)

Lemma sum_squares_zero (l : list float) (acc : float) :
  Prim2SF acc = S754_zero false ->
  (forall x, x ∈ l -> (x =? 0) = true) ->
  Prim2SF (foldl (fun acc x => acc + x) acc (map (fun x => x * x) l))
  = S754_zero false.
Proof.
  revert acc. induction l as [| x l IH]; intros acc Hacc Hzero;
    cbn [map foldl]; [done |].
  apply IH; [| intros y Hy; apply Hzero; by right].
  destruct (eqb_zero_spec x (Hzero x (list_elem_of_here _ _))) as [sx Hx].
  rewrite FloatAxioms.add_spec, FloatAxioms.mul_spec, Hacc, Hx.
  by destruct sx.
Qed.

Lemma norm_zero (v : list float) :
  (forall x, x ∈ v -> (x =? 0) = true) ->
  Prim2SF (Np.norm v) = S754_zero false.
Proof.
  intros Hzero. unfold Np.norm, Np.sum.
  rewrite FloatAxioms.sqrt_spec, sum_squares_zero; done.
Qed.

Lemma scale_down_zero_nan (v : list float) (y : float) :
  (forall x, x ∈ v -> (x =? 0) = true) ->
  y ∈ Np.scale_down v (Np.norm v) -> is_nan y = true.
Proof.
  intros Hzero Hy. unfold Np.scale_down in Hy.
  apply elem_of_map in Hy as (x & -> & Hx).
  destruct (eqb_zero_spec x (Hzero x Hx)) as [sx Hsx].
  apply is_nan_spec.
  by rewrite FloatAxioms.div_spec, Hsx, norm_zero.
Qed.

Lemma foldl_add_nan (l : list float) (acc : float) :
  is_nan acc = true -> is_nan (foldl (fun acc x => acc + x) acc l) = true.
Proof.
  revert acc. induction l as [| x l IH]; intros acc Hacc; cbn [foldl];
    [done |].
  by apply IH, add_nan_l.
Qed.

Lemma dot_nan (u w : list float) :
  (forall y, y ∈ u -> is_nan y = true) -> u <> [] -> w <> [] ->
  is_nan (Np.dot u w) = true.
Proof.
  intros Hnan Hu Hw. destruct u as [| a u]; [done |].
  destruct w as [| b w]; [done |].
  unfold Np.dot, Np.sum. cbn [zip_with foldl].
  apply foldl_add_nan, add_nan_r, mul_nan_l, Hnan. left.
Qed.

Lemma sixteen_nonempty (v : list float) : sixteen v -> v <> [].
Proof. unfold sixteen. by destruct v. Qed.

End SimilarityMore.

(** X17: [matrix_cosine_similarity] returns exactly when both tables are
    not empty and every vector has sixteen entries, and then with one entry
    per row of the reference table; in every other case it raises a
    [ValueError] (from [reshape] or from [np.stack]). *)
Theorem matrix_cosine_similarity_shapes (df_reference : list (list float))
    (df_compare : list (Z * list float)) (n : Z) :
  if decide (Forall Expected.sixteen df_reference
             /\ Forall Expected.sixteen (map snd df_compare)
             /\ df_reference <> [] /\ df_compare <> [])
  then exists out,
         SimilarityEngine.matrix_cosine_similarity df_reference df_compare n
         = Py.Ok out
         /\ length out = length df_reference
  else SimilarityEngine.matrix_cosine_similarity df_reference df_compare n
       = Py.Raise Py.ValueError.
Proof.
  rewrite matrix_cosine_similarity_cases. case_decide; [| done].
  eexists. split; [done |]. by rewrite length_map.
Qed.

(** X18: every entry of the column [similarities] holds distinct keys, all
    of them index values of the comparison table, and, for [n >= 0], as
    many items as [n] allows: [n] of them, or one per distinct index value
    when these are fewer. *)
Theorem matrix_cosine_similarity_entries (df_reference : list (list float))
    (df_compare : list (Z * list float)) (n : Z)
    (out : list (list (Z * float))) (entry : list (Z * float)) :
  SimilarityEngine.matrix_cosine_similarity df_reference df_compare n
  = Py.Ok out ->
  entry ∈ out ->
  NoDup (map fst entry)
  /\ (forall kv, kv ∈ entry -> kv.1 ∈ map fst df_compare)
  /\ (0 <= n ->
      length entry
      = Nat.min (Z.to_nat n)
          (length (Tables.drop_duplicates (map fst df_compare)))).
Proof.
  rewrite matrix_cosine_similarity_cases. case_decide as Hshape; [| done].
  intros [= <-] (u & -> & Hu)%elem_of_map.
  set (row := Expected.similarity_row df_compare u).
  assert (Hlen : length row = length (map fst df_compare))
    by (unfold row, Expected.similarity_row; by rewrite !length_map).
  set (d := Expected.dict_of (zip (map fst df_compare) row)).
  assert (Hzip : map fst (zip (map fst df_compare) row)
                 = map fst df_compare) by (apply fst_zip; lia).
  destruct (dict_of_keys (zip (map fst df_compare) row))
    as (Hnd & Hperm & Hvals). fold d in Hnd, Hperm, Hvals.
  rewrite Hzip in Hperm.
  rewrite top_n_dict. fold d. split; [| split].
  - assert (Hall : NoDup (map fst (SimilarityEngine.sorted_reverse d)))
      by (by rewrite sorted_reverse_Permutation).
    rewrite <- (slice_to_from n (SimilarityEngine.sorted_reverse d)),
      map_app in Hall.
    by apply NoDup_app in Hall as [? _].
  - intros kv Hkv%elem_of_slice_to.
    rewrite sorted_reverse_Permutation in Hkv. apply Hvals in Hkv.
    rewrite <- Hzip. apply elem_of_map. by exists kv.
  - intros Hn. rewrite length_slice_to_min by done. f_equal.
    rewrite (Permutation_length (sorted_reverse_Permutation d)).
    rewrite <- (length_map fst d). by apply Permutation_length.
Qed.

Lemma matrix_cosine_similarity_entries_witness :
  exists out entry,
    SimilarityEngine.matrix_cosine_similarity
      [(1 :: repeat 0 15)%float]
      [(42, (1 :: repeat 0 15)%float); (43, (0 :: 1 :: repeat 0 14)%float)]
      1 = Py.Ok out
    /\ entry ∈ out
    /\ length entry = 1%nat.
Proof.
  eexists _, _. split; [vm_compute; reflexivity |].
  split; [left |].
  refine (proj2 (proj2 (matrix_cosine_similarity_entries
                          [(1 :: repeat 0 15)%float]
                          [(42, (1 :: repeat 0 15)%float);
                           (43, (0 :: 1 :: repeat 0 14)%float)]
                          1 _ _ _ _)) _);
    [vm_compute; reflexivity | left | lia].
Defined.

(** X19: one entry of the column [similarities], for a comparison table
    with distinct index values and a row of similarities without NaN, and
    [n >= 0]: the items are in descending order of score, they are [n] (or
    all, when there are fewer), each is a pair of the row, and no pair left
    out scores higher than a pair kept. *)
Theorem top_n_best (index : list Z) (row : list float) (n : Z) :
  NoDup index ->
  length row = length index ->
  (forall x, x ∈ row -> is_nan x = false) ->
  0 <= n ->
  let entry := SimilarityEngine.top_n index row n in
  StronglySorted Expected.descending entry
  /\ length entry = Nat.min (Z.to_nat n) (length index)
  /\ (forall kv, kv ∈ entry -> kv ∈ zip index row)
  /\ (forall a b, a ∈ entry -> b ∈ zip index row -> b ∉ entry ->
        Expected.descending a b).
Proof.
  intros Hnd Hlen Hnn Hn entry. unfold entry. clear entry.
  assert (Hzip : map fst (zip index row) = index) by (apply fst_zip; lia).
  assert (Hd : Expected.dict_of (zip index row) = zip index row)
    by (apply dict_of_NoDup; by rewrite Hzip).
  assert (Hall : Forall (fun a : Z * float => is_nan a.2 = false)
                        (zip index row)).
  { apply Forall_forall. intros [k x] Hkx. apply Hnn.
    by apply elem_of_zip_r in Hkx. }
  pose proof (sorted_reverse_sorted _ Hall) as Hs.
  pose proof (sorted_reverse_Permutation (zip index row)) as Hperm.
  rewrite top_n_dict, Hd.
  set (sorted := SimilarityEngine.sorted_reverse (zip index row)) in *.
  rewrite <- (slice_to_from n sorted) in Hs, Hperm.
  apply StronglySorted_app in Hs as (Hcross & Hs & _).
  split; [done |]. split; [| split].
  - rewrite length_slice_to_min by done. f_equal. unfold sorted.
    rewrite (Permutation_length
               (sorted_reverse_Permutation (zip index row))).
    rewrite length_zip. lia.
  - intros kv Hkv. rewrite <- Hperm. apply elem_of_app. by left.
  - intros a b Ha Hb Hnot. apply Hcross; [done |].
    rewrite <- Hperm in Hb. apply elem_of_app in Hb as [Hb | Hb]; done.
Qed.

Lemma top_n_best_witness :
  SimilarityEngine.top_n [42; 43; 44] [0.5; 1; 0.25]%float 2
  = [(43, 1%float); (42, 0.5%float)]
  /\ StronglySorted Expected.descending
       (SimilarityEngine.top_n [42; 43; 44] [0.5; 1; 0.25]%float 2).
Proof.
  split; [vm_compute; reflexivity |].
  refine (proj1 (top_n_best [42; 43; 44] [0.5; 1; 0.25]%float 2 _ _ _ _)).
  - repeat constructor; intros H;
      repeat (apply elem_of_cons in H as [H | H]; [discriminate H |]);
      by apply not_elem_of_nil in H.
  - reflexivity.
  - intros x Hx.
    repeat (apply elem_of_cons in Hx as [-> | Hx]; [reflexivity |]).
    by apply not_elem_of_nil in Hx.
  - lia.
Defined.

(** X20: a row of the reference table whose vector is all zero gets, in
    every call that returns, an entry whose scores are all NaN: its norm is
    0, the division gives NaN and every inner product with it is NaN. *)
Theorem matrix_cosine_similarity_zero_reference
    (df_reference : list (list float)) (df_compare : list (Z * list float))
    (n : Z) (out : list (list (Z * float))) (i : nat) (v : list float) :
  SimilarityEngine.matrix_cosine_similarity df_reference df_compare n
  = Py.Ok out ->
  df_reference !! i = Some v ->
  (forall x, x ∈ v -> (x =? 0)%float = true) ->
  exists entry,
    out !! i = Some entry
    /\ forall kv, kv ∈ entry -> is_nan kv.2 = true.
Proof.
  rewrite matrix_cosine_similarity_cases.
  case_decide as Hshape; [| done].
  destruct Hshape as (Hrefs & Hcmp & _ & _).
  intros [= <-] Hv Hzero. eexists. split.
  { rewrite list_lookup_fmap, Hv. done. }
  intros [k x] Hkx%elem_of_top_n%elem_of_zip_r. cbn [snd].
  unfold Expected.similarity_row in Hkx.
  apply elem_of_map in Hkx as (w & -> & Hw).
  rewrite Forall_forall in Hrefs, Hcmp.
  assert (Hv16 : Expected.sixteen v)
    by (by apply Hrefs, list_elem_of_lookup_2 with i).
  apply dot_nan.
  - intros y Hy. by apply (scale_down_zero_nan v).
  - unfold Np.scale_down. intros Hnil%(f_equal length).
    rewrite length_map, Hv16 in Hnil. done.
  - unfold Np.scale_down. intros Hnil%(f_equal length).
    rewrite length_map, (Hcmp w Hw) in Hnil. done.
Qed.

Lemma matrix_cosine_similarity_zero_reference_witness :
  exists out entry,
    SimilarityEngine.matrix_cosine_similarity
      [(1 :: repeat 0 15)%float; repeat 0%float 16]
      [(42, (1 :: repeat 0 15)%float)] 1 = Py.Ok out
    /\ out !! 1%nat = Some entry
    /\ forall kv, kv ∈ entry -> is_nan kv.2 = true.
Proof.
  eexists. 
  destruct (matrix_cosine_similarity_zero_reference
              [(1 :: repeat 0 15)%float; repeat 0%float 16]
              [(42, (1 :: repeat 0 15)%float)] 1 _ 1%nat
              (repeat 0%float 16) ltac:(vm_compute; reflexivity)
              ltac:(reflexivity)) as (entry & Hentry & Hnan).
  { intros x Hx. apply list_elem_of_In, repeat_spec in Hx as ->.
    reflexivity. }
  exists entry. split; [reflexivity |]. split; [exact Hentry | exact Hnan].
Defined.

(** ** Results tables *)

Section ResultsProps.
Import Results.




End ResultsProps.


(** ** Normalised vectors *)

Section NormalizerProps.
Import Normalizer.
Local Open Scope float_scope.

Lemma sum_nan_elem (l : list float) (acc x : float) :
  x ∈ l -> is_nan x = true ->
  is_nan (foldl (fun acc x => acc + x) acc l) = true.
Proof.
  revert acc. induction l as [| a l IH]; intros acc Hx Hnan; cbn [foldl].
  - by apply not_elem_of_nil in Hx.
  - apply elem_of_cons in Hx as [<- | Hx]; [| by apply IH].
    by apply foldl_add_nan, add_nan_r.
Qed.

Lemma sum_zero (l : list float) (acc : float) :
  (exists s, Prim2SF acc = S754_zero s) ->
  (forall x, x ∈ l -> (x =? 0) = true) ->
  exists s, Prim2SF (foldl (fun acc x => acc + x) acc l) = S754_zero s.
Proof.
  revert acc. induction l as [| a l IH]; intros acc Hacc Hzero;
    cbn [foldl]; [done |].
  apply IH; [| intros y Hy; apply Hzero; by right].
  destruct Hacc as [sa Ha].
  destruct (eqb_zero_spec a (Hzero a (list_elem_of_here _ _))) as [sx Hx].
  rewrite FloatAxioms.add_spec, Ha, Hx. destruct sa, sx; cbn; eauto.
Qed.

Lemma ltb_zero_nan (x : float) : is_nan x = true -> (0 <? x) = false.
Proof.
  intros Hx%is_nan_spec. by rewrite FloatAxioms.ltb_spec, Hx.
Qed.

Lemma ltb_zero_zero (x : float) (s : bool) :
  Prim2SF x = S754_zero s -> (0 <? x) = false.
Proof.
  intros Hx. rewrite FloatAxioms.ltb_spec, Hx.
  by change (Prim2SF 0) with (S754_zero false).
Qed.

End NormalizerProps.

(** X22: [normalize_vector] on an array returns the integer 0, not an
    array, when every entry is zero and when some entry is NaN; an array
    that it returns has the length of its input. *)
Theorem normalize_vector_degenerate (vector : list float)
    (as_percentage : bool) :
  ((forall x, x ∈ vector -> (x =? 0)%float = true) ->
   Normalizer.normalize_vector vector as_percentage = Normalizer.Zero)
  /\ (forall x, x ∈ vector -> is_nan x = true ->
        Normalizer.normalize_vector vector as_percentage = Normalizer.Zero)
  /\ (forall v,
        Normalizer.normalize_vector vector as_percentage
        = Normalizer.Vector v ->
        length v = length vector).
Proof.
  unfold Normalizer.normalize_vector, Np.sum. split; [| split].
  - intros Hzero.
    destruct (sum_zero vector 0%float) as [s Hs]; [by exists false | done |].
    by rewrite (ltb_zero_zero _ s).
  - intros x Hx Hnan.
    by rewrite ltb_zero_nan by (by apply sum_nan_elem with x).
  - intros v. destruct (0 <? _)%float; [| done].
    intros [= <-]. by rewrite length_map.
Qed.

Lemma normalize_vector_degenerate_witness :
  Normalizer.normalize_vector (repeat 0%float 16) false = Normalizer.Zero
  /\ Normalizer.normalize_vector (1 :: nan :: repeat 0 14)%float true
     = Normalizer.Zero
  /\ Normalizer.normalize_vector [1; 3]%float false
     = Normalizer.Vector [0.25; 0.75]%float.
Proof.
  split; [| split].
  - refine (proj1 (normalize_vector_degenerate (repeat 0%float 16) false) _).
    intros x Hx. apply list_elem_of_In, repeat_spec in Hx as ->.
    reflexivity.
  - refine (proj1 (proj2 (normalize_vector_degenerate
                            (1 :: nan :: repeat 0 14)%float true))
                  nan _ _); [right; left | reflexivity].
  - vm_compute. reflexivity.
Defined.

(** ** Loading a file *)

Section LoaderProps.
Import Loader.

Lemma split_nonempty (sep : ascii) (s : string) : PyStr.split sep s <> [].
Proof.
  destruct s as [| c s]; cbn [PyStr.split]; [done |].
  destruct (Ascii.eqb c sep); [done |].
  by destruct (PyStr.split sep s).
Qed.

Lemma split_app (sep : ascii) (a b : string) :
  PyStr.split sep (String.append a (String sep b))
  = PyStr.split sep a ++ PyStr.split sep b.
Proof.
  induction a as [| c a IH].
  - change (String.append EmptyString (String sep b)) with (String sep b).
    cbn [PyStr.split]. by rewrite Ascii.eqb_refl.
  - change (String.append (String c a) (String sep b))
      with (String c (String.append a (String sep b))).
    cbn [PyStr.split]. rewrite IH. destruct (Ascii.eqb c sep); [done |].
    pose proof (split_nonempty sep a) as Hne.
    by destruct (PyStr.split sep a).
Qed.

Lemma split_no_sep (sep : ascii) (s : string) :
  (forall c, In c (list_ascii_of_string s) -> c <> sep) ->
  PyStr.split sep s = [s].
Proof.
  induction s as [| c s IH]; intros Hno; cbn [PyStr.split]; [done |].
  cbn [list_ascii_of_string] in Hno.
  destruct (Ascii.eqb_spec c sep) as [-> | Hne].
  - by destruct (Hno sep (or_introl eq_refl)).
  - rewrite IH; [done |]. intros c' Hc'. apply Hno. by right.
Qed.

Lemma last_app_nonempty {A : Type} (l1 l2 : list A) (d : A) :
  l2 <> [] -> List.last (l1 ++ l2) d = List.last l2 d.
Proof.
  intros Hne. induction l1 as [| a l1 IH]; [done |].
  cbn [app]. rewrite <- IH. cbn [List.last].
  destruct (l1 ++ l2) eqn:E; [| done].
  apply app_eq_nil in E as [_ ->]. done.
Qed.

Lemma file_extension_append (stem ext : string) :
  (forall c, In c (list_ascii_of_string ext) -> c <> "."%char) ->
  file_extension (String.append stem (String "." ext)) = ext.
Proof.
  intros Hno. unfold file_extension.
  rewrite split_app, last_app_nonempty by apply split_nonempty.
  by rewrite split_no_sep.
Qed.

End LoaderProps.

(** X23: [load_data] chooses the reader by what follows the last dot of the
    path: [csv] goes to [read_csv], [json] to [read_json], both with [head]
    as [nrows], and every other extension (other letter case included)
    leaves [df] unbound, so that the call raises. *)
Theorem load_data_by_extension (stem ext : string) (head : option Z) :
  (forall c, In c (list_ascii_of_string ext) -> c <> "."%char) ->
  let file_path := String.append stem (String "." ext) in
  Loader.load_data file_path head
  = if decide (ext = "csv") then Some (Loader.read_csv file_path head)
    else if decide (ext = "json") then Some (Loader.read_json file_path head)
    else None.
Proof.
  intros Hno file_path. unfold Loader.load_data, file_path.
  rewrite file_extension_append by done.
  destruct (String.eqb_spec ext "csv") as [-> | Hcsv]; [done |].
  rewrite decide_False by done.
  destruct (String.eqb_spec ext "json") as [-> | Hjson]; [done |].
  by rewrite decide_False by done.
Qed.

Lemma load_data_by_extension_witness :
  Loader.load_data "datasets/goodreads/goodreads_book_genres_initial.json"
    None
  = Some (Loader.read_json
            "datasets/goodreads/goodreads_book_genres_initial.json" None)
  /\ Loader.load_data "goodreads_interactions.CSV" (Some 500) = None.
Proof.
  split.
  - refine (load_data_by_extension
              "datasets/goodreads/goodreads_book_genres_initial" "json"
              None _).
    intros c Hc. cbn in Hc.
    repeat (destruct Hc as [<- | Hc]; [discriminate |]). done.
  - refine (load_data_by_extension "goodreads_interactions" "CSV"
              (Some 500) _).
    intros c Hc. cbn in Hc.
    repeat (destruct Hc as [<- | Hc]; [discriminate |]). done.
Defined.

(** ** The users table *)

Section UsersTable.
Import Tables.

Lemma StronglySorted_le_lt (l : list Z) :
  NoDup l -> StronglySorted Z.le l -> StronglySorted Z.lt l.
Proof.
  induction l as [| x l IH]; intros Hnd Hs; [constructor |].
  apply NoDup_cons in Hnd as [Hx Hnd].
  apply StronglySorted_cons in Hs as [Hall Hs].
  constructor; [by apply IH |].
  rewrite Forall_forall in Hall |- *. intros y Hy.
  specialize (Hall y Hy). assert (x <> y) by (by intros ->). lia.
Qed.

Lemma group_keys_sorted (df : list interaction) :
  StronglySorted Z.lt (group_keys df).
Proof.
  unfold group_keys. apply StronglySorted_le_lt.
  - rewrite merge_sort_Permutation. apply NoDup_drop_duplicates.
  - apply StronglySorted_merge_sort; apply _.
Qed.

Lemma filter_filter_swap {A : Type} (P Q : A -> Prop)
    `{!forall x, Decision (P x)} `{!forall x, Decision (Q x)} (l : list A) :
  filter P (filter Q l) = filter Q (filter P l).
Proof.
  induction l as [| x l IH]; [done |].
  rewrite !filter_cons.
  destruct (decide (Q x)), (decide (P x)); rewrite ?filter_cons;
    repeat case_decide; try done; by rewrite IH.
Qed.

Lemma sum_is_read (l : list interaction) :
  (forall r, r ∈ l -> is_read r = 0 \/ is_read r = 1) ->
  forall acc,
    foldl Z.add acc (map is_read l)
    = acc + Z.of_nat (length (filter (fun r => is_read r = 1) l)).
Proof.
  induction l as [| r l IH]; intros Hbit acc; cbn [map foldl].
  - cbn. lia.
  - rewrite IH by (intros r' Hr'; apply Hbit; by right).
    rewrite filter_cons.
    destruct (Hbit r (list_elem_of_here _ _)) as [Hr | Hr];
      destruct (decide (is_read r = 1)); cbn [length]; lia.
Qed.

End UsersTable.

(** X24: the rows of the users table. [get_users_df] keeps one row per user
    of the table it is given, in ascending order of [user_id]; when
    [is_read] is 0 or 1 on every row, the total that selects a user's
    [read_proba] is the number of books the user has read, the count by
    which [process_df_users_raw] assigns the tiers. *)
Theorem get_users_df_rows (df : list Tables.interaction) (steps : Z)
    (thresholds : Z * Z * Z) (table : list (Z * Z * float)) :
  UserAggregator.get_users_df_read_proba df steps thresholds
  = Py.Ok table ->
  StronglySorted Z.lt (map (fun r => r.1.1) table)
  /\ (forall u, u ∈ map (fun r => r.1.1) table
                <-> u ∈ map Tables.user_id df)
  /\ ((forall r, r ∈ df ->
         Tables.is_read r = 0 \/ Tables.is_read r = 1) ->
      forall uid total p,
        (uid, total, p) ∈ table ->
        total = Specification.books_read df uid).
Proof.
  unfold UserAggregator.get_users_df_read_proba.
  destruct (UserAggregator.readers_proba thresholds steps) as [probas | e];
    cbn [Py.bind]; [| done].
  intros [= <-].
  set (users_df := Tables.groupby_sum_is_read df).
  set (column := UserAggregator.where_read_proba thresholds probas
                   (map snd users_df)).
  assert (Hfst : map fst (zip users_df column) = users_df).
  { apply fst_zip. unfold column, UserAggregator.where_read_proba.
    by rewrite !length_map. }
  assert (Hkeys : map (fun r : Z * Z * float => r.1.1) (zip users_df column)
                  = Tables.group_keys df).
  { rewrite <- (map_map fst fst), Hfst.
    unfold users_df, Tables.groupby_sum_is_read. rewrite map_map.
    apply map_id. }
  rewrite Hkeys. split; [apply group_keys_sorted |].
  split; [intros u; apply elem_of_group_keys |].
  intros Hbit uid total p Hin.
  assert (Hrow : (uid, total) ∈ users_df).
  { rewrite <- Hfst. apply elem_of_map. by exists (uid, total, p). }
  unfold users_df, Tables.groupby_sum_is_read in Hrow.
  apply elem_of_map in Hrow as (u & [= -> ->] & _).
  rewrite sum_is_read.
  - unfold Specification.books_read. rewrite Z.add_0_l. do 2 f_equal.
    apply filter_filter_swap.
  - intros r [_ Hr]%list_elem_of_filter. by apply Hbit.
Qed.

Lemma get_users_df_rows_witness :
  exists table,
    UserAggregator.get_users_df_read_proba Sampler.rows_ba 10 (5, 20, 50)
    = Py.Ok table
    /\ StronglySorted Z.lt (map (fun r => r.1.1) table).
Proof.
  eexists. split; [vm_compute; reflexivity |].
  refine (proj1 (get_users_df_rows Sampler.rows_ba 10 (5, 20, 50) _ _)).
  vm_compute. reflexivity.
Defined.
